(** * Supply-chain units of MARO: consumer, vehicle and simple manufacture

    A shallow embedding of
      maro/simulator/scenarios/supply_chain/units/consumer.py
      maro/simulator/scenarios/supply_chain/units/vehicle.py
      maro/simulator/scenarios/supply_chain/units/simplemanufacture.py
    and of the parts of their collaborators that these files call, followed
    by
      maro/simulator/scenarios/supply_chain/units/product.py
        ([_get_max_vlt] and [generate])
      maro/rl/local/local_learner.py ([__init__], [run] and [_collect])
      maro/rl/training/actor_proxy.py ([_on_rollout_finish]).

    Python integers are unbounded, so every quantity is a [Z]; the one
    exception is the consumer's pending-order window, which is a NumPy int64
    array from the first tick on and whose arithmetic wraps.  Objects that
    the program shares by reference (facilities, their storage, the consumer
    of a product) live in one store keyed by facility id; a unit holds the id,
    never a copy.  A method is a computation over the state it mutates that
    completes normally, by a [return] statement, or by raising. *)

From Stdlib Require Import ZArith Lia Bool List.
From stdpp Require Import base option list strings gmap sorting.
Import ListNotations.

Local Open Scope Z_scope.

(** ** Python control flow *)

Module Py.

(** The exceptions the modelled code can raise. *)
Inductive exn : Type :=
| KeyError            (* d[k] with k absent *)
| AttributeError      (* attribute access on None *)
| IndexError          (* l[i] out of range *)
| ZeroDivisionError   (* a // 0 *)
| OverflowError       (* a Python integer that does not fit an int64 *)
| TypeError           (* len(None) *)
| Unreachable         (* Exception("Destination ... is unreachable") *)
| CollaboratorError   (* raised inside a collaborator that is not modelled *)
| DanglingId.         (* an id that names no facility of the store; a Python
                         reference always has a target, so no run raises it *)

(** How a statement completes. *)
Inductive completion (A : Type) : Type :=
| Normal (a : A)
| Return           (* a bare [return] was executed *)
| Raise (e : exn).
Arguments Normal {A} a.
Arguments Return {A}.
Arguments Raise {A} e.

(** A computation over a mutable state [S]; the state survives a raise. *)
Definition M (S A : Type) : Type := S -> completion A * S.

Definition ret {S A} (a : A) : M S A := fun s => (Normal a, s).
Definition return_ {S A} : M S A := fun s => (Return, s).
Definition raise {S A} (e : exn) : M S A := fun s => (Raise e, s).

Definition bind {S A B} (m : M S A) (k : A -> M S B) : M S B :=
  fun s =>
    match m s with
    | (Normal a, s') => k a s'
    | (Return, s') => (Return, s')
    | (Raise e, s') => (Raise e, s')
    end.

Definition get {S} : M S S := fun s => (Normal s, s).
Definition put {S} (s : S) : M S unit := fun _ => (Normal tt, s).
Definition modify {S} (f : S -> S) : M S unit := fun s => (Normal tt, f s).

(** [if c: body] with no else branch. *)
Definition when {S} (c : bool) (body : M S unit) : M S unit :=
  if c then body else ret tt.

(** The boundary of a function that returns nothing: a [return] inside the
    body ends the call normally. *)
Definition fn {S} (body : M S unit) : M S unit :=
  fun s =>
    match body s with
    | (Return, s') => (Normal tt, s')
    | r => r
    end.

(** The result of a collaborator's call, lifted into a computation. *)
Definition call {S A} (r : exn + A) : M S A :=
  match r with
  | inl e => raise e
  | inr a => ret a
  end.

(** Python's index normalisation for a sequence of length [n]:
    [0 <= i < n] is position [i], [-n <= i < 0] is position [n + i],
    anything else raises IndexError. *)
Definition index (n : nat) (i : Z) : option nat :=
  if (0 <=? i) && (i <? Z.of_nat n) then Some (Z.to_nat i)
  else if (- Z.of_nat n <=? i) && (i <? 0) then Some (Z.to_nat (Z.of_nat n + i))
  else None.

(** [a // b]: floor division, which raises on a zero divisor. *)
Definition floordiv (a b : Z) : exn + Z :=
  if b =? 0 then inl ZeroDivisionError else inr (a / b).

End Py.

Import Py.

(** ** NumPy's 64-bit integers *)

Module Numpy.

(** An int64 holds the integers from [int64_min] to [int64_max]. *)
Definition int64_min : Z := -9223372036854775808.
Definition int64_max : Z := 9223372036854775807.

Definition fits (z : Z) : bool := (int64_min <=? z) && (z <=? int64_max).

(** Arithmetic on int64 wraps around in two's complement. *)
Definition wrap (z : Z) : Z :=
  (z + 9223372036854775808) mod 18446744073709551616 - 9223372036854775808.

(** [a[i] += d] on a one-dimensional int64 array, with [d] a Python integer:
    the element is read, which raises IndexError when [i] is out of range
    (indices are normalised as Python's are); [d] is converted to int64,
    which raises OverflowError when it does not fit; the sum wraps around
    and is stored. *)
Definition iadd_item (a : list Z) (i d : Z) : exn + list Z :=
  match index (length a) i with
  | Some k =>
      if fits d then inr (alter (fun x => wrap (x + d)) k a)
      else inl OverflowError
  | None => inl IndexError
  end.

End Numpy.

Declare Scope py_scope.
Delimit Scope py_scope with py.
Notation "x <- m ;; k" := (bind m (fun x => k))
  (at level 100, m at next level, k at level 200, right associativity) : py_scope.
Notation "m ;;; k" := (bind m (fun _ => k))
  (at level 100, k at level 200, right associativity) : py_scope.

Local Open Scope py_scope.

(** ** Value objects *)

(** The action a consumer receives for a tick: the fields [ConsumerUnit.step]
    reads from [self.action]. *)
Module ConsumerAction.
Record t : Type := mk {
  source_id : Z;
  product_id : Z;
  quantity : Z;
  vlt : Z
}.
End ConsumerAction.

(** [Order(destination, product_id, quantity, vlt)]; the destination is the
    id of the ordering facility. *)
Module Order.
Record t : Type := mk {
  destination : Z;
  product_id : Z;
  quantity : Z;
  vlt : Z
}.
End Order.

(** ** Storage *)

Module StorageUnit.

(** Modelled from the spec: the storage unit (units/storage.py is not among
    the sources).  Section 3 gives its state, a total capacity and a
    quantity per product id; section 4.1 gives [try_take] and [try_add].
    A batch is a Python dict, kept here as its items in iteration order. *)
Record t : Type := mk {
  capacity : Z;
  product_level : gmap Z Z
}.

Definition total_quantity (s : t) : Z :=
  map_fold (fun _ q acc => q + acc) 0 (product_level s).

(** Capacity is one scalar cap on the sum of all quantities. *)
Definition remaining_space (s : t) : Z := capacity s - total_quantity s.

Definition get_product_number (s : t) (product_id : Z) : Z :=
  default 0 (product_level s !! product_id).

Definition add_level (product_id delta : Z) (s : t) : t :=
  {| capacity := capacity s;
     product_level :=
       <[product_id := get_product_number s product_id + delta]> (product_level s) |}.

(** Modelled from the spec: [try_take] succeeds only if every requested
    product has quantity >= the requested amount. *)
Definition can_take (requests : list (Z * Z)) (s : t) : bool :=
  forallb (fun r => r.2 <=? get_product_number s r.1) requests.

(** Modelled from the spec: on success every requested quantity is
    decremented, on failure nothing is modified. *)
Definition try_take_products (requests : list (Z * Z)) : M t bool :=
  s <- get ;;
  if can_take requests s
  then modify (fun s => fold_left (fun s r => add_level r.1 (- r.2) s) requests s) ;;;
       ret true
  else ret false.

(** Modelled from the spec: partial delivery adds as much of each product as
    the remaining capacity allows and reports the amount added per product,
    which may be zero. *)
Fixpoint add_each (deliveries : list (Z * Z)) (s : t) : list (Z * Z) * t :=
  match deliveries with
  | [] => ([], s)
  | (product_id, quantity) :: rest =>
      let added := Z.max 0 (Z.min (remaining_space s) quantity) in
      let (out, s') := add_each rest (add_level product_id added s) in
      ((product_id, added) :: out, s')
  end.

Definition requested_total (deliveries : list (Z * Z)) : Z :=
  fold_right (fun r acc => r.2 + acc) 0 deliveries.

(** Modelled from the spec: with [all_or_nothing] the batch is added whole
    or not at all. *)
Definition try_add_products (deliveries : list (Z * Z)) (all_or_nothing : bool)
  : M t (list (Z * Z)) :=
  fun s =>
    if all_or_nothing && (remaining_space s <? requested_total deliveries)
    then (Normal [], s)
    else let (out, s') := add_each deliveries s in (Normal out, s').

End StorageUnit.

(** ** Consumer *)

Module ConsumerDataModel.

(** Modelled from the spec: the consumer's attributes in the attribute store
    (datamodels/consumer.py is not among the sources); section 6 has the
    core write typed scalars and reset them.  The fields are the ones
    consumer.py writes, and the two that [initialize] receives.
    [latest_consumptions] is the flag 1.0 / 0, kept as an integer. *)
Record t : Type := mk {
  price : Z;
  order_cost : Z;
  latest_consumptions : Z;
  order_product_cost : Z;
  received : Z;
  total_received : Z;
  purchased : Z;
  total_purchased : Z;
  order_quantity : Z
}.

(** Modelled from the spec: [reset] zeroes the attributes and re-applies the
    configured ones, as [SellerDataModel.reset] does in datamodels/seller.py. *)
Definition reset (d : t) : t :=
  {| price := price d; order_cost := order_cost d;
     latest_consumptions := 0; order_product_cost := 0;
     received := 0; total_received := 0;
     purchased := 0; total_purchased := 0; order_quantity := 0 |}.

(** Modelled from the spec: [initialize] stores the configuration and resets. *)
Definition initialize (price order_cost : Z) (d : t) : t :=
  reset {| price := price; order_cost := order_cost;
           latest_consumptions := latest_consumptions d;
           order_product_cost := order_product_cost d;
           received := received d; total_received := total_received d;
           purchased := purchased d; total_purchased := total_purchased d;
           order_quantity := order_quantity d |}.

Definition fresh : t := mk 0 0 0 0 0 0 0 0 0.

Definition set_latest_consumptions (v : Z) (d : t) : t :=
  mk (price d) (order_cost d) v (order_product_cost d) (received d)
     (total_received d) (purchased d) (total_purchased d) (order_quantity d).
Definition set_order_product_cost (v : Z) (d : t) : t :=
  mk (price d) (order_cost d) (latest_consumptions d) v (received d)
     (total_received d) (purchased d) (total_purchased d) (order_quantity d).
Definition set_received (v : Z) (d : t) : t :=
  mk (price d) (order_cost d) (latest_consumptions d) (order_product_cost d) v
     (total_received d) (purchased d) (total_purchased d) (order_quantity d).
Definition set_total_received (v : Z) (d : t) : t :=
  mk (price d) (order_cost d) (latest_consumptions d) (order_product_cost d)
     (received d) v (purchased d) (total_purchased d) (order_quantity d).
Definition set_purchased (v : Z) (d : t) : t :=
  mk (price d) (order_cost d) (latest_consumptions d) (order_product_cost d)
     (received d) (total_received d) v (total_purchased d) (order_quantity d).
Definition set_total_purchased (v : Z) (d : t) : t :=
  mk (price d) (order_cost d) (latest_consumptions d) (order_product_cost d)
     (received d) (total_received d) (purchased d) v (order_quantity d).

End ConsumerDataModel.


Module ConsumerUnit.

(** The Python-side state of a consumer.  [facility] is the id of the owning
    facility, [action] the field [UnitBase] keeps between [set_action] and
    [post_step].  [open_orders] is a [defaultdict(Counter)]: source id, then
    product id, to outstanding quantity.  [pending_order_daily] is [None] in
    the constructor, a list of zeros after [initialize] and [reset], and the
    int64 array the shift returned from the first [step] on; it is modelled
    from [initialize] on, by its entries. *)
Record t : Type := mk {
  facility : Z;
  product_id : Z;
  action : option ConsumerAction.t;
  data_model : ConsumerDataModel.t;
  open_orders : gmap Z (gmap Z Z);
  received : Z;
  purchased : Z;
  sources : list Z;
  pending_order_daily : list Z;
  order_product_cost : Z
}.

Definition set_action_field (v : option ConsumerAction.t) (c : t) : t :=
  mk (facility c) (product_id c) v (data_model c) (open_orders c) (received c)
     (purchased c) (sources c) (pending_order_daily c) (order_product_cost c).
Definition set_data_model (v : ConsumerDataModel.t) (c : t) : t :=
  mk (facility c) (product_id c) (action c) v (open_orders c) (received c)
     (purchased c) (sources c) (pending_order_daily c) (order_product_cost c).
Definition set_open_orders (v : gmap Z (gmap Z Z)) (c : t) : t :=
  mk (facility c) (product_id c) (action c) (data_model c) v (received c)
     (purchased c) (sources c) (pending_order_daily c) (order_product_cost c).
Definition set_received (v : Z) (c : t) : t :=
  mk (facility c) (product_id c) (action c) (data_model c) (open_orders c) v
     (purchased c) (sources c) (pending_order_daily c) (order_product_cost c).
Definition set_purchased (v : Z) (c : t) : t :=
  mk (facility c) (product_id c) (action c) (data_model c) (open_orders c) (received c)
     v (sources c) (pending_order_daily c) (order_product_cost c).
Definition set_sources (v : list Z) (c : t) : t :=
  mk (facility c) (product_id c) (action c) (data_model c) (open_orders c) (received c)
     (purchased c) v (pending_order_daily c) (order_product_cost c).
Definition set_pending_order_daily (v : list Z) (c : t) : t :=
  mk (facility c) (product_id c) (action c) (data_model c) (open_orders c) (received c)
     (purchased c) (sources c) v (order_product_cost c).
Definition set_order_product_cost (v : Z) (c : t) : t :=
  mk (facility c) (product_id c) (action c) (data_model c) (open_orders c) (received c)
     (purchased c) (sources c) (pending_order_daily c) v.

(** [__init__]: the state a consumer is constructed with. *)
Definition new (facility product_id : Z) : t :=
  {| facility := facility; product_id := product_id; action := None;
     data_model := ConsumerDataModel.fresh;
     open_orders := ∅; received := 0; purchased := 0; sources := [];
     pending_order_daily := []; order_product_cost := 0 |}.

(** Reading [open_orders[source_id][product_id]]: a missing source or
    product counts as 0. *)
Definition open_order (orders : gmap Z (gmap Z Z)) (source_id product_id : Z) : Z :=
  default 0 (default ∅ (orders !! source_id) !! product_id).

(** [self.open_orders[source_id][product_id] += qty_delta]: the defaultdict
    creates the source's Counter when it is missing, the Counter reads a
    missing product as 0, and the sum is stored. *)
Definition iadd_open_order (source_id product_id qty_delta : Z)
    (orders : gmap Z (gmap Z Z)) : gmap Z (gmap Z Z) :=
  let counter := default ∅ (orders !! source_id) in
  <[source_id := <[product_id := default 0 (counter !! product_id) + qty_delta]> counter]>
    orders.

Definition update_open_orders (source_id product_id qty_delta : Z) : M t unit :=
  if 0 <? qty_delta
  then (* New order for product. *)
    modify (fun c => set_open_orders
                       (iadd_open_order source_id product_id qty_delta (open_orders c)) c)
  else (* An order is completed, update the remaining number. *)
    modify (fun c => set_open_orders
                       (iadd_open_order source_id product_id qty_delta (open_orders c)) c).

Definition on_order_reception (source_id product_id quantity original_quantity : Z)
  : M t unit :=
  modify (fun c => set_received (received c + quantity) c) ;;;
  update_open_orders source_id product_id (- original_quantity).

(** What [initialize] reads of an upstream facility: its id, the keys of its
    [products] dict (or None) and the keys of its [skus] dict. *)
Record source_facility : Type := mk_source {
  source_id : Z;
  source_products : option (gset Z);
  source_skus : gset Z
}.

(** What [initialize] reads of the world around the unit. *)
Record environment : Type := mk_environment {
  pending_order_len : Z;              (* world.configs.settings["pending_order_len"] *)
  sku_price : Z;                      (* facility.skus[product_id].price *)
  order_cost : Z;                     (* facility.get_config("order_cost") *)
  upstreams : option (gmap Z (list source_facility));   (* facility.upstreams *)
  is_supplier : bool;                 (* parent.manufacture is not None *)
  sku_id : Z;                         (* world.get_sku_by_id(product_id).id *)
  sku_bom : list Z                    (* world.get_sku_by_id(product_id).bom.keys() *)
}.

(** [[0] * n]. *)
Definition zeros (n : Z) : list Z := repeat 0 (Z.to_nat n).

(** The ids [initialize] appends for one upstream facility. *)
Definition sources_of (env : environment) (f : source_facility) : list Z :=
  if is_supplier env
  then match source_products f with
       | Some products =>
           flat_map (fun source_sku_id =>
                       if decide (source_sku_id ∈ products) then [source_id f] else [])
                    (sku_bom env)
       | None => []
       end
  else if decide (sku_id env ∈ source_skus f) then [source_id f] else [].

(** [initialize]; the warning for a consumer without sources changes no state. *)
Definition initialize (env : environment) : M t unit :=
  modify (fun c => set_pending_order_daily (zeros (pending_order_len env)) c) ;;;
  modify (fun c => set_data_model
                     (ConsumerDataModel.initialize (sku_price env) (order_cost env)
                        (data_model c)) c) ;;;
  c <- get ;;
  match upstreams env with
  | Some ups =>
      match ups !! product_id c with
      | Some srcs =>
          modify (fun c => set_sources (sources c ++ flat_map (sources_of env) srcs) c)
      | None => ret tt
      end
  | None => ret tt
  end.

(** The guard of [step]: [not self.action or quantity <= 0 or product_id <= 0
    or source_id == 0]. *)
Definition ignored (a : option ConsumerAction.t) : bool :=
  match a with
  | None => true
  | Some a =>
      (ConsumerAction.quantity a <=? 0)
      || (ConsumerAction.product_id a <=? 0)
      || (ConsumerAction.source_id a =? 0)
  end.

Section Step.

(** [scipy.ndimage.shift(input, shift, cval=cval)] on a one-dimensional
    window of integers: a library function, which interpolates with a spline
    of order 3 in float64 and returns an int64 array of the entries moved by
    [shift] slots, with [cval] where no entry moves in.  The entries come
    back as they were only as far as the float64 computation is exact, so
    the function is a parameter: the unit sees the array it returns. *)
Variable shift : list Z -> Z -> Z -> list Z.

Definition _update_pending_order : M t unit :=
  modify (fun c => set_pending_order_daily (shift (pending_order_daily c) (-1) 0) c).

(** [self.world.get_facility_by_id(source_id).distribution.place_order(order)]:
    the distribution unit is a collaborator that keeps its own queue; the
    consumer sees the order cost it returns, or the exception it raises. *)
Variable place_order : Z -> Order.t -> exn + Z.

Definition step (tick : Z) : M t unit :=
  fn (
    _update_pending_order ;;;
    c <- get ;;
    (* NOTE: id == 0 means invalid, as our id is 1 based. *)
    match action c with
    | None => return_
    | Some a =>
      if ignored (Some a) then return_ else
      update_open_orders (ConsumerAction.source_id a) (ConsumerAction.product_id a)
                         (ConsumerAction.quantity a) ;;;
      let order := Order.mk (facility c) (ConsumerAction.product_id a)
                            (ConsumerAction.quantity a) (ConsumerAction.vlt a) in
      cost <- call (place_order (ConsumerAction.source_id a) order) ;;
      modify (set_order_product_cost cost) ;;;
      modify (set_purchased (ConsumerAction.quantity a)) ;;;
      modify (fun c => set_data_model
                         (ConsumerDataModel.set_latest_consumptions 1 (data_model c)) c) ;;;
      c <- get ;;
      (if Order.vlt order <? Z.of_nat (length (pending_order_daily c))
       then
         (* the window is the int64 array the shift returned *)
         l <- call (Numpy.iadd_item (pending_order_daily c) (Order.vlt order - 1)
                                    (Order.quantity order)) ;;
         modify (set_pending_order_daily l)
       else ret tt) ;;;
      c <- get ;;
      when (0 <? order_product_cost c)
        (modify (fun c => set_data_model
                            (ConsumerDataModel.set_order_product_cost
                               (order_product_cost c) (data_model c)) c))
    end).

End Step.

Definition flush_states : M t unit :=
  c <- get ;;
  when (0 <? received c)
    (modify (fun c => set_data_model
       (ConsumerDataModel.set_total_received
          (ConsumerDataModel.total_received (data_model c) + received c)
          (ConsumerDataModel.set_received (received c) (data_model c))) c)) ;;;
  c <- get ;;
  when (0 <? purchased c)
    (modify (fun c => set_data_model
       (ConsumerDataModel.set_total_purchased
          (ConsumerDataModel.total_purchased (data_model c) + purchased c)
          (ConsumerDataModel.set_purchased (purchased c) (data_model c))) c)).

(** [post_step]; the call to the base class clears the action ("This will set
    action to None"). *)
Definition post_step (tick : Z) : M t unit :=
  c <- get ;;
  when (bool_decide (action c <> None))
    (modify (fun c => set_data_model
                        (ConsumerDataModel.set_latest_consumptions 0 (data_model c)) c)) ;;;
  modify (set_action_field None) ;;;
  c <- get ;;
  when (0 <? received c)
    (modify (fun c => set_data_model (ConsumerDataModel.set_received 0 (data_model c)) c) ;;;
     modify (set_received 0)) ;;;
  c <- get ;;
  when (0 <? purchased c)
    (modify (fun c => set_data_model (ConsumerDataModel.set_purchased 0 (data_model c)) c) ;;;
     modify (set_purchased 0)) ;;;
  c <- get ;;
  when (0 <? order_product_cost c)
    (modify (fun c => set_data_model
                        (ConsumerDataModel.set_order_product_cost 0 (data_model c)) c)).

(** Modelled from the spec: [UnitBase.reset] (units/unitbase.py is not among
    the sources) resets the unit's attributes in the attribute store; the
    fields a subclass adds are the subclass's to reset. *)
Definition base_reset : M t unit :=
  modify (fun c => set_data_model (ConsumerDataModel.reset (data_model c)) c).

(** [reset]; the window length is [world.configs.settings["pending_order_len"]]. *)
Definition reset (pending_order_len : Z) : M t unit :=
  base_reset ;;;
  modify (set_pending_order_daily (zeros pending_order_len)) ;;;
  modify (set_open_orders ∅).


Definition get_in_transit_quantity (c : t) : Z :=
  map_fold (fun _ orders quantity => quantity + default 0 (orders !! product_id c))
           0 (open_orders c).

End ConsumerUnit.


(** ** Facilities and the store *)

Module ProductUnit.

(** The product unit of one sku at a facility, as the vehicle reaches through
    it: [products[product_id].consumer], which is None for a sku the facility
    produces. *)
Record t : Type := mk {
  consumer : option ConsumerUnit.t
}.

End ProductUnit.

Module Facility.

(** What the units read of a facility: its coordinates, its storage, its
    product units by product id and the ids of the skus it carries. *)
Record t : Type := mk {
  x : Z;
  y : Z;
  storage : StorageUnit.t;
  products : gmap Z ProductUnit.t;
  skus : gset Z
}.

Definition set_storage (v : StorageUnit.t) (f : t) : t :=
  mk (x f) (y f) v (products f) (skus f).
Definition set_products (v : gmap Z ProductUnit.t) (f : t) : t :=
  mk (x f) (y f) (storage f) v (skus f).

End Facility.

(** ** Vehicle *)

Module VehicleDataModel.

(** Modelled from the spec: the vehicle's attributes in the attribute store
    (datamodels/vehicle.py is not among the sources): the payload that
    vehicle.py writes and the unit transport cost that [initialize] passes. *)
Record t : Type := mk {
  payload : Z;
  unit_transport_cost : Z
}.

Definition fresh : t := mk 0 0.

(** Modelled from the spec: [reset] zeroes the attributes and re-applies the
    configured one, as [SellerDataModel.reset] does in datamodels/seller.py. *)
Definition reset (d : t) : t := mk 0 (unit_transport_cost d).

Definition initialize (unit_transport_cost : Z) (d : t) : t :=
  reset (mk (payload d) unit_transport_cost).

Definition set_payload (v : Z) (d : t) : t := mk v (unit_transport_cost d).

End VehicleDataModel.

Module VehicleUnit.

(** The Python-side state of a vehicle.  [facility] is the id of the facility
    the vehicle belongs to, [destination] the id of the facility it is bound
    for.  [max_patient] is None in the constructor and a number from
    [initialize] on; it is modelled from [initialize] on.  The constructor's
    [product] field is never assigned again and is left out. *)
Record t : Type := mk {
  facility : Z;
  config : gmap string Z;
  data_model : VehicleDataModel.t;
  max_patient : Z;
  destination : option Z;
  path : option (list (Z * Z));
  product_id : Z;
  steps : Z;
  payload : Z;
  location : Z;
  velocity : Z;
  requested_quantity : Z;
  patient : Z;
  cost : Z;
  unit_transport_cost : Z
}.

Definition set_data_model (a : VehicleDataModel.t) (v : t) : t :=
  mk (facility v) (config v) a (max_patient v) (destination v) (path v) (product_id v)
     (steps v) (payload v) (location v) (velocity v) (requested_quantity v) (patient v)
     (cost v) (unit_transport_cost v).
Definition set_max_patient (a : Z) (v : t) : t :=
  mk (facility v) (config v) (data_model v) a (destination v) (path v) (product_id v)
     (steps v) (payload v) (location v) (velocity v) (requested_quantity v) (patient v)
     (cost v) (unit_transport_cost v).
Definition set_destination (a : option Z) (v : t) : t :=
  mk (facility v) (config v) (data_model v) (max_patient v) a (path v) (product_id v)
     (steps v) (payload v) (location v) (velocity v) (requested_quantity v) (patient v)
     (cost v) (unit_transport_cost v).
Definition set_path (a : option (list (Z * Z))) (v : t) : t :=
  mk (facility v) (config v) (data_model v) (max_patient v) (destination v) a (product_id v)
     (steps v) (payload v) (location v) (velocity v) (requested_quantity v) (patient v)
     (cost v) (unit_transport_cost v).
Definition set_product_id (a : Z) (v : t) : t :=
  mk (facility v) (config v) (data_model v) (max_patient v) (destination v) (path v) a
     (steps v) (payload v) (location v) (velocity v) (requested_quantity v) (patient v)
     (cost v) (unit_transport_cost v).
Definition set_steps (a : Z) (v : t) : t :=
  mk (facility v) (config v) (data_model v) (max_patient v) (destination v) (path v)
     (product_id v) a (payload v) (location v) (velocity v) (requested_quantity v)
     (patient v) (cost v) (unit_transport_cost v).
Definition set_payload (a : Z) (v : t) : t :=
  mk (facility v) (config v) (data_model v) (max_patient v) (destination v) (path v)
     (product_id v) (steps v) a (location v) (velocity v) (requested_quantity v)
     (patient v) (cost v) (unit_transport_cost v).
Definition set_location (a : Z) (v : t) : t :=
  mk (facility v) (config v) (data_model v) (max_patient v) (destination v) (path v)
     (product_id v) (steps v) (payload v) a (velocity v) (requested_quantity v)
     (patient v) (cost v) (unit_transport_cost v).
Definition set_velocity (a : Z) (v : t) : t :=
  mk (facility v) (config v) (data_model v) (max_patient v) (destination v) (path v)
     (product_id v) (steps v) (payload v) (location v) a (requested_quantity v)
     (patient v) (cost v) (unit_transport_cost v).
Definition set_requested_quantity (a : Z) (v : t) : t :=
  mk (facility v) (config v) (data_model v) (max_patient v) (destination v) (path v)
     (product_id v) (steps v) (payload v) (location v) (velocity v) a
     (patient v) (cost v) (unit_transport_cost v).
Definition set_patient (a : Z) (v : t) : t :=
  mk (facility v) (config v) (data_model v) (max_patient v) (destination v) (path v)
     (product_id v) (steps v) (payload v) (location v) (velocity v) (requested_quantity v)
     a (cost v) (unit_transport_cost v).
Definition set_cost (a : Z) (v : t) : t :=
  mk (facility v) (config v) (data_model v) (max_patient v) (destination v) (path v)
     (product_id v) (steps v) (payload v) (location v) (velocity v) (requested_quantity v)
     (patient v) a (unit_transport_cost v).
Definition set_unit_transport_cost (a : Z) (v : t) : t :=
  mk (facility v) (config v) (data_model v) (max_patient v) (destination v) (path v)
     (product_id v) (steps v) (payload v) (location v) (velocity v) (requested_quantity v)
     (patient v) (cost v) a.

(** [__init__]: the state a vehicle is constructed with. *)
Definition new (facility : Z) (config : gmap string Z) : t :=
  {| facility := facility; config := config; data_model := VehicleDataModel.fresh;
     max_patient := 0; destination := None; path := None; product_id := 0;
     steps := 0; payload := 0; location := 0; velocity := 0;
     requested_quantity := 0; patient := 0; cost := 0; unit_transport_cost := 0 |}.

(** What a vehicle's method runs over: the store of facilities and the
    vehicle itself. *)
Record sim : Type := mk_sim {
  world : gmap Z Facility.t;
  self : t
}.

Definition self_ : M sim t := fun s => (Normal (self s), s).
Definition modify_self (f : t -> t) : M sim unit :=
  fun s => (Normal tt, mk_sim (world s) (f (self s))).

(** Following a facility reference. *)
Definition facility_of (fid : Z) : M sim Facility.t :=
  fun s =>
    match world s !! fid with
    | Some f => (Normal f, s)
    | None => (Raise DanglingId, s)
    end.

(** A method call on the storage of facility [fid]: it runs on the stored
    object and its effect stays in the store. *)
Definition storage_call {A} (fid : Z) (m : M StorageUnit.t A) : M sim A :=
  f <- facility_of fid ;;
  fun s =>
    let (r, st) := m (Facility.storage f) in
    (r, mk_sim (<[fid := Facility.set_storage st f]> (world s)) (self s)).

(** A method call on [destination.products[product_id].consumer]. *)
Definition consumer_call {A} (destination : option Z) (product_id : Z)
    (m : M ConsumerUnit.t A) : M sim A :=
  match destination with
  | None => raise AttributeError
  | Some d =>
      f <- facility_of d ;;
      match Facility.products f !! product_id with
      | None => raise KeyError
      | Some pu =>
          match ProductUnit.consumer pu with
          | None => raise AttributeError
          | Some c =>
              fun s =>
                let (r, c') := m c in
                (r, mk_sim
                      (<[d := Facility.set_products
                                (<[product_id := ProductUnit.mk (Some c')]>
                                   (Facility.products f)) f]> (world s))
                      (self s))
          end
      end
  end.

Section Schedule.

(** [self.world.find_path(x1, y1, x2, y2)]: the path-finding collaborator,
    a waypoint sequence or None. *)
Variable find_path : Z -> Z -> Z -> Z -> option (list (Z * Z)).

Definition schedule (destination product_id quantity vlt : Z) : M sim unit :=
  modify_self (set_product_id product_id) ;;;
  modify_self (set_destination (Some destination)) ;;;
  modify_self (set_requested_quantity quantity) ;;;
  (* Find the path from current entity to target. *)
  v <- self_ ;;
  src <- facility_of (facility v) ;;
  dst <- facility_of destination ;;
  modify_self (set_path (find_path (Facility.x src) (Facility.y src)
                                   (Facility.x dst) (Facility.y dst))) ;;;
  v <- self_ ;;
  match path v with
  | None => raise Unreachable
  | Some _ =>
      (* Steps to destination. *)
      modify_self (set_steps vlt) ;;;
      (* We are waiting for product loading. *)
      modify_self (set_location 0) ;;;
      modify_self (set_velocity vlt) ;;;
      modify_self (fun v => set_patient (max_patient v) v)
  end.

End Schedule.

Definition try_load (quantity : Z) : M sim bool :=
  v <- self_ ;;
  taken <- storage_call (facility v)
             (StorageUnit.try_take_products [(product_id v, quantity)]) ;;
  if taken
  then
    modify_self (set_payload quantity) ;;;
    (* Write to frame, as we do not need to update it per tick. *)
    modify_self (fun v => set_data_model
                            (VehicleDataModel.set_payload quantity (data_model v)) v) ;;;
    ret true
  else ret false.

(** [sum(unloaded.values())]. *)
Definition sum_values (unloaded : list (Z * Z)) : Z :=
  fold_right (fun r acc => r.2 + acc) 0 unloaded.

Definition try_unload : M sim unit :=
  v <- self_ ;;
  match destination v with
  | None => raise AttributeError
  | Some d =>
      unloaded <- storage_call d
                    (StorageUnit.try_add_products [(product_id v, payload v)] false) ;;
      (* Update order if we unloaded any. *)
      when (0 <? Z.of_nat (length unloaded))
        (let unloaded_units := sum_values unloaded in
         consumer_call (destination v) (product_id v)
           (ConsumerUnit.on_order_reception (facility v) (product_id v)
              unloaded_units (payload v)) ;;;
         modify_self (fun v => set_payload (payload v - unloaded_units) v) ;;;
         modify_self (fun v => set_data_model
                                 (VehicleDataModel.set_payload (payload v) (data_model v)) v))
  end.

Definition is_enroute (v : t) : bool := bool_decide (destination v <> None).

(** [initialize]: patience and unit transport cost come from the unit's
    configuration, with defaults 100 and 1. *)
Definition initialize : M sim unit :=
  v <- self_ ;;
  let patient := default 100 (config v !! "patient"%string) in
  modify_self (set_unit_transport_cost
                 (default 1 (config v !! "unit_transport_cost"%string))) ;;;
  modify_self (fun v => set_data_model
                          (VehicleDataModel.initialize (unit_transport_cost v)
                             (data_model v)) v) ;;;
  modify_self (set_max_patient patient).

Definition _reset_internal_states : M sim unit :=
  modify_self (set_destination None) ;;;
  modify_self (set_path None) ;;;
  modify_self (set_payload 0) ;;;
  modify_self (set_product_id 0) ;;;
  modify_self (set_steps 0) ;;;
  modify_self (set_location 0) ;;;
  modify_self (set_requested_quantity 0) ;;;
  modify_self (set_velocity 0) ;;;
  modify_self (fun v => set_patient (max_patient v) v).

Definition _reset_data_model : M sim unit :=
  (* Reset data model. *)
  modify_self (fun v => set_data_model (VehicleDataModel.set_payload 0 (data_model v)) v).

(** [len(self.path)]. *)
Definition len_path : M sim Z :=
  v <- self_ ;;
  match path v with
  | None => raise TypeError
  | Some p => ret (Z.of_nat (length p))
  end.

(** The blocks of [step], in source order.  First the block under
    [if self.location == 0 and self.payload == 0]: *)
Definition loading : M sim unit :=
  v <- self_ ;;
  (* if we still not loaded enough productions yet. *)
  when ((location v =? 0) && (payload v =? 0))
    ((* then try to load by requested. *)
     loaded <- try_load (requested_quantity v) ;;
     if loaded
     then (* NOTE: here we return to simulate loading *)
       return_
     else
       modify_self (fun v => set_patient (patient v - 1) v) ;;;
       v <- self_ ;;
       (* Failed to load, check the patient. *)
       when (patient v <? 0)
         (consumer_call (destination v) (product_id v)
            (ConsumerUnit.update_open_orders (facility v) (product_id v)
               (- requested_quantity v)) ;;;
          _reset_internal_states ;;;
          _reset_data_model)).

(** the block under "Moving to destination": *)
Definition moving : M sim unit :=
  v <- self_ ;;
  when (0 <? payload v)
    ((* Closer to destination until 0. *)
     modify_self (fun v => set_location (location v + velocity v) v) ;;;
     modify_self (fun v => set_steps (steps v - 1) v) ;;;
     v <- self_ ;;
     n <- len_path ;;
     when (n <=? location v) (modify_self (set_location (n - 1)))).

(** and the [else] block of [if self.steps > 0], whose two guards are
    commented out in the source: *)
Definition arriving : M sim unit :=
  (* if self.location > 0: *)
  (* Try to unload. *)
  v <- self_ ;;
  when (0 <? payload v) try_unload ;;;
  (* Back to source if we unload all. *)
  (* if self.payload == 0: *)
  _reset_internal_states ;;;
  _reset_data_model.

(** [self.cost = self.payload * self.unit_transport_cost], the last line. *)
Definition record_cost : M sim unit :=
  modify_self (fun v => set_cost (payload v * unit_transport_cost v) v).

Definition step (tick : Z) : M sim unit :=
  fn (
    v <- self_ ;;
    (* If we have not arrive at destination yet. *)
    (if 0 <? steps v
     then loading ;;; moving
     else arriving) ;;;
    record_cost).

(** Modelled from the spec: [UnitBase.reset] (units/unitbase.py is not among
    the sources) resets the unit's attributes in the attribute store; the
    fields a subclass adds are the subclass's to reset. *)
Definition base_reset : M sim unit :=
  modify_self (fun v => set_data_model (VehicleDataModel.reset (data_model v)) v).

Definition reset : M sim unit :=
  base_reset ;;;
  _reset_internal_states ;;;
  _reset_data_model.

End VehicleUnit.


(** ** Simple manufacture *)

Module ManufactureAction.
Record t : Type := mk {
  production_rate : Z
}.
End ManufactureAction.

Module SimpleManufactureUnit.

(** The state [step] touches: the unit's product id, the action of the tick
    and the produced quantity. *)
Record t : Type := mk {
  product_id : Z;
  action : option ManufactureAction.t;
  manufacture_number : Z
}.

Definition set_manufacture_number (v : Z) (u : t) : t :=
  mk (product_id u) (action u) v.

(** [step] reads the unit's facility [f]: the number of its skus and its
    storage. *)
Definition step (f : Facility.t) (tick : Z) : M t unit :=
  (* Try to produce production if we have positive rate. *)
  modify (set_manufacture_number 0) ;;;
  u <- get ;;
  match action u with
  | None => ret tt
  | Some a =>
      when (0 <? ManufactureAction.production_rate a)
        (let production_rate := ManufactureAction.production_rate a in
         let sku_num := Z.of_nat (size (Facility.skus f)) in
         unit_num_upper_bound <-
           call (floordiv (StorageUnit.capacity (Facility.storage f)) sku_num) ;;
         let current_product_number :=
           StorageUnit.get_product_number (Facility.storage f) (product_id u) in
         modify (set_manufacture_number
                   (Z.max 0 (Z.min (unit_num_upper_bound - current_product_number)
                                   production_rate))))
  end.

End SimpleManufactureUnit.

(** ** Product unit: queries and construction *)

Module ProductUnitOps.

(** [_get_max_vlt] reads [world.get_facility_by_id(id).skus]; the world is
    not among the sources, so the lookup is a parameter: for a facility id,
    the lead time [vlt] of each sku the facility carries by product id, or
    the exception the lookup raises. *)
Definition _get_max_vlt (facility_skus : Z -> exn + gmap Z Z) (product_id : Z)
    (pu : ProductUnit.t) : exn + Z :=
  let vlt := 1 in
  match ProductUnit.consumer pu with
  | None => inr vlt
  | Some consumer =>
      fold_left
        (fun acc source_facility_id =>
           match acc with
           | inl e => inl e
           | inr vlt =>
               match facility_skus source_facility_id with
               | inl e => inl e
               | inr skus =>
                   match skus !! product_id with
                   | None => inl KeyError
                   | Some source_vlt => inr (Z.max vlt source_vlt)
                   end
               end
           end)
        (ConsumerUnit.sources consumer) (inr vlt)
  end.

(** A child unit as [generate] builds it: the name it is attached under, the
    configuration [world.build_unit] received and the product id it is given. *)
Record child (Conf : Type) : Type := mk_child {
  child_name : string;
  child_conf : Conf;
  child_product_id : Z
}.
Arguments mk_child {Conf} _ _ _.
Arguments child_name {Conf} _.
Arguments child_conf {Conf} _.
Arguments child_product_id {Conf} _.

(** The children [generate] builds for one sku, in the order of the tuple
    ("manufacture", "consumer", "seller"). *)
Definition children_of {Conf : Type} (config : gmap string Conf) (sku_id : Z)
    (sku_type : string) : list (child Conf) :=
  flat_map
    (fun child_name =>
       match config !! child_name with
       | None => []
       | Some conf =>
           (* Ignore manufacture unit if it is not for a production, even it is
              configured in config. *)
           if bool_decide (sku_type <> "production"%string)
              && bool_decide (child_name = "manufacture"%string)
           then []
           (* We produce the product, so we do not need to purchase it. *)
           else if bool_decide (sku_type = "production"%string)
                   && bool_decide (child_name = "consumer"%string)
           then []
           else [mk_child child_name conf sku_id]
       end)
    ["manufacture"%string; "consumer"%string; "seller"%string].

(** [generate]: the dictionary of product units, each given by its children;
    [skus] is [facility.skus], None or the items (sku id, sku type) of the
    dict in iteration order. *)
Definition generate {Conf : Type} (skus : option (list (Z * string)))
    (config : gmap string Conf) : gmap Z (list (child Conf)) :=
  match skus with
  | None => ∅
  | Some items =>
      if 0 <? Z.of_nat (length items)
      then fold_left
             (fun products_dict item =>
                <[item.1 := children_of config item.1 item.2]> products_dict)
             items ∅
      else ∅
  end.

End ProductUnitOps.

(** ** Local learner *)

Module PySeq.

(** [l[i]] on a list of integers. *)
Definition getitem (l : list Z) (i : Z) : exn + Z :=
  match Py.index (length l) i with
  | Some k =>
      match l !! k with
      | Some x => inr x
      | None => inl IndexError
      end
  | None => inl IndexError
  end.

(** [range(start, stop)]. *)
Definition range (start stop : Z) : list Z := seqZ start (stop - start).

(** [for x in items: body], with no [break] or [continue] in the body; a
    [return] or a raise in the body ends the loop. *)
Fixpoint for_each {S A : Type} (items : list A) (body : A -> M S unit) : M S unit :=
  match items with
  | [] => ret tt
  | x :: rest => body x ;;; for_each rest body
  end.

(** [l.sort()] on a list of integers: ascending order. *)
Definition sort (l : list Z) : list Z := merge_sort Z.le l.

End PySeq.

Module LocalLearner.

(** The [eval_schedule] argument: None, an integer or a list of integers. *)
Inductive schedule_arg : Type :=
| ScheduleNone
| ScheduleEvery (eval_schedule : Z)
| ScheduleAt (eval_schedule : list Z).

(** What [__init__] can raise: its own ValueError, or what an operation in
    it raises. *)
Inductive init_exn : Type :=
| ValueError           (* "num_steps must be a positive integer or -1" *)
| Raised (e : exn).

(** The fields of the learner that [__init__], [run] and [_collect] use.
    [_num_steps] is None for [float("inf")].  The early stopper is an object
    of its own; the learner sees what [stop()] answers after the evaluation
    that follows a given episode. *)
Record t : Type := mk {
  num_episodes : Z;
  _num_steps : option Z;
  _eval_schedule : list Z;
  _eval_point_index : Z;
  early_stopper : option (Z -> bool)
}.

Definition set_eval_point_index (v : Z) (l : t) : t :=
  mk (num_episodes l) (_num_steps l) (_eval_schedule l) v (early_stopper l).

(** The evaluation schedule [__init__] computes.  A list given by the caller
    is sorted and extended in place: the learner's list and the caller's are
    one object. *)
Definition eval_schedule_of (num_episodes : Z) (eval_schedule : schedule_arg)
  : exn + list Z :=
  match
    match eval_schedule with
    | ScheduleNone => inr []
    | ScheduleEvery k =>
        match floordiv num_episodes k with
        | inl e => inl e
        | inr num_eval_schedule =>
            inr (map (fun i => k * i) (PySeq.range 1 (num_eval_schedule + 1)))
        end
    | ScheduleAt l => inr (PySeq.sort l)
    end
  with
  | inl e => inl e
  | inr schedule =>
      (* always evaluate after the last episode *)
      if bool_decide (schedule = [])
         || negb (bool_decide (Some num_episodes = last schedule))
      then inr (schedule ++ [num_episodes])
      else inr schedule
  end.

Definition __init__ (num_episodes num_steps : Z) (eval_schedule : schedule_arg)
    (early_stopper : option (Z -> bool)) : init_exn + t :=
  if (num_steps =? 0) || (num_steps <? -1)
  then inl ValueError
  else
    let _num_steps := if 0 <? num_steps then Some num_steps else None in
    match eval_schedule_of num_episodes eval_schedule with
    | inl e => inl (Raised e)
    | inr schedule => inr (mk num_episodes _num_steps schedule 0 early_stopper)
    end.

(** What [run] does to the outside: it trains an episode and it evaluates;
    [Evaluate ep] is the call of [_evaluate] after episode [ep]. *)
Inductive event : Type :=
| Train (ep : Z)
| Evaluate (ep : Z).

Record run_state : Type := mk_run {
  learner : t;
  trace : list event
}.

Definition log (e : event) : M run_state unit :=
  modify (fun s => mk_run (learner s) (trace s ++ [e])).

(** The body of the loop of [run]. *)
Definition run_body (ep : Z) : M run_state unit :=
  log (Train ep) ;;;
  s <- get ;;
  scheduled <- call (PySeq.getitem (_eval_schedule (learner s))
                                   (_eval_point_index (learner s))) ;;
  when (ep =? scheduled)
    (modify (fun s => mk_run (set_eval_point_index
                                (_eval_point_index (learner s) + 1) (learner s))
                             (trace s)) ;;;
     log (Evaluate ep) ;;;
     (* early stopping check *)
     match early_stopper (learner s) with
     | Some stop => if stop ep then return_ else ret tt
     | None => ret tt
     end).

Definition run : M run_state unit :=
  fn (
    s <- get ;;
    PySeq.for_each (PySeq.range 1 (num_episodes (learner s) + 1)) run_body).

Section Collect.

(** The environment wrapper together with the agent, as [_collect] drives
    them: whether [env.state] is truthy, and one
    [env.step(agent.choose_action(env.state))]. *)
Context {Env : Type} (env_state : Env -> bool) (env_step : Env -> Env).

(** [steps_to_go] is truthy: a non-zero number, or infinity. *)
Definition truthy (steps_to_go : option Z) : bool :=
  match steps_to_go with
  | Some n => negb (n =? 0)
  | None => true
  end.

(** [steps_to_go -= 1]; infinity stays infinity. *)
Definition decrement (steps_to_go : option Z) : option Z :=
  match steps_to_go with
  | Some n => Some (n - 1)
  | None => None
  end.

(** The loop of [_collect]; it can run forever, so it is given a bound on
    its iterations and answers None when the bound is reached. *)
Fixpoint collect_loop (fuel : nat) (steps_to_go : option Z) (env : Env) : option Env :=
  match fuel with
  | O => None
  | S fuel' =>
      if env_state env && truthy steps_to_go
      then collect_loop fuel' (decrement steps_to_go) (env_step env)
      else Some env
  end.

Definition _collect (fuel : nat) (l : t) (env : Env) : option Env :=
  let steps_to_go := _num_steps l in
  collect_loop fuel steps_to_go env.

End Collect.

End LocalLearner.

(** ** Actor proxy *)

Module ActorProxy.

Section OnRolloutFinish.

(** Agent ids, experiences, metrics and trajectories are opaque to the
    proxy. *)
Context {Agent : Type} `{Countable Agent} {Exp Metrics Traj : Type}.

(** A message as [_on_rollout_finish] reads it: its source and the entries of
    its body under [MsgKey.METRICS], [MsgKey.EXPERIENCE] and
    [MsgKey.TRAJECTORY], each of which may be missing.  An experience dict is
    kept as its items in iteration order. *)
Record message : Type := mk_message {
  source : string;
  metrics : option Metrics;
  experience : option (list (Agent * Exp));
  trajectory : option Traj
}.

(** [self.experience_getter] applied to the unpacked trajectory: a function
    given by the caller, which may raise. *)
Context (experience_getter : Traj -> exn + list (Agent * Exp)).

(** [self.experience_pool[agent_id].put(ex)].  The experience pool is a
    [defaultdict] of stores: for each agent the experiences [put] into its
    store, in the order of the calls. *)
Definition put (agent_id : Agent) (ex : Exp) (p : gmap Agent (list Exp))
  : gmap Agent (list Exp) :=
  <[agent_id := default [] (p !! agent_id) ++ [ex]]> p.

(** [{msg.source: msg.body[MsgKey.METRICS] for msg in messages}]. *)
Fixpoint metrics_of (messages : list message) (acc : gmap string Metrics)
  : exn + gmap string Metrics :=
  match messages with
  | [] => inr acc
  | msg :: rest =>
      match metrics msg with
      | None => inl KeyError
      | Some m => metrics_of rest (<[source msg := m]> acc)
      end
  end.

(** The experiences of one message. *)
Definition experiences_of (msg : message) : exn + list (Agent * Exp) :=
  match experience msg with
  | Some exp => inr exp
  | None =>
      match trajectory msg with
      | Some t => experience_getter t
      | None => inl KeyError
      end
  end.

(** [_on_rollout_finish]; the sizes it prints at the end are left out. *)
Definition _on_rollout_finish (messages : list message)
  : M (gmap Agent (list Exp)) (gmap string Metrics) :=
  metrics <- call (metrics_of messages ∅) ;;
  PySeq.for_each messages
    (fun msg =>
       exp <- call (experiences_of msg) ;;
       PySeq.for_each exp (fun item => modify (put item.1 item.2))) ;;;
  ret metrics.

End OnRolloutFinish.

End ActorProxy.

(** * Derived notions

    Names for the states and observations the properties speak of. *)

Section ManufactureNotions.

Import SimpleManufactureUnit.

(** The share of the facility's capacity one sku gets. *)
Definition capacity_share (f : Facility.t) : Z :=
  StorageUnit.capacity (Facility.storage f) / Z.of_nat (size (Facility.skus f)).

End ManufactureNotions.

Section ConsumerNotions.

Import ConsumerUnit.

(** The order [step] builds from the action. *)
Definition order_of (c : t) (a : ConsumerAction.t) : Order.t :=
  Order.mk (facility c) (ConsumerAction.product_id a)
           (ConsumerAction.quantity a) (ConsumerAction.vlt a).

(** The state a tick with a valid action and a placed order leaves, up to the
    window's bucket. *)
Definition after_order (c : t) (a : ConsumerAction.t) (cost : Z) (window : list Z) : t :=
  let dm := ConsumerDataModel.set_latest_consumptions 1 (data_model c) in
  {| facility := facility c; product_id := product_id c; action := action c;
     data_model :=
       if 0 <? cost then ConsumerDataModel.set_order_product_cost cost dm else dm;
     open_orders :=
       iadd_open_order (ConsumerAction.source_id a) (ConsumerAction.product_id a)
         (ConsumerAction.quantity a) (open_orders c);
     received := received c;
     purchased := ConsumerAction.quantity a;
     sources := sources c;
     pending_order_daily := window;
     order_product_cost := cost |}.

End ConsumerNotions.

Section VehicleNotions.

Import VehicleUnit.

(** The route [schedule] asks the path finder for. *)
Definition route_between (find_path : Z -> Z -> Z -> Z -> option (list (Z * Z)))
    (src dst : Facility.t) : option (list (Z * Z)) :=
  find_path (Facility.x src) (Facility.y src) (Facility.x dst) (Facility.y dst).

(** The state [_reset_internal_states] and [_reset_data_model] leave: no job,
    nothing on board, patience back at the maximum.  The recorded cost, the
    unit transport cost and the configuration are not among the fields they
    assign. *)
Definition job_less (v : t) : t :=
  {| facility := facility v; config := config v;
     data_model := VehicleDataModel.set_payload 0 (data_model v);
     max_patient := max_patient v; destination := None; path := None;
     product_id := 0; steps := 0; payload := 0; location := 0; velocity := 0;
     requested_quantity := 0; patient := max_patient v; cost := cost v;
     unit_transport_cost := unit_transport_cost v |}.

(** The ledger of a consumer after [update_open_orders]. *)
Definition with_open_order (source_id product_id qty_delta : Z) (c : ConsumerUnit.t)
  : ConsumerUnit.t :=
  ConsumerUnit.set_open_orders
    (ConsumerUnit.iadd_open_order source_id product_id qty_delta
       (ConsumerUnit.open_orders c)) c.

(** The store after the consumer of [product_id] at facility [d] became [c]. *)
Definition with_consumer (d product_id : Z) (dst : Facility.t) (c : ConsumerUnit.t)
    (w : gmap Z Facility.t) : gmap Z Facility.t :=
  <[d := Facility.set_products
           (<[product_id := ProductUnit.mk (Some c)]> (Facility.products dst)) dst]> w.

(** The store after the storage of facility [fid] became [st]. *)
Definition with_storage (fid : Z) (f : Facility.t) (st : StorageUnit.t)
    (w : gmap Z Facility.t) : gmap Z Facility.t :=
  <[fid := Facility.set_storage st f]> w.

(** The vehicle one tick further along its path. *)
Definition moved (v : t) (n : Z) : t :=
  let location' := location v + velocity v in
  set_location (if n <=? location' then n - 1 else location')
    (set_steps (steps v - 1) v).

(** What [try_unload] delivers into a storage with the given free space. *)
Definition delivered (st : StorageUnit.t) (payload : Z) : Z :=
  Z.max 0 (Z.min (StorageUnit.remaining_space st) payload).

(** The consumer after [on_order_reception]. *)
Definition with_reception (source_id product_id quantity original_quantity : Z)
    (c : ConsumerUnit.t) : ConsumerUnit.t :=
  with_open_order source_id product_id (- original_quantity)
    (ConsumerUnit.set_received (ConsumerUnit.received c + quantity) c).

(** The load request of a vehicle that waits at its facility succeeds. *)
Definition can_load (s : sim) : bool :=
  let v := self s in
  (location v =? 0) && (payload v =? 0)
  && match world s !! facility v with
     | Some src =>
         StorageUnit.can_take [(product_id v, requested_quantity v)] (Facility.storage src)
     | None => false
     end.

(** The tick is a loading tick: the job still has steps to go and the load
    request succeeds. *)
Definition loading_succeeds (s : sim) : bool :=
  (0 <? steps (self s)) && can_load s.

End VehicleNotions.

Section ProductNotions.

(** The facilities the product's consumer buys from. *)
Definition product_sources (pu : ProductUnit.t) : list Z :=
  match ProductUnit.consumer pu with
  | None => []
  | Some consumer => ConsumerUnit.sources consumer
  end.

(** The loop of [_get_max_vlt] over the sources [l], from a running
    maximum. *)
Definition vlt_loop (facility_skus : Z -> exn + gmap Z Z) (product_id : Z)
    (l : list Z) (acc : exn + Z) : exn + Z :=
  fold_left
    (fun acc source_facility_id =>
       match acc with
       | inl e => inl e
       | inr vlt =>
           match facility_skus source_facility_id with
           | inl e => inl e
           | inr skus =>
               match skus !! product_id with
               | None => inl KeyError
               | Some source_vlt => inr (Z.max vlt source_vlt)
               end
           end
       end) l acc.

End ProductNotions.

Section LearnerNotions.

Import LocalLearner.

(** The episodes asked for, before the last episode is added. *)
Definition requested (n : Z) (arg : schedule_arg) : list Z :=
  match arg with
  | ScheduleNone => []
  | ScheduleEvery k => map (fun i => k * i) (seqZ 1 (n / k))
  | ScheduleAt l => PySeq.sort l
  end.

(** Whether the early stopper, if there is one, stops after episode [ep]. *)
Definition stops (stopper : option (Z -> bool)) (ep : Z) : bool :=
  match stopper with
  | Some stop => stop ep
  | None => false
  end.

(** Training the episodes [eps] in turn, evaluating after the ones in
    [sched], and ending after an evaluation at which the early stopper
    stops. *)
Fixpoint expected_trace (stopper : option (Z -> bool)) (sched eps : list Z)
  : list event :=
  match eps with
  | [] => []
  | ep :: rest =>
      Train ep ::
      (if bool_decide (ep ∈ sched)
       then Evaluate ep ::
            (if stops stopper ep then [] else expected_trace stopper sched rest)
       else expected_trace stopper sched rest)
  end.

End LearnerNotions.

Section ActorProxyNotions.

Import ActorProxy.

Context {Agent : Type} `{Countable Agent} {Exp Metrics Traj : Type}.

(** What one experience dict holds for an agent. *)
Definition puts_for (agent_id : Agent) (exp : list (Agent * Exp)) : list Exp :=
  map snd (filter (fun item => item.1 = agent_id) exp).

(** What a list of experience dicts holds for an agent, in order. *)
Definition experiences_for (agent_id : Agent) (exps : list (list (Agent * Exp)))
  : list Exp :=
  flat_map (puts_for agent_id) exps.

(** The metrics of the last message of a source, if there is one. *)
Fixpoint last_metrics (src : string) (messages : list (@message Agent Exp Metrics Traj))
  : option Metrics :=
  match messages with
  | [] => None
  | msg :: rest =>
      match last_metrics src rest with
      | Some m => Some m
      | None => if decide (source msg = src) then metrics msg else None
      end
  end.

End ActorProxyNotions.

(** ** Reading the store *)

(** The consumer of [product_id] at facility [fid], if there is one. *)
Definition consumer_at (w : gmap Z Facility.t) (fid product_id : Z)
  : option ConsumerUnit.t :=
  match w !! fid with
  | Some f =>
      match Facility.products f !! product_id with
      | Some pu => ProductUnit.consumer pu
      | None => None
      end
  | None => None
  end.

(** The quantity of [product_id] in the storage of facility [fid]. *)
Definition stock_of (w : gmap Z Facility.t) (fid product_id : Z) : Z :=
  match w !! fid with
  | Some f => StorageUnit.get_product_number (Facility.storage f) product_id
  | None => 0
  end.

(** The open-order entry for ([source_id], [product_id]) of the consumer of
    that product at facility [fid]; 0 where there is no such consumer. *)
Definition ledger_of (w : gmap Z Facility.t) (fid source_id product_id : Z) : Z :=
  match consumer_at w fid product_id with
  | Some c => ConsumerUnit.open_order (ConsumerUnit.open_orders c) source_id product_id
  | None => 0
  end.

(** ** Histories *)

(** The calls a consumer receives between [initialize] and [reset]: from the
    tick driver, and from the vehicles that deliver to it or give up on it. *)
Inductive consumer_call : Type :=
| CallSetAction (a : ConsumerAction.t)
| CallStep (tick : Z)
| CallFlushStates
| CallPostStep (tick : Z)
| CallOrderReception (source_id product_id quantity original_quantity : Z)
| CallUpdateOpenOrders (source_id product_id qty_delta : Z).



(** The calls a vehicle receives between [initialize] and [reset], and what
    the other units do to the store in between. *)
Inductive vehicle_call : Type :=
| CallSchedule (destination product_id quantity vlt : Z)
| CallVehicleStep (tick : Z)
| StoreBecomes (w : gmap Z Facility.t).

Definition run_vehicle_call (find_path : Z -> Z -> Z -> Z -> option (list (Z * Z)))
    (call : vehicle_call) : M VehicleUnit.sim unit :=
  match call with
  | CallSchedule destination product_id quantity vlt =>
      VehicleUnit.schedule find_path destination product_id quantity vlt
  | CallVehicleStep tick => VehicleUnit.step tick
  | StoreBecomes w => fun s => (Normal tt, VehicleUnit.mk_sim w (VehicleUnit.self s))
  end.

Fixpoint vehicle_history (find_path : Z -> Z -> Z -> Z -> option (list (Z * Z)))
    (calls : list vehicle_call) (s : VehicleUnit.sim) : VehicleUnit.sim :=
  match calls with
  | [] => s
  | call :: rest => vehicle_history find_path rest (run_vehicle_call find_path call s).2
  end.

(** A computation leaves an observation of the state as it was, however it
    completes. *)
Definition preserves {S T A : Type} (obs : S -> T) (m : M S A) : Prop :=
  forall s, obs (m s).2 = obs s.


(** What a vehicle is set up with and no call changes. *)
Definition vehicle_setup (s : VehicleUnit.sim) : Z * gmap string Z * Z * Z * Z :=
  let v := VehicleUnit.self s in
  (VehicleUnit.facility v, VehicleUnit.config v, VehicleUnit.max_patient v,
   VehicleUnit.unit_transport_cost v,
   VehicleDataModel.unit_transport_cost (VehicleUnit.data_model v)).

(** * Worked examples *)

(** A facility with two skus, capacity 100 and 45 units of product 1. *)
Definition two_sku_facility : Facility.t :=
  Facility.mk 0 0 (StorageUnit.mk 100 {[ 1 := 45 ]}) ∅ {[ 1; 2 ]}.

(** The shift of the examples.  Their windows hold small entries, which the
    library's float64 spline reproduces exactly: every entry moves one slot
    to the left, the first one drops off and [cval] enters at the end.  It
    stands for the library on such windows only, and for a shift by -1. *)
Definition sample_shift (input : list Z) (amount cval : Z) : list Z :=
  match input with
  | [] => []
  | _ :: rest => rest ++ [cval]
  end.

(** A consumer of facility 2 for product 1 with a window of three buckets,
    and a distribution that charges two per unit. *)
Definition sample_consumer (a : option ConsumerAction.t) : ConsumerUnit.t :=
  ConsumerUnit.mk 2 1 a ConsumerDataModel.fresh ∅ 0 0 [1] [7; 8; 9] 0.

Definition sample_place_order (source_id : Z) (order : Order.t) : exn + Z :=
  inr (2 * Order.quantity order).

(** ** A worked delivery

    Facility 1 supplies product 1 to facility 2, whose consumer has an open
    order of 10 units and whose storage of capacity 100 already holds 96.
    The vehicle of facility 1 has patience 3 and unit transport cost 1, and
    the path finder knows one route of four waypoints. *)

(** The consumer of product 1 at facility 2. *)
Definition sample_buyer : ConsumerUnit.t :=
  ConsumerUnit.mk 2 1 None ConsumerDataModel.fresh {[ 1 := {[ 1 := 10 ]} ]} 0 0 [1]
    [0; 0; 0] 0.

Definition supplier (stock : Z) : Facility.t :=
  Facility.mk 0 0 (StorageUnit.mk 100 {[ 1 := stock ]}) ∅ {[ 1 ]}.

Definition retailer : Facility.t :=
  Facility.mk 3 4 (StorageUnit.mk 100 {[ 1 := 96 ]})
    {[ 1 := ProductUnit.mk (Some sample_buyer) ]} {[ 1 ]}.

Definition sample_world (stock : Z) : gmap Z Facility.t :=
  {[ 1 := supplier stock; 2 := retailer ]}.

Definition sample_route : list (Z * Z) := [(0, 0); (1, 1); (2, 3); (3, 4)].

Definition sample_find_path (x1 y1 x2 y2 : Z) : option (list (Z * Z)) :=
  Some sample_route.

(** A path finder that finds no waypoint between any two places and says so
    with an empty sequence. *)
Definition empty_find_path (x1 y1 x2 y2 : Z) : option (list (Z * Z)) :=
  Some [].

Definition sample_config : gmap string Z :=
  {[ "patient"%string := 3; "unit_transport_cost"%string := 1 ]}.

(** The vehicle after [initialize]. *)
Definition parked : VehicleUnit.sim :=
  (VehicleUnit.initialize
     (VehicleUnit.mk_sim (sample_world 10) (VehicleUnit.new 1 sample_config))).2.

(** The ticks of the delivery: scheduled for 10 units with lead time 2,
    loaded, under way, arrived, unloaded. *)
Definition scheduled : VehicleUnit.sim :=
  (VehicleUnit.schedule sample_find_path 2 1 10 2 parked).2.

Definition loaded : VehicleUnit.sim := (VehicleUnit.step 1 scheduled).2.

Definition underway : VehicleUnit.sim := (VehicleUnit.step 2 loaded).2.

Definition arrived : VehicleUnit.sim := (VehicleUnit.step 3 underway).2.

Definition unloaded : VehicleUnit.sim := (VehicleUnit.step 4 arrived).2.

(** The state at arrival, field by field. *)
Definition arrival_vehicle : VehicleUnit.t :=
  VehicleUnit.mk 1 sample_config (VehicleDataModel.mk 10 1) 3 (Some 2) (Some sample_route)
    1 0 10 3 2 10 3 10 1.

(** The starved vehicle: the same job against an empty source storage. *)
Definition starved_vehicle : VehicleUnit.t :=
  VehicleUnit.mk 1 sample_config (VehicleDataModel.mk 0 1) 3 (Some 2) (Some sample_route)
    1 2 0 0 2 10 3 0 1.




(** ** Edge cases of a tick

    A distribution that refuses every order. *)
Definition failing_place_order (source_id : Z) (order : Order.t) : exn + Z :=
  inl CollaboratorError.

(** The vehicle of the worked delivery after loading: two steps to go, ten
    units on board. *)
Definition loaded_vehicle : VehicleUnit.t :=
  VehicleUnit.mk 1 sample_config (VehicleDataModel.mk 10 1) 3 (Some 2) (Some sample_route)
    1 2 10 0 2 10 3 0 1.

(** The vehicle of the worked delivery before any job. *)
Definition idle_vehicle : VehicleUnit.t :=
  VehicleUnit.mk 1 sample_config (VehicleDataModel.mk 0 1) 3 None None 0 0 0 0 0 0 3 0 1.

(** A vehicle of facility 2 that arrives at facility 1 with five units of
    product 1; facility 1 has no product units. *)
Definition returning_vehicle : VehicleUnit.t :=
  VehicleUnit.mk 2 sample_config (VehicleDataModel.mk 5 1) 3 (Some 1) (Some sample_route)
    1 0 5 3 2 5 3 5 1.

(** ** A product unit

    The consumer of the product unit buys from the facilities 2 and 5;
    facility 2 carries product 1 with a lead time of 3, facility 5 carries
    nothing, and no other facility is known. *)
Definition sample_facility_skus (facility_id : Z) : exn + gmap Z Z :=
  if facility_id =? 2 then inr {[ 1 := 3 ]}
  else if facility_id =? 5 then inr ∅
  else inl KeyError.

Definition sample_product : ProductUnit.t :=
  ProductUnit.mk (Some (ConsumerUnit.mk 2 1 None ConsumerDataModel.fresh ∅ 0 0 [2; 5]
                          [0; 0; 0] 0)).

(** The child configuration of a facility that configures all three
    children, and its two skus. *)
Definition sample_children_config : gmap string Z :=
  {[ "manufacture"%string := 1; "consumer"%string := 2; "seller"%string := 3 ]}.

Definition sample_skus : list (Z * string) :=
  [(1, "production"%string); (2, "material"%string)].

(** ** A learner

    Ten episodes of at most four steps per roll-out, evaluated after every
    third episode. *)
Definition sample_learner : LocalLearner.t :=
  LocalLearner.mk 10 (Some 4) [3; 6; 9; 10] 0 None.

(** The same learner with no limit on the steps of a roll-out. *)
Definition unlimited_learner : LocalLearner.t :=
  LocalLearner.mk 10 None [3; 6; 9; 10] 0 None.

(** An environment that counts its remaining ticks down: its state is
    truthy while ticks remain. *)
Definition countdown_state (remaining : Z) : bool := 0 <? remaining.

Definition countdown_step (remaining : Z) : Z := remaining - 1.

(** ** Roll-out messages

    Two actors report, one with its experiences and one with a trajectory;
    a third message carries metrics but neither, a fourth no metrics.  The
    sample getter credits a trajectory to agent 1. *)
Definition sample_getter (t : list Z) : exn + list (Z * Z) :=
  inr (map (fun x => (1, x)) t).

Definition first_report : @ActorProxy.message Z Z Z (list Z) :=
  ActorProxy.mk_message "actor.0" (Some 7) (Some [(1, 10); (2, 20)]) None.

Definition second_report : @ActorProxy.message Z Z Z (list Z) :=
  ActorProxy.mk_message "actor.1" (Some 9) None (Some [30]).

Definition empty_report : @ActorProxy.message Z Z Z (list Z) :=
  ActorProxy.mk_message "actor.2" (Some 1) None None.

Definition broken_report : @ActorProxy.message Z Z Z (list Z) :=
  ActorProxy.mk_message "actor.3" None None None.

(** * Properties *)

(** Running a method on a state given by its fields: the control operators
    are unfolded and the record updates computed, while arithmetic, the
    ledger and the window stay folded. *)
Ltac py_step :=
  unfold Py.fn, Py.bind, Py.modify, Py.get, Py.put, Py.ret, Py.return_, Py.raise,
         Py.when, Py.call;
  cbn -[Z.add Z.sub Z.mul Z.opp Z.ltb Z.leb Z.eqb Z.of_nat Z.to_nat Z.min Z.max Z.div
        length ConsumerUnit.iadd_open_order Numpy.iadd_item Numpy.wrap Numpy.fits
        Py.index ConsumerUnit.zeros ConsumerUnit.ignored StorageUnit.remaining_space
        StorageUnit.get_product_number insert lookup].

Ltac py_run := repeat progress py_step.

(** ** Consumer: receiving an order *)

Section ConsumerLedger.

Import ConsumerUnit.

Lemma open_order_iadd_same (orders : gmap Z (gmap Z Z)) (s p d : Z) :
  open_order (iadd_open_order s p d orders) s p = open_order orders s p + d.
Proof.
  unfold open_order, iadd_open_order.
  rewrite lookup_insert_eq. simpl. rewrite lookup_insert_eq. reflexivity.
Qed.

Lemma open_order_iadd_other (orders : gmap Z (gmap Z Z)) (s p d s' p' : Z) :
  (s', p') <> (s, p) ->
  open_order (iadd_open_order s p d orders) s' p' = open_order orders s' p'.
Proof.
  intros Hne. unfold open_order, iadd_open_order.
  destruct (decide (s' = s)) as [->|Hs].
  - rewrite lookup_insert_eq. simpl.
    rewrite lookup_insert_ne by congruence. reflexivity.
  - rewrite lookup_insert_ne by congruence. reflexivity.
Qed.

Lemma update_open_orders_run (s p d : Z) (c : t) :
  update_open_orders s p d c
  = (Normal tt, set_open_orders (iadd_open_order s p d (open_orders c)) c).
Proof. unfold update_open_orders. destruct (0 <? d); reflexivity. Qed.

Lemma on_order_reception_run (s p q o : Z) (c : t) :
  on_order_reception s p q o c
  = (Normal tt,
     set_open_orders (iadd_open_order s p (- o) (open_orders c))
       (set_received (received c + q) c)).
Proof.
  unfold on_order_reception, bind, modify.
  rewrite update_open_orders_run. reflexivity.
Qed.

(** C2: every call [on_order_reception(source_id, product_id,
    quantity_received, quantity_originally_ordered)] completes normally,
    raises the received counter by exactly the received quantity, lowers the
    open-order entry of (source_id, product_id) by exactly the originally
    ordered quantity, and leaves every other entry of the ledger as it was. *)
Theorem on_order_reception_effect
    (source_id product_id quantity original_quantity : Z) (c : t) :
  exists c',
    on_order_reception source_id product_id quantity original_quantity c
      = (Normal tt, c')
    /\ received c' = received c + quantity
    /\ open_order (open_orders c') source_id product_id
       = open_order (open_orders c) source_id product_id - original_quantity
    /\ forall s p, (s, p) <> (source_id, product_id) ->
         open_order (open_orders c') s p = open_order (open_orders c) s p.
Proof.
  eexists. split; [apply on_order_reception_run|].
  cbn [received open_orders set_open_orders set_received].
  split; [reflexivity|]. split.
  - rewrite open_order_iadd_same. lia.
  - intros s p Hne. apply open_order_iadd_other, Hne.
Qed.

End ConsumerLedger.

(** ** Simple manufacture: the produced quantity *)

Section Manufacture.

Import SimpleManufactureUnit.

Lemma floordiv_nonzero (a b : Z) : b <> 0 -> floordiv a b = inr (a / b).
Proof.
  intros Hb. unfold floordiv. destruct (Z.eqb_spec b 0); [contradiction|reflexivity].
Qed.

(** C7: at a facility that carries at least one sku, a tick with a positive
    production rate produces max(0, min(capacity_share - current quantity,
    rate)), where the share is the storage capacity floor-divided by the
    number of skus; a tick with no action or a rate that is not positive
    produces 0. *)
Theorem manufacture_step_quantity (f : Facility.t) (u : t) (tick : Z) :
  (0 < size (Facility.skus f))%nat ->
  exists u',
    step f tick u = (Normal tt, u')
    /\ product_id u' = product_id u
    /\ action u' = action u
    /\ manufacture_number u' =
         match action u with
         | Some a =>
             if 0 <? ManufactureAction.production_rate a
             then Z.max 0
                    (Z.min (capacity_share f
                            - StorageUnit.get_product_number (Facility.storage f)
                                (product_id u))
                           (ManufactureAction.production_rate a))
             else 0
         | None => 0
         end.
Proof.
  intros Hskus. destruct u as [pid act n].
  unfold step, bind, modify, get, when, capacity_share.
  cbn [action set_manufacture_number product_id manufacture_number].
  destruct act as [a|]; [|eexists; repeat split; reflexivity].
  destruct (0 <? ManufactureAction.production_rate a);
    [|eexists; repeat split; reflexivity].
  rewrite floordiv_nonzero by lia.
  eexists; repeat split; reflexivity.
Qed.

Lemma manufacture_step_quantity_witness :
  exists u',
    step two_sku_facility 0 (mk 1 (Some (ManufactureAction.mk 20)) 7) = (Normal tt, u')
    /\ manufacture_number u' = 5.
Proof.
  destruct (manufacture_step_quantity two_sku_facility
              (mk 1 (Some (ManufactureAction.mk 20)) 7) 0) as (u' & Hrun & _ & _ & Hn).
  - vm_compute. lia.
  - exists u'. split; [exact Hrun|]. rewrite Hn. vm_compute. reflexivity.
Defined.

End Manufacture.

(** ** Consumer: one tick *)

Section ConsumerStep.

Import ConsumerUnit.

Variable shift : list Z -> Z -> Z -> list Z.
Variable place_order : Z -> Order.t -> exn + Z.

(** A tick whose action is missing or fails the guard only replaces the
    window by what the shift returns for it. *)
Lemma step_ignored (tick : Z) (c : t) :
  ignored (action c) = true ->
  step shift place_order tick c
  = (Normal tt, set_pending_order_daily (shift (pending_order_daily c) (-1) 0) c).
Proof.
  intros Hig. destruct c as [fa pid act dm oo rc pu so pe oc].
  cbn [action] in Hig.
  unfold step, _update_pending_order. py_run.
  destruct act as [a|]; [|reflexivity].
  rewrite Hig. reflexivity.
Qed.

Lemma step_valid (tick : Z) (c : t) (a : ConsumerAction.t) (cost : Z) :
  action c = Some a ->
  ignored (Some a) = false ->
  place_order (ConsumerAction.source_id a) (order_of c a) = inr cost ->
  let shifted := shift (pending_order_daily c) (-1) 0 in
  step shift place_order tick c =
    if ConsumerAction.vlt a <? Z.of_nat (length shifted)
    then match Numpy.iadd_item shifted (ConsumerAction.vlt a - 1)
                 (ConsumerAction.quantity a) with
         | inr window => (Normal tt, after_order c a cost window)
         | inl e =>
             (Raise e,
              set_data_model
                (ConsumerDataModel.set_latest_consumptions 1 (data_model c))
                (after_order c a cost shifted))
         end
    else (Normal tt, after_order c a cost shifted).
Proof.
  intros Hact Hok Hpo. destruct c as [fa pid act dm oo rc pu so pe oc].
  cbn [action] in Hact. subst act. unfold order_of in Hpo. cbn [facility] in Hpo.
  unfold step, _update_pending_order, update_open_orders, after_order. py_run.
  rewrite Hok.
  destruct (0 <? ConsumerAction.quantity a); py_run; rewrite Hpo; py_run;
    (destruct (ConsumerAction.vlt a <? Z.of_nat (length (shift pe (-1) 0)));
     [destruct (Numpy.iadd_item (shift pe (-1) 0) (ConsumerAction.vlt a - 1)
                  (ConsumerAction.quantity a)) as [e|window]; py_run;
      [reflexivity|destruct (0 <? cost); reflexivity]
     |py_run; destruct (0 <? cost); reflexivity]).
Qed.

(** When the distribution unit raises, the window is shifted all the same. *)
Lemma step_place_order_raises (tick : Z) (c : t) (a : ConsumerAction.t) (e : exn) :
  action c = Some a ->
  ignored (Some a) = false ->
  place_order (ConsumerAction.source_id a) (order_of c a) = inl e ->
  exists c',
    step shift place_order tick c = (Raise e, c')
    /\ pending_order_daily c' = shift (pending_order_daily c) (-1) 0.
Proof.
  intros Hact Hok Hpo. destruct c as [fa pid act dm oo rc pu so pe oc].
  cbn [action] in Hact. subst act. unfold order_of in Hpo. cbn [facility] in Hpo.
  unfold step, _update_pending_order, update_open_orders. py_run.
  rewrite Hok.
  destruct (0 <? ConsumerAction.quantity a); py_run; rewrite Hpo; py_run;
    eexists; split; reflexivity.
Qed.

Lemma index_in_range (n : nat) (i : Z) :
  0 <= i < Z.of_nat n -> Py.index n i = Some (Z.to_nat i).
Proof.
  intros Hi. unfold Py.index.
  destruct (Z.leb_spec 0 i); [|lia]. destruct (Z.ltb_spec i (Z.of_nat n)); [|lia].
  reflexivity.
Qed.

Lemma index_minus_one (n : nat) : (0 < n)%nat -> Py.index n (-1) = Some (n - 1)%nat.
Proof.
  intros Hn. unfold Py.index.
  destruct (Z.leb_spec 0 (-1)); [lia|]. simpl andb.
  destruct (Z.leb_spec (- Z.of_nat n) (-1)); [|lia]. simpl.
  f_equal. lia.
Qed.

Lemma index_none (n : nat) (i : Z) :
  Py.index n i = None <-> i < - Z.of_nat n \/ Z.of_nat n <= i.
Proof.
  unfold Py.index.
  destruct (Z.leb_spec 0 i), (Z.ltb_spec i (Z.of_nat n)), (Z.leb_spec (- Z.of_nat n) i),
    (Z.ltb_spec i 0); cbn [andb]; split; try discriminate; try lia; reflexivity.
Qed.

Lemma fits_spec (z : Z) :
  Numpy.fits z = true <-> Numpy.int64_min <= z <= Numpy.int64_max.
Proof. unfold Numpy.fits. rewrite andb_true_iff, !Z.leb_le. reflexivity. Qed.

Lemma fits_false (z : Z) :
  Numpy.fits z = false <-> z < Numpy.int64_min \/ Numpy.int64_max < z.
Proof.
  unfold Numpy.fits. rewrite andb_false_iff, !Z.leb_gt. reflexivity.
Qed.

(** A sum that fits is stored as it is. *)
Lemma wrap_fits (z : Z) :
  Numpy.int64_min <= z <= Numpy.int64_max -> Numpy.wrap z = z.
Proof.
  unfold Numpy.int64_min, Numpy.int64_max, Numpy.wrap. intros Hz.
  rewrite Z.mod_small by lia. lia.
Qed.

Lemma iadd_item_in_range (l : list Z) (i d : Z) :
  0 <= i < Z.of_nat (length l) ->
  Numpy.fits d = true ->
  Numpy.iadd_item l i d = inr (alter (fun x => Numpy.wrap (x + d)) (Z.to_nat i) l).
Proof.
  intros Hi Hd. unfold Numpy.iadd_item.
  rewrite index_in_range by exact Hi. rewrite Hd. reflexivity.
Qed.

Lemma iadd_item_last (rest : list Z) (b d : Z) :
  Numpy.fits d = true ->
  Numpy.iadd_item (rest ++ [b]) (-1) d = inr (rest ++ [Numpy.wrap (b + d)]).
Proof.
  intros Hd. unfold Numpy.iadd_item.
  rewrite index_minus_one by (rewrite length_app; simpl; lia). rewrite Hd.
  f_equal. rewrite length_app. simpl length.
  replace (length rest + 1 - 1)%nat with (length rest + 0)%nat by lia.
  rewrite alter_app_r. reflexivity.
Qed.

(** The guard of [step], spelled out on the action's fields. *)
Lemma ignored_spec (a : option ConsumerAction.t) :
  ignored a = true <->
  a = None \/ exists a', a = Some a' /\
     (ConsumerAction.quantity a' <= 0 \/ ConsumerAction.product_id a' <= 0
      \/ ConsumerAction.source_id a' = 0).
Proof.
  destruct a as [a'|]; simpl.
  - rewrite !orb_true_iff, !Z.leb_le, Z.eqb_eq. split.
    + intros H. right. exists a'. split; [reflexivity|tauto].
    + intros [H|(b & Hb & H)]; [discriminate|]. injection Hb as ->. tauto.
  - split; [intros _; left; reflexivity | reflexivity].
Qed.

(** A valid action orders a positive quantity. *)
Lemma valid_quantity (a : ConsumerAction.t) :
  ignored (Some a) = false -> 0 < ConsumerAction.quantity a.
Proof.
  cbn [ignored]. rewrite !orb_false_iff, Z.leb_gt. intros [[H _] _]. exact H.
Qed.

Lemma valid_quantity_fits (a : ConsumerAction.t) :
  ignored (Some a) = false ->
  (Numpy.fits (ConsumerAction.quantity a) = true
   <-> ConsumerAction.quantity a <= Numpy.int64_max)
  /\ (Numpy.fits (ConsumerAction.quantity a) = false
      <-> Numpy.int64_max < ConsumerAction.quantity a).
Proof.
  intros Hok. pose proof (valid_quantity a Hok) as Hq.
  rewrite fits_spec, fits_false. unfold Numpy.int64_min. split; split; lia.
Qed.

(** C8, as the code has it: on a tick whose action is missing, or has a
    quantity that is zero or negative, a product id that is zero or negative,
    or a source id equal to zero, [step] completes normally and changes
    nothing but the pending-order window, which it replaces by what the
    shift by one slot returns for it; the ledger, the purchased counter, the
    order cost and the attributes keep their values. *)
Theorem consumer_step_ignores_invalid_action (tick : Z) (c : t) :
  (action c = None \/ exists a, action c = Some a /\
     (ConsumerAction.quantity a <= 0 \/ ConsumerAction.product_id a <= 0
      \/ ConsumerAction.source_id a = 0)) ->
  step shift place_order tick c
  = (Normal tt, set_pending_order_daily (shift (pending_order_daily c) (-1) 0) c).
Proof. intros H. apply step_ignored, ignored_spec, H. Qed.

(** C9, as the code has it: every call of [step] first replaces the
    pending-order window by what the shift by one slot to the left, with 0
    entering, returns for it, whatever the action: a tick that ignores its
    action, or on which placing the order raises, leaves exactly the shifted
    window.  With a valid action, a placed order and a lead time vlt >= 0
    that is less than the window's length, a quantity that fits a 64-bit
    integer is added to the bucket at Python index vlt - 1 of the shifted
    window, in wrap-around arithmetic, so that a sum that fits is stored as
    it is; a larger quantity raises OverflowError and the window stays the
    shifted one.  With a lead time that is not less than the length the
    shifted window stays as it is. *)
Theorem consumer_step_pending_window (tick : Z) (c : t) :
  let shifted := shift (pending_order_daily c) (-1) 0 in
  let result := (step shift place_order tick c).1 in
  let after := pending_order_daily (step shift place_order tick c).2 in
  (ignored (action c) = true -> after = shifted)
  /\ (forall a e,
        action c = Some a -> ignored (Some a) = false ->
        place_order (ConsumerAction.source_id a) (order_of c a) = inl e ->
        after = shifted)
  /\ (forall a cost,
        action c = Some a -> ignored (Some a) = false ->
        place_order (ConsumerAction.source_id a) (order_of c a) = inr cost ->
        0 <= ConsumerAction.vlt a ->
        (ConsumerAction.vlt a < Z.of_nat (length shifted) ->
         ConsumerAction.quantity a <= Numpy.int64_max ->
         result = Normal tt
         /\ exists bucket,
              Py.index (length shifted) (ConsumerAction.vlt a - 1) = Some bucket
              /\ after
                 = alter (fun x => Numpy.wrap (x + ConsumerAction.quantity a))
                     bucket shifted
              /\ forall x,
                   shifted !! bucket = Some x ->
                   Numpy.int64_min <= x + ConsumerAction.quantity a
                                   <= Numpy.int64_max ->
                   after !! bucket = Some (x + ConsumerAction.quantity a))
        /\ (ConsumerAction.vlt a < Z.of_nat (length shifted) ->
            Numpy.int64_max < ConsumerAction.quantity a ->
            result = Raise OverflowError /\ after = shifted)
        /\ (Z.of_nat (length shifted) <= ConsumerAction.vlt a ->
            result = Normal tt /\ after = shifted)).
Proof.
  intros shifted result after. subst result after. split; [|split].
  - intros Hig. rewrite step_ignored by exact Hig. reflexivity.
  - intros a e Hact Hok Hpo.
    destruct (step_place_order_raises tick c a e Hact Hok Hpo) as (c' & Hrun & Hw).
    rewrite Hrun. exact Hw.
  - intros a cost Hact Hok Hpo Hvlt.
    pose proof (step_valid tick c a cost Hact Hok Hpo) as Hrun. cbv zeta in Hrun.
    fold shifted in Hrun. rewrite Hrun.
    destruct (valid_quantity_fits a Hok) as [Hfits Hover].
    destruct (Z.ltb_spec (ConsumerAction.vlt a) (Z.of_nat (length shifted)))
      as [Hlt|Hge].
    + assert (Hidx : exists bucket,
                 Py.index (length shifted) (ConsumerAction.vlt a - 1) = Some bucket).
      { destruct (Z.eq_dec (ConsumerAction.vlt a) 0) as [Hz|Hnz].
        - rewrite Hz. eexists. apply index_minus_one. lia.
        - eexists. apply index_in_range. lia. }
      destruct Hidx as (bucket & Hbucket).
      unfold Numpy.iadd_item. rewrite Hbucket.
      split; [|split; [|intros Hbad; lia]].
      * intros _ Hq. rewrite (proj2 Hfits Hq). cbn [fst snd after_order
          pending_order_daily].
        split; [reflexivity|]. exists bucket. split; [reflexivity|].
        split; [reflexivity|]. intros x Hx Hsum.
        rewrite list_lookup_alter_eq, Hx. cbn [fmap option_fmap option_map].
        rewrite wrap_fits by exact Hsum. reflexivity.
      * intros _ Hq. rewrite (proj2 Hover Hq). cbn [fst snd]. split; reflexivity.
    + cbn [fst snd]. split; [intros Hbad; lia|]. split; [intros Hbad; lia|].
      intros _. split; reflexivity.
Qed.

(** C10, as the code has it: with a valid action whose lead time is 0, a
    placed order and a quantity that fits a 64-bit integer, the bucket index
    vlt - 1 is -1, which selects the last slot: the quantity is added to the
    last bucket of the shifted (non-empty) window and the other buckets are
    the shifted ones.  The last bucket is the one the shift has just filled:
    where it holds 0 it ends holding the ordered quantity. *)
Theorem consumer_step_zero_lead_time
    (tick : Z) (c : t) (a : ConsumerAction.t) (cost newest : Z) (rest : list Z) :
  action c = Some a ->
  ignored (Some a) = false ->
  ConsumerAction.vlt a = 0 ->
  place_order (ConsumerAction.source_id a) (order_of c a) = inr cost ->
  shift (pending_order_daily c) (-1) 0 = rest ++ [newest] ->
  ConsumerAction.quantity a <= Numpy.int64_max ->
  exists c',
    step shift place_order tick c = (Normal tt, c')
    /\ pending_order_daily c' = rest ++ [Numpy.wrap (newest + ConsumerAction.quantity a)]
    /\ (newest = 0 -> pending_order_daily c' = rest ++ [ConsumerAction.quantity a]).
Proof.
  intros Hact Hok Hvlt Hpo Hwin Hq.
  pose proof (step_valid tick c a cost Hact Hok Hpo) as Hrun. cbv zeta in Hrun.
  destruct (valid_quantity_fits a Hok) as [Hfits _].
  pose proof (valid_quantity a Hok) as Hpos.
  rewrite Hwin, Hvlt in Hrun.
  change (0 - 1) with (-1) in Hrun. rewrite iadd_item_last in Hrun by (apply Hfits, Hq).
  rewrite length_app in Hrun. cbn [length] in Hrun.
  destruct (Z.ltb_spec 0 (Z.of_nat (length rest + 1))) as [_|Hbad]; [|lia].
  eexists. split; [exact Hrun|]. cbn [after_order pending_order_daily].
  split; [reflexivity|]. intros ->. rewrite Z.add_0_l, wrap_fits; [reflexivity|].
  unfold Numpy.int64_min. lia.
Qed.

End ConsumerStep.

Lemma consumer_step_ignores_invalid_action_witness :
  ConsumerUnit.step sample_shift sample_place_order 0
    (sample_consumer (Some (ConsumerAction.mk 0 1 5 1)))
  = (Normal tt, ConsumerUnit.mk 2 1 (Some (ConsumerAction.mk 0 1 5 1))
                  ConsumerDataModel.fresh ∅ 0 0 [1] [8; 9; 0] 0).
Proof.
  apply (consumer_step_ignores_invalid_action sample_shift sample_place_order 0
           (sample_consumer (Some (ConsumerAction.mk 0 1 5 1)))).
  right. eexists. split; [reflexivity|]. right. right. reflexivity.
Defined.

(** C8 as stated fails on a negative source id: the guard of [step] tests
    [source_id == 0] only, so the order is placed. *)
Lemma consumer_step_negative_source_places_order :
  let a := ConsumerAction.mk (-1) 1 5 1 in
  let c := sample_consumer (Some a) in
  let c' := (ConsumerUnit.step sample_shift sample_place_order 0 c).2 in
  ConsumerAction.source_id a <= 0
  /\ ConsumerUnit.open_order (ConsumerUnit.open_orders c) (-1) 1 = 0
  /\ ConsumerUnit.open_order (ConsumerUnit.open_orders c') (-1) 1 = 5
  /\ ConsumerUnit.purchased c = 0 /\ ConsumerUnit.purchased c' = 5
  /\ ConsumerUnit.order_product_cost c = 0 /\ ConsumerUnit.order_product_cost c' = 10.
Proof. vm_compute. repeat split; discriminate. Qed.

Lemma consumer_step_pending_window_witness :
  ConsumerUnit.pending_order_daily
    (ConsumerUnit.step sample_shift sample_place_order 0
       (sample_consumer (Some (ConsumerAction.mk 1 1 5 2)))).2 = [8; 14; 0].
Proof.
  pose proof (consumer_step_pending_window sample_shift sample_place_order 0
                (sample_consumer (Some (ConsumerAction.mk 1 1 5 2)))) as H.
  cbv zeta in H. destruct H as (_ & _ & H).
  destruct (H (ConsumerAction.mk 1 1 5 2) 10) as (Hin & _);
    [reflexivity | reflexivity | reflexivity | simpl; lia |].
  destruct Hin as (_ & bucket & Hb & Hafter & _);
    [simpl; lia | unfold Numpy.int64_max; simpl; lia |].
  rewrite Hafter. vm_compute in Hb. injection Hb as <-. reflexivity.
Defined.

(** C9 as stated fails on a quantity that does not fit a 64-bit integer: the
    lead time 2 is within the window of three buckets, yet [step] raises
    OverflowError at the bucket and the window is the shifted one, with
    nothing added. *)
Lemma consumer_step_overflowing_quantity :
  let a := ConsumerAction.mk 1 1 9223372036854775808 2 in
  let c := sample_consumer (Some a) in
  let r := ConsumerUnit.step sample_shift sample_place_order 0 c in
  ConsumerUnit.ignored (Some a) = false
  /\ ConsumerAction.vlt a < Z.of_nat (length (ConsumerUnit.pending_order_daily c))
  /\ ConsumerUnit.pending_order_daily c = [7; 8; 9]
  /\ r.1 = Raise OverflowError
  /\ ConsumerUnit.pending_order_daily r.2 = [8; 9; 0].
Proof. vm_compute. repeat split. Qed.

Lemma consumer_step_zero_lead_time_witness :
  exists c',
    ConsumerUnit.step sample_shift sample_place_order 0
      (sample_consumer (Some (ConsumerAction.mk 1 1 5 0))) = (Normal tt, c')
    /\ ConsumerUnit.pending_order_daily c' = [8; 9] ++ [Numpy.wrap (0 + 5)]
    /\ (0 = 0 -> ConsumerUnit.pending_order_daily c' = [8; 9] ++ [5]).
Proof.
  apply (consumer_step_zero_lead_time sample_shift sample_place_order 0
           (sample_consumer (Some (ConsumerAction.mk 1 1 5 0)))
           (ConsumerAction.mk 1 1 5 0) 10 0 [8; 9]); try reflexivity.
  unfold Numpy.int64_max. simpl. lia.
Defined.

(** C10 as stated fails on a quantity that does not fit a 64-bit integer:
    with lead time 0 [step] raises OverflowError at index -1 and the last
    bucket keeps the 0 the shift put there. *)
Lemma consumer_step_zero_lead_time_overflow :
  let a := ConsumerAction.mk 1 1 9223372036854775808 0 in
  let c := sample_consumer (Some a) in
  let r := ConsumerUnit.step sample_shift sample_place_order 0 c in
  ConsumerUnit.ignored (Some a) = false
  /\ ConsumerAction.vlt a = 0
  /\ r.1 = Raise OverflowError
  /\ ConsumerUnit.pending_order_daily r.2 = [8; 9; 0]
  /\ last (ConsumerUnit.pending_order_daily r.2) <> Some (ConsumerAction.quantity a).
Proof. vm_compute. repeat split. discriminate. Qed.

(** ** Vehicle: scheduling a job *)

Section VehicleSchedule.

Import VehicleUnit.

Variable find_path : Z -> Z -> Z -> Z -> option (list (Z * Z)).

Lemma schedule_run (w : gmap Z Facility.t) (v : t) (d pid q vlt : Z)
    (src dst : Facility.t) :
  w !! facility v = Some src ->
  w !! d = Some dst ->
  schedule find_path d pid q vlt (mk_sim w v) =
    let v1 := set_path (route_between find_path src dst)
                (set_requested_quantity q
                   (set_destination (Some d) (set_product_id pid v))) in
    match route_between find_path src dst with
    | None => (Raise Unreachable, mk_sim w v1)
    | Some _ =>
        (Normal tt,
         mk_sim w (set_patient (max_patient v)
                     (set_velocity vlt (set_location 0 (set_steps vlt v1)))))
    end.
Proof.
  intros Hsrc Hdst. destruct v as [fa cf dm mp de pa pr st pl lo ve rq pt co ut].
  cbn [facility] in Hsrc.
  unfold schedule, facility_of, modify_self, self_, route_between. py_run.
  rewrite Hsrc. py_run. rewrite Hdst. py_run.
  destruct (find_path (Facility.x src) (Facility.y src) (Facility.x dst) (Facility.y dst));
    reflexivity.
Qed.

(** C5, as the code has it: [schedule] raises the routing error if and only
    if the path finder returns None for the vehicle's facility and the
    destination.  On any waypoint sequence, an empty one included, it
    completes normally with the job armed: remaining steps equal to the lead
    time, position 0, velocity equal to the lead time and patience at the
    configured maximum, for the given destination, product and quantity. *)
Theorem schedule_routing (w : gmap Z Facility.t) (v : t) (d pid q vlt : Z)
    (src dst : Facility.t) :
  w !! facility v = Some src ->
  w !! d = Some dst ->
  let r := (schedule find_path d pid q vlt (mk_sim w v)).1 in
  let v' := self (schedule find_path d pid q vlt (mk_sim w v)).2 in
  (r = Raise Unreachable <-> route_between find_path src dst = None)
  /\ (route_between find_path src dst <> None ->
      r = Normal tt
      /\ steps v' = vlt /\ location v' = 0 /\ velocity v' = vlt
      /\ patient v' = max_patient v
      /\ destination v' = Some d /\ product_id v' = pid /\ requested_quantity v' = q
      /\ path v' = route_between find_path src dst).
Proof.
  intros Hsrc Hdst r v'. subst r v'.
  rewrite (schedule_run w v d pid q vlt src dst Hsrc Hdst). cbv zeta.
  destruct (route_between find_path src dst) as [route|] eqn:Hroute; cbn [fst snd self].
  - split; [split; discriminate|]. intros _.
    destruct v. repeat split; try reflexivity.
  - split; [split; reflexivity|]. intros Hne. contradiction.
Qed.

End VehicleSchedule.

(** ** Vehicle: one tick *)

Section VehicleStep.

Import VehicleUnit.

Ltac vehicle_unfold :=
  unfold try_load, try_unload, len_path, _reset_internal_states, _reset_data_model,
         record_cost, storage_call, consumer_call, facility_of, modify_self, self_,
         StorageUnit.try_take_products, StorageUnit.try_add_products,
         ConsumerUnit.on_order_reception, ConsumerUnit.update_open_orders,
         with_open_order, with_consumer, with_storage.

Lemma with_storage_same (fid : Z) (f : Facility.t) (w : gmap Z Facility.t) :
  w !! fid = Some f -> with_storage fid f (Facility.storage f) w = w.
Proof.
  intros Hf. unfold with_storage. destruct f. cbn. apply insert_id, Hf.
Qed.

Lemma reset_states_run (w : gmap Z Facility.t) (v : t) :
  (_reset_internal_states ;;; _reset_data_model) (mk_sim w v)
  = (Normal tt, mk_sim w (job_less v)).
Proof. destruct v. vehicle_unfold. py_run. reflexivity. Qed.

Lemma loading_skips (w : gmap Z Facility.t) (v : t) :
  (location v =? 0) && (payload v =? 0) = false ->
  loading (mk_sim w v) = (Normal tt, mk_sim w v).
Proof.
  intros Hc. destruct v as [fa cf dm mp de pa pr st pl lo ve rq pt co ut].
  cbn [location payload] in Hc. unfold loading. vehicle_unfold. py_run.
  rewrite Hc. reflexivity.
Qed.

Lemma loading_dangling (w : gmap Z Facility.t) (v : t) :
  (location v =? 0) && (payload v =? 0) = true ->
  w !! facility v = None ->
  loading (mk_sim w v) = (Raise DanglingId, mk_sim w v).
Proof.
  intros Hc Hsrc. destruct v as [fa cf dm mp de pa pr st pl lo ve rq pt co ut].
  cbn [location payload facility] in *. unfold loading. vehicle_unfold. py_run.
  rewrite Hc. py_run. rewrite Hsrc. reflexivity.
Qed.

Lemma loading_loads (w : gmap Z Facility.t) (v : t) (src : Facility.t) :
  (location v =? 0) && (payload v =? 0) = true ->
  w !! facility v = Some src ->
  StorageUnit.can_take [(product_id v, requested_quantity v)] (Facility.storage src) = true ->
  loading (mk_sim w v)
  = (Return,
     mk_sim (with_storage (facility v) src
               (StorageUnit.add_level (product_id v) (- requested_quantity v)
                  (Facility.storage src)) w)
            (set_data_model
               (VehicleDataModel.set_payload (requested_quantity v) (data_model v))
               (set_payload (requested_quantity v) v))).
Proof.
  intros Hc Hsrc Htake. destruct v as [fa cf dm mp de pa pr st pl lo ve rq pt co ut].
  cbn [location payload facility product_id requested_quantity data_model] in *.
  unfold loading. vehicle_unfold. py_run.
  rewrite Hc. py_run. rewrite Hsrc. py_run.
  unfold StorageUnit.can_take in Htake. cbn [forallb fst snd] in Htake.
  rewrite Htake. py_run. reflexivity.
Qed.

Lemma loading_waits (w : gmap Z Facility.t) (v : t) (src : Facility.t) :
  (location v =? 0) && (payload v =? 0) = true ->
  w !! facility v = Some src ->
  StorageUnit.can_take [(product_id v, requested_quantity v)] (Facility.storage src) = false ->
  0 <= patient v - 1 ->
  loading (mk_sim w v) = (Normal tt, mk_sim w (set_patient (patient v - 1) v)).
Proof.
  intros Hc Hsrc Htake Hpt. destruct v as [fa cf dm mp de pa pr st pl lo ve rq pt co ut].
  cbn [location payload facility product_id requested_quantity data_model patient] in *.
  unfold loading. vehicle_unfold. py_run.
  rewrite Hc. py_run. rewrite Hsrc. py_run.
  unfold StorageUnit.can_take in Htake. cbn [forallb fst snd] in Htake.
  rewrite Htake. py_run.
  destruct (Z.ltb_spec (pt - 1) 0) as [Hneg|_]; [lia|].
  fold (with_storage fa src (Facility.storage src) w).
  rewrite with_storage_same by exact Hsrc. reflexivity.
Qed.

Lemma loading_abandons (w : gmap Z Facility.t) (v : t) (src dst : Facility.t)
    (d : Z) (pu : ProductUnit.t) (c : ConsumerUnit.t) :
  (location v =? 0) && (payload v =? 0) = true ->
  w !! facility v = Some src ->
  StorageUnit.can_take [(product_id v, requested_quantity v)] (Facility.storage src) = false ->
  patient v - 1 < 0 ->
  destination v = Some d ->
  w !! d = Some dst ->
  Facility.products dst !! product_id v = Some pu ->
  ProductUnit.consumer pu = Some c ->
  loading (mk_sim w v)
  = (Normal tt,
     mk_sim (with_consumer d (product_id v) dst
               (with_open_order (facility v) (product_id v) (- requested_quantity v) c) w)
            (job_less v)).
Proof.
  intros Hc Hsrc Htake Hpt Hd Hdst Hpu Hcons.
  destruct v as [fa cf dm mp de pa pr st pl lo ve rq pt co ut].
  cbn [location payload facility product_id requested_quantity data_model patient
       destination] in *.
  subst de. unfold loading. vehicle_unfold. py_run.
  rewrite Hc. py_run. rewrite Hsrc. py_run.
  unfold StorageUnit.can_take in Htake. cbn [forallb fst snd] in Htake.
  rewrite Htake. py_run.
  destruct (Z.ltb_spec (pt - 1) 0) as [_|Hge]; [|lia].
  fold (with_storage fa src (Facility.storage src) w).
  rewrite with_storage_same by exact Hsrc. py_run.
  rewrite Hdst. py_run. rewrite Hpu. py_run. rewrite Hcons. py_run.
  destruct (0 <? - rq); reflexivity.
Qed.

Lemma moving_skips (w : gmap Z Facility.t) (v : t) :
  (0 <? payload v) = false -> moving (mk_sim w v) = (Normal tt, mk_sim w v).
Proof.
  intros Hp. destruct v as [fa cf dm mp de pa pr st pl lo ve rq pt co ut].
  cbn [payload] in Hp. unfold moving. vehicle_unfold. py_run. rewrite Hp. reflexivity.
Qed.

Lemma moving_moves (w : gmap Z Facility.t) (v : t) (route : list (Z * Z)) :
  (0 <? payload v) = true ->
  path v = Some route ->
  moving (mk_sim w v) = (Normal tt, mk_sim w (moved v (Z.of_nat (length route)))).
Proof.
  intros Hp Hroute. destruct v as [fa cf dm mp de pa pr st pl lo ve rq pt co ut].
  cbn [payload path] in *. subst pa. unfold moving, moved. vehicle_unfold. py_run.
  rewrite Hp. py_run.
  destruct (Z.of_nat (length route) <=? lo + ve); reflexivity.
Qed.

Lemma moving_no_path (w : gmap Z Facility.t) (v : t) :
  (0 <? payload v) = true ->
  path v = None ->
  (moving (mk_sim w v)).1 = Raise TypeError.
Proof.
  intros Hp Hroute. destruct v as [fa cf dm mp de pa pr st pl lo ve rq pt co ut].
  cbn [payload path] in *. subst pa. unfold moving. vehicle_unfold. py_run.
  rewrite Hp. reflexivity.
Qed.

Lemma moving_never_returns (s : sim) : (moving s).1 <> Return.
Proof.
  destruct s as [w v]. destruct (0 <? payload v) eqn:Hp.
  - destruct (path v) as [route|] eqn:Hroute.
    + rewrite (moving_moves w v route Hp Hroute). discriminate.
    + rewrite (moving_no_path w v Hp Hroute). discriminate.
  - rewrite (moving_skips w v Hp). discriminate.
Qed.

Lemma singleton_nonempty {A : Type} (x : A) : (0 <? Z.of_nat (length [x])) = true.
Proof. reflexivity. Qed.

Lemma arriving_empty (w : gmap Z Facility.t) (v : t) :
  (0 <? payload v) = false ->
  arriving (mk_sim w v) = (Normal tt, mk_sim w (job_less v)).
Proof.
  intros Hp. destruct v as [fa cf dm mp de pa pr st pl lo ve rq pt co ut].
  cbn [payload] in Hp. unfold arriving. vehicle_unfold. py_run. rewrite Hp. reflexivity.
Qed.

Lemma arriving_unloads (w : gmap Z Facility.t) (v : t) (d : Z) (dst : Facility.t)
    (pu : ProductUnit.t) (c : ConsumerUnit.t) :
  (0 <? payload v) = true ->
  destination v = Some d ->
  w !! d = Some dst ->
  Facility.products dst !! product_id v = Some pu ->
  ProductUnit.consumer pu = Some c ->
  let units := delivered (Facility.storage dst) (payload v) in
  let st' := StorageUnit.add_level (product_id v) units (Facility.storage dst) in
  arriving (mk_sim w v)
  = (Normal tt,
     mk_sim (with_consumer d (product_id v) (Facility.set_storage st' dst)
               (with_reception (facility v) (product_id v) units (payload v) c)
               (with_storage d dst st' w))
            (job_less v)).
Proof.
  intros Hp Hd Hdst Hpu Hcons.
  destruct v as [fa cf dm mp de pa pr st pl lo ve rq pt co ut].
  cbn [payload destination product_id facility] in *. subst de.
  unfold arriving, with_reception, delivered. vehicle_unfold. py_run.
  rewrite Hp. py_run. rewrite Hdst. py_run.
  rewrite singleton_nonempty. py_run. rewrite lookup_insert_eq. py_run.
  destruct dst as [dx dy dst_storage dprod dskus].
  cbn [Facility.products Facility.set_storage Facility.storage] in *.
  rewrite Hpu. py_run. rewrite Hcons. py_run.
  rewrite Z.add_0_r.
  destruct (0 <? - pl); reflexivity.
Qed.

Lemma arriving_never_returns (s : sim) : (arriving s).1 <> Return.
Proof.
  destruct s as [w v]. destruct (0 <? payload v) eqn:Hp.
  - destruct v as [fa cf dm mp de pa pr st pl lo ve rq pt co ut].
    cbn [payload] in Hp. unfold arriving. vehicle_unfold. py_run. rewrite Hp. py_run.
    destruct de as [d|]; py_run; [|discriminate].
    destruct (w !! d) as [dst|] eqn:Hdst; py_run; [|discriminate].
    rewrite singleton_nonempty. py_run. rewrite lookup_insert_eq. py_run.
    destruct (Facility.products dst !! pr) as [pu|]; py_run; [|discriminate].
    destruct (ProductUnit.consumer pu) as [c|]; py_run; [|discriminate].
    destruct (0 <? - pl); discriminate.
  - rewrite (arriving_empty w v Hp). discriminate.
Qed.

Lemma loading_returns (s : sim) : (loading s).1 = Return -> can_load s = true.
Proof.
  destruct s as [w v]. unfold can_load. cbn [self world].
  destruct ((location v =? 0) && (payload v =? 0)) eqn:Hc.
  - destruct (w !! facility v) as [src|] eqn:Hsrc.
    + destruct (StorageUnit.can_take [(product_id v, requested_quantity v)]
                  (Facility.storage src)) eqn:Htake; [reflexivity|].
      intros Hret. exfalso. revert Hret.
      destruct v as [fa cf dm mp de pa pr st pl lo ve rq pt co ut].
      cbn [location payload facility product_id requested_quantity] in *.
      unfold loading. vehicle_unfold. py_run.
      rewrite Hc. py_run. rewrite Hsrc. py_run.
      unfold StorageUnit.can_take in Htake. cbn [forallb fst snd] in Htake.
      rewrite Htake. py_run.
      destruct (pt - 1 <? 0); py_run; [|discriminate].
      destruct de as [d|]; py_run; [|discriminate].
      destruct (<[fa:=Facility.set_storage (Facility.storage src) src]> w !! d)
        as [dst|]; py_run; [|discriminate].
      destruct (Facility.products dst !! pr) as [pu|]; py_run; [|discriminate].
      destruct (ProductUnit.consumer pu) as [c|]; py_run; [|discriminate].
      destruct (0 <? - rq); discriminate.
    + rewrite (loading_dangling w v Hc Hsrc). discriminate.
  - rewrite (loading_skips w v Hc). discriminate.
Qed.

(** [step] as its blocks: a return inside them ends the tick before the cost
    is recorded. *)
Lemma step_blocks (tick : Z) (s : sim) :
  step tick s =
    match (if 0 <? steps (self s) then loading ;;; moving else arriving) s with
    | (Normal _, s1) =>
        (Normal tt,
         mk_sim (world s1)
           (set_cost (payload (self s1) * unit_transport_cost (self s1)) (self s1)))
    | (Return, s1) => (Normal tt, s1)
    | (Raise e, s1) => (Raise e, s1)
    end.
Proof.
  destruct s as [w v]. unfold step, fn, bind at 1 2, self_, record_cost, modify_self.
  cbn [self world].
  destruct ((if 0 <? steps v then loading;;; moving else arriving) (mk_sim w v))
    as [[[]| |e] s1]; reflexivity.
Qed.

Lemma can_load_inv (w : gmap Z Facility.t) (v : t) :
  can_load (mk_sim w v) = true ->
  (location v =? 0) && (payload v =? 0) = true
  /\ exists src, w !! facility v = Some src
       /\ StorageUnit.can_take [(product_id v, requested_quantity v)]
            (Facility.storage src) = true.
Proof.
  unfold can_load. cbn [self world]. intros H.
  apply andb_true_iff in H as [Hc H]. split; [exact Hc|].
  destruct (w !! facility v) as [src|]; [|discriminate].
  exists src. split; [reflexivity|exact H].
Qed.

(** On a loading tick [step] ends at the [return] after the load. *)
Lemma step_loads (tick : Z) (w : gmap Z Facility.t) (v : t) (src : Facility.t) :
  0 < steps v ->
  (location v =? 0) && (payload v =? 0) = true ->
  w !! facility v = Some src ->
  StorageUnit.can_take [(product_id v, requested_quantity v)] (Facility.storage src) = true ->
  step tick (mk_sim w v)
  = (Normal tt,
     mk_sim (with_storage (facility v) src
               (StorageUnit.add_level (product_id v) (- requested_quantity v)
                  (Facility.storage src)) w)
            (set_data_model
               (VehicleDataModel.set_payload (requested_quantity v) (data_model v))
               (set_payload (requested_quantity v) v))).
Proof.
  intros Hsteps Hc Hsrc Htake. rewrite step_blocks. cbn [self].
  destruct (Z.ltb_spec 0 (steps v)) as [_|Hbad]; [|lia].
  unfold bind at 1. rewrite (loading_loads w v src Hc Hsrc Htake). reflexivity.
Qed.

(** C6, as the code has it: when [step] completes, the recorded transport
    cost is the payload times the unit transport cost on every tick but the
    one on which loading succeeds; on that tick [step] returns right after the
    load, so the payload becomes the requested quantity while the recorded
    cost keeps the value it had. *)
Theorem step_records_cost (tick : Z) (s s' : sim) :
  step tick s = (Normal tt, s') ->
  if loading_succeeds s
  then cost (self s') = cost (self s)
       /\ payload (self s') = requested_quantity (self s)
  else cost (self s') = payload (self s') * unit_transport_cost (self s').
Proof.
  intros Hrun. destruct (loading_succeeds s) eqn:Hload.
  - unfold loading_succeeds in Hload. apply andb_true_iff in Hload as [Hsteps Hcan].
    destruct s as [w v]. apply can_load_inv in Hcan as (Hc & src & Hsrc & Htake).
    cbn [self] in *. apply Z.ltb_lt in Hsteps.
    rewrite (step_loads tick w v src Hsteps Hc Hsrc Htake) in Hrun.
    injection Hrun as <-. destruct v. split; reflexivity.
  - rewrite step_blocks in Hrun.
    destruct ((if 0 <? steps (self s) then loading;;; moving else arriving) s)
      as [[[]| |e] s1] eqn:Hmain.
    + injection Hrun as <-. destruct s1 as [w1 v1]. destruct v1. reflexivity.
    + exfalso. destruct (0 <? steps (self s)) eqn:Hsteps.
      * unfold bind in Hmain. destruct (loading s) as [[[]| |e] s0] eqn:Hl.
        -- apply (moving_never_returns s0). rewrite Hmain. reflexivity.
        -- assert (Hcan : can_load s = true) by (apply loading_returns; rewrite Hl; reflexivity).
           unfold loading_succeeds in Hload. rewrite Hsteps, Hcan in Hload. discriminate.
        -- discriminate.
      * apply (arriving_never_returns s). rewrite Hmain. reflexivity.
    + discriminate.
Qed.

(** When the load fails and patience is left, the vehicle waits: a tick only
    costs it one unit of patience. *)
Lemma step_waits (tick : Z) (w : gmap Z Facility.t) (v : t) (src : Facility.t) :
  0 < steps v ->
  location v = 0 ->
  payload v = 0 ->
  w !! facility v = Some src ->
  StorageUnit.can_take [(product_id v, requested_quantity v)] (Facility.storage src) = false ->
  0 <= patient v - 1 ->
  step tick (mk_sim w v)
  = (Normal tt, mk_sim w (set_cost 0 (set_patient (patient v - 1) v))).
Proof.
  intros Hsteps Hloc Hpay Hsrc Htake Hpt. rewrite step_blocks. cbn [self].
  destruct (Z.ltb_spec 0 (steps v)) as [_|Hbad]; [|lia].
  assert (Hc : (location v =? 0) && (payload v =? 0) = true)
    by (rewrite Hloc, Hpay; reflexivity).
  unfold bind at 1. rewrite (loading_waits w v src Hc Hsrc Htake Hpt).
  rewrite moving_skips by (destruct v; cbn in *; subst; reflexivity).
  destruct v. cbn in *. subst. reflexivity.
Qed.

(** When the load fails and patience runs out, the vehicle rolls the open
    order back and drops the job. *)
Lemma step_abandons (tick : Z) (w : gmap Z Facility.t) (v : t) (src dst : Facility.t)
    (d : Z) (pu : ProductUnit.t) (c : ConsumerUnit.t) :
  0 < steps v ->
  location v = 0 ->
  payload v = 0 ->
  w !! facility v = Some src ->
  StorageUnit.can_take [(product_id v, requested_quantity v)] (Facility.storage src) = false ->
  patient v - 1 < 0 ->
  destination v = Some d ->
  w !! d = Some dst ->
  Facility.products dst !! product_id v = Some pu ->
  ProductUnit.consumer pu = Some c ->
  step tick (mk_sim w v)
  = (Normal tt,
     mk_sim (with_consumer d (product_id v) dst
               (with_open_order (facility v) (product_id v) (- requested_quantity v) c) w)
            (set_cost 0 (job_less v))).
Proof.
  intros Hsteps Hloc Hpay Hsrc Htake Hpt Hd Hdst Hpu Hcons. rewrite step_blocks. cbn [self].
  destruct (Z.ltb_spec 0 (steps v)) as [_|Hbad]; [|lia].
  assert (Hc : (location v =? 0) && (payload v =? 0) = true)
    by (rewrite Hloc, Hpay; reflexivity).
  unfold bind at 1.
  rewrite (loading_abandons w v src dst d pu c Hc Hsrc Htake Hpt Hd Hdst Hpu Hcons).
  rewrite moving_skips by reflexivity.
  destruct v. reflexivity.
Qed.

(** At the destination with goods on board, the vehicle unloads what fits,
    notifies the consumer and drops the job. *)
Lemma step_unloads (tick : Z) (w : gmap Z Facility.t) (v : t) (d : Z) (dst : Facility.t)
    (pu : ProductUnit.t) (c : ConsumerUnit.t) :
  steps v <= 0 ->
  0 < payload v ->
  destination v = Some d ->
  w !! d = Some dst ->
  Facility.products dst !! product_id v = Some pu ->
  ProductUnit.consumer pu = Some c ->
  let units := delivered (Facility.storage dst) (payload v) in
  let st' := StorageUnit.add_level (product_id v) units (Facility.storage dst) in
  step tick (mk_sim w v)
  = (Normal tt,
     mk_sim (with_consumer d (product_id v) (Facility.set_storage st' dst)
               (with_reception (facility v) (product_id v) units (payload v) c)
               (with_storage d dst st' w))
            (set_cost 0 (job_less v))).
Proof.
  intros Hsteps Hpay Hd Hdst Hpu Hcons units st'. rewrite step_blocks. cbn [self].
  destruct (Z.ltb_spec 0 (steps v)) as [Hbad|_]; [lia|].
  apply Z.ltb_lt in Hpay.
  rewrite (arriving_unloads w v d dst pu c Hpay Hd Hdst Hpu Hcons).
  destruct v. reflexivity.
Qed.

Lemma consumer_at_with_consumer (w : gmap Z Facility.t) (d pid : Z) (dst : Facility.t)
    (c : ConsumerUnit.t) :
  consumer_at (with_consumer d pid dst c w) d pid = Some c.
Proof.
  unfold consumer_at, with_consumer. rewrite lookup_insert_eq.
  destruct dst. cbn. rewrite lookup_insert_eq. reflexivity.
Qed.

Lemma stock_of_with_consumer (w : gmap Z Facility.t) (d pid fid pid' : Z)
    (dst : Facility.t) (c : ConsumerUnit.t) :
  stock_of (with_consumer d pid dst c w) fid pid'
  = if decide (fid = d) then StorageUnit.get_product_number (Facility.storage dst) pid'
    else stock_of w fid pid'.
Proof.
  unfold stock_of, with_consumer. destruct (decide (fid = d)) as [->|Hne].
  - rewrite lookup_insert_eq. destruct dst. reflexivity.
  - rewrite lookup_insert_ne by congruence. reflexivity.
Qed.

Lemma open_order_with_reception (source_id pid quantity original : Z) (c : ConsumerUnit.t) :
  ConsumerUnit.open_order
    (ConsumerUnit.open_orders (with_reception source_id pid quantity original c))
    source_id pid
  = ConsumerUnit.open_order (ConsumerUnit.open_orders c) source_id pid - original.
Proof.
  unfold with_reception, with_open_order. destruct c. cbn.
  rewrite open_order_iadd_same. lia.
Qed.

Lemma open_order_with_open_order (source_id pid delta : Z) (c : ConsumerUnit.t) :
  ConsumerUnit.open_order
    (ConsumerUnit.open_orders (with_open_order source_id pid delta c)) source_id pid
  = ConsumerUnit.open_order (ConsumerUnit.open_orders c) source_id pid + delta.
Proof. unfold with_open_order. destruct c. cbn. apply open_order_iadd_same. Qed.

Lemma get_product_number_add_level (st : StorageUnit.t) (pid delta : Z) :
  StorageUnit.get_product_number (StorageUnit.add_level pid delta st) pid
  = StorageUnit.get_product_number st pid + delta.
Proof.
  unfold StorageUnit.get_product_number at 1, StorageUnit.add_level. cbn.
  rewrite lookup_insert_eq. reflexivity.
Qed.

(** C1, as the code has it: a vehicle that arrives with a payload larger
    than the free space of the destination storage (10 units against 4 free
    ones in the scenario) delivers the free space's worth through
    [try_add_products] with all_or_nothing=False; the consumer's received
    counter rises by the delivered amount (4), and its open-order entry for
    (source facility, product) falls by the whole payload (10), which the
    vehicle passes as the originally ordered amount. *)
Theorem step_partial_delivery (tick : Z) (w : gmap Z Facility.t) (v : t)
    (d : Z) (dst : Facility.t) (pu : ProductUnit.t) (c : ConsumerUnit.t)
    (load free : Z) :
  steps v = 0 ->
  payload v = load ->
  destination v = Some d ->
  w !! d = Some dst ->
  StorageUnit.remaining_space (Facility.storage dst) = free ->
  0 < free < load ->
  Facility.products dst !! product_id v = Some pu ->
  ProductUnit.consumer pu = Some c ->
  exists s' st' c',
    step tick (mk_sim w v) = (Normal tt, s')
    /\ StorageUnit.try_add_products [(product_id v, load)] false (Facility.storage dst)
       = (Normal [(product_id v, free)], st')
    /\ stock_of (world s') d (product_id v) = stock_of w d (product_id v) + free
    /\ consumer_at (world s') d (product_id v) = Some c'
    /\ ConsumerUnit.received c' = ConsumerUnit.received c + free
    /\ ConsumerUnit.open_order (ConsumerUnit.open_orders c') (facility v) (product_id v)
       = ConsumerUnit.open_order (ConsumerUnit.open_orders c) (facility v) (product_id v)
         - load.
Proof.
  intros Hsteps Hload Hd Hdst Hfree Hrange Hpu Hcons.
  assert (Hunits : delivered (Facility.storage dst) (payload v) = free)
    by (unfold delivered; rewrite Hfree, Hload; lia).
  pose proof (step_unloads tick w v d dst pu c) as Hrun. cbv zeta in Hrun.
  rewrite Hunits in Hrun.
  eexists. eexists. eexists. split; [apply Hrun; try assumption; lia|].
  cbn [world]. split; [|split; [|split; [|split]]].
  - unfold StorageUnit.try_add_products. cbn [andb StorageUnit.add_each].
    rewrite Hfree. replace (Z.max 0 (Z.min free load)) with free by lia. reflexivity.
  - rewrite stock_of_with_consumer. destruct (decide (d = d)) as [_|Hne]; [|congruence].
    cbn [Facility.storage Facility.set_storage]. destruct dst as [dx dy dst0 dpr dsk].
    cbn [Facility.storage]. rewrite get_product_number_add_level.
    unfold stock_of. rewrite Hdst. reflexivity.
  - apply consumer_at_with_consumer.
  - unfold with_reception, with_open_order. destruct c. reflexivity.
  - rewrite Hload. apply open_order_with_reception.
Qed.

Lemma cannot_take_more (st : StorageUnit.t) (pid q : Z) :
  StorageUnit.get_product_number st pid < q ->
  StorageUnit.can_take [(pid, q)] st = false.
Proof.
  intros Hlt. unfold StorageUnit.can_take. cbn [forallb fst snd].
  destruct (Z.leb_spec q (StorageUnit.get_product_number st pid)); [lia|reflexivity].
Qed.

(** A failed load with patience [p + 1] leaves patience [p]. *)
Lemma step_waits_at (tick : Z) (w : gmap Z Facility.t) (v : t) (src : Facility.t) (p : Z) :
  0 < steps v ->
  location v = 0 ->
  payload v = 0 ->
  w !! facility v = Some src ->
  StorageUnit.get_product_number (Facility.storage src) (product_id v)
    < requested_quantity v ->
  patient v = p + 1 ->
  0 <= p ->
  step tick (mk_sim w v) = (Normal tt, mk_sim w (set_cost 0 (set_patient p v))).
Proof.
  intros Hsteps Hloc Hpay Hsrc Hstock Hpt Hp.
  rewrite (step_waits tick w v src Hsteps Hloc Hpay Hsrc)
    by (try apply cannot_take_more; try assumption; lia).
  replace (patient v - 1) with p by lia. reflexivity.
Qed.

(** C4: a vehicle with patience 3 whose source storage holds none of the
    product fails to load on three ticks, its patience counting 3, 2, 1, 0
    with the job still armed and the store untouched; on the fourth tick
    patience falls below 0 and it gives up: the destination consumer's
    open-order entry for (source facility, product) falls by the whole
    requested quantity (10), nothing is delivered (no stock changes and the
    consumer's received counter stays), and the vehicle is job-less again. *)
Theorem starved_loading (tick : Z) (w : gmap Z Facility.t) (v : t) (src dst : Facility.t)
    (d : Z) (pu : ProductUnit.t) (c : ConsumerUnit.t) :
  0 < steps v ->
  location v = 0 ->
  payload v = 0 ->
  patient v = 3 ->
  requested_quantity v = 10 ->
  w !! facility v = Some src ->
  StorageUnit.get_product_number (Facility.storage src) (product_id v) = 0 ->
  destination v = Some d ->
  w !! d = Some dst ->
  Facility.products dst !! product_id v = Some pu ->
  ProductUnit.consumer pu = Some c ->
  exists v1 v2 v3 s4 c4,
    step tick (mk_sim w v) = (Normal tt, mk_sim w v1)
    /\ patient v1 = 2 /\ destination v1 = Some d /\ payload v1 = 0
    /\ step (tick + 1) (mk_sim w v1) = (Normal tt, mk_sim w v2)
    /\ patient v2 = 1 /\ destination v2 = Some d /\ payload v2 = 0
    /\ step (tick + 2) (mk_sim w v2) = (Normal tt, mk_sim w v3)
    /\ patient v3 = 0 /\ destination v3 = Some d /\ payload v3 = 0
    /\ step (tick + 3) (mk_sim w v3) = (Normal tt, s4)
    /\ consumer_at (world s4) d (product_id v) = Some c4
    /\ ConsumerUnit.open_order (ConsumerUnit.open_orders c4) (facility v) (product_id v)
       = ConsumerUnit.open_order (ConsumerUnit.open_orders c) (facility v) (product_id v)
         - 10
    /\ ConsumerUnit.received c4 = ConsumerUnit.received c
    /\ (forall fid pid, stock_of (world s4) fid pid = stock_of w fid pid)
    /\ self s4 = set_cost 0 (job_less v)
    /\ is_enroute (self s4) = false.
Proof.
  intros Hsteps Hloc Hpay Hpt Hrq Hsrc Hnone Hd Hdst Hpu Hcons.
  destruct v as [fa cf dm mp de pa pr st pl lo ve rq pt co ut].
  cbn [steps location payload patient requested_quantity facility product_id
       destination] in *.
  subst lo pl pt rq de.
  set (v0 := mk fa cf dm mp (Some d) pa pr st 0 0 ve 10 3 co ut).
  exists (set_cost 0 (set_patient 2 v0)), (set_cost 0 (set_patient 1 v0)),
         (set_cost 0 (set_patient 0 v0)).
  exists (mk_sim (with_consumer d pr dst (with_open_order fa pr (- 10) c) w)
                 (set_cost 0 (job_less v0))).
  exists (with_open_order fa pr (- 10) c).
  split; [apply (step_waits_at tick w v0 src 2); cbn [v0 steps location payload facility
            product_id requested_quantity patient]; first [assumption|reflexivity|lia]|].
  do 3 (split; [reflexivity|]).
  split; [rewrite (step_waits_at (tick + 1) w _ src 1); cbn [v0 steps location payload
            facility product_id requested_quantity patient set_cost set_patient];
          first [assumption|reflexivity|lia]|].
  do 3 (split; [reflexivity|]).
  split; [rewrite (step_waits_at (tick + 2) w _ src 0); cbn [v0 steps location payload
            facility product_id requested_quantity patient set_cost set_patient];
          first [assumption|reflexivity|lia]|].
  do 3 (split; [reflexivity|]).
  split.
  { rewrite (step_abandons (tick + 3) w _ src dst d pu c);
      cbn [v0 steps location payload facility product_id requested_quantity patient
           destination set_cost set_patient];
      first [assumption | reflexivity | lia | apply cannot_take_more; lia]. }
  cbn [world self].
  split; [apply consumer_at_with_consumer|].
  split; [rewrite open_order_with_open_order; lia|].
  split; [unfold with_open_order; destruct c; reflexivity|].
  split; [|split; reflexivity].
  intros fid pid. rewrite stock_of_with_consumer.
  destruct (decide (fid = d)) as [->|_]; [|reflexivity].
  unfold stock_of. rewrite Hdst. reflexivity.
Qed.

End VehicleStep.

(** ** The worked delivery *)

Lemma arrived_state : arrived = VehicleUnit.mk_sim (sample_world 0) arrival_vehicle.
Proof. vm_compute. reflexivity. Qed.

Lemma schedule_routing_witness :
  (VehicleUnit.schedule sample_find_path 2 1 10 2 parked).1 = Normal tt
  /\ VehicleUnit.steps (VehicleUnit.self scheduled) = 2
  /\ VehicleUnit.location (VehicleUnit.self scheduled) = 0
  /\ VehicleUnit.velocity (VehicleUnit.self scheduled) = 2
  /\ VehicleUnit.patient (VehicleUnit.self scheduled) = 3.
Proof.
  destruct (schedule_routing sample_find_path (sample_world 10)
              (VehicleUnit.self parked) 2 1 10 2 (supplier 10) retailer)
    as [_ Harmed]; [vm_compute; reflexivity | vm_compute; reflexivity |].
  destruct Harmed as (Hr & Hs & Hl & Hv & Hp & _); [discriminate|].
  repeat split; assumption.
Defined.

(** C5 as stated fails on a path finder that answers with an empty waypoint
    sequence, which the path-finding contract counts as no route: [schedule]
    does not raise, and the job is armed with an empty path. *)
Lemma schedule_accepts_empty_route :
  let r := VehicleUnit.schedule empty_find_path 2 1 10 2 parked in
  route_between empty_find_path (supplier 10) retailer = Some []
  /\ r.1 = Normal tt
  /\ r.1 <> Raise Unreachable
  /\ VehicleUnit.steps (VehicleUnit.self r.2) = 2
  /\ VehicleUnit.patient (VehicleUnit.self r.2) = 3
  /\ VehicleUnit.path (VehicleUnit.self r.2) = Some [].
Proof. vm_compute. repeat split; discriminate. Qed.

(** C1 as stated fails on the worked delivery: at arrival the destination has
    4 free units for a payload of 10 and 4 units are delivered, but the
    open-order entry falls by 10 (from 10 to 0), not by 4, and the vehicle
    keeps nothing on board, so the next tick delivers nothing more. *)
Lemma partial_delivery_closes_whole_order :
  StorageUnit.remaining_space (Facility.storage retailer) = 4
  /\ VehicleUnit.payload (VehicleUnit.self arrived) = 10
  /\ stock_of (VehicleUnit.world unloaded) 2 1
     = stock_of (VehicleUnit.world arrived) 2 1 + 4
  /\ ledger_of (VehicleUnit.world unloaded) 2 1 1
     <> ledger_of (VehicleUnit.world arrived) 2 1 1 - 4
  /\ ledger_of (VehicleUnit.world unloaded) 2 1 1
     = ledger_of (VehicleUnit.world arrived) 2 1 1 - 10
  /\ VehicleUnit.payload (VehicleUnit.self unloaded) <> 6
  /\ VehicleUnit.payload (VehicleUnit.self unloaded) = 0
  /\ stock_of (VehicleUnit.world (VehicleUnit.step 5 unloaded).2) 2 1
     = stock_of (VehicleUnit.world unloaded) 2 1.
Proof. vm_compute. repeat split; discriminate. Qed.

Lemma step_partial_delivery_witness :
  exists s' c',
    VehicleUnit.step 4 arrived = (Normal tt, s')
    /\ stock_of (VehicleUnit.world s') 2 1 = 96 + 4
    /\ consumer_at (VehicleUnit.world s') 2 1 = Some c'
    /\ ConsumerUnit.received c' = 0 + 4
    /\ ConsumerUnit.open_order (ConsumerUnit.open_orders c') 1 1 = 10 - 10.
Proof.
  rewrite arrived_state.
  destruct (step_partial_delivery 4 (sample_world 0) arrival_vehicle 2 retailer
              (ProductUnit.mk (Some sample_buyer)) sample_buyer 10 4)
    as (s' & st' & c' & Hrun & _ & Hstock & Hcons & Hrec & Hledger);
    try (vm_compute; reflexivity); [lia|].
  exists s', c'. repeat split; assumption.
Defined.

(** C6 as stated fails on the loading tick of the worked delivery: [step]
    returns right after the load, with 10 units on board at unit cost 1 and a
    recorded cost of 0. *)
Lemma loading_tick_records_no_cost :
  VehicleUnit.step 1 scheduled = (Normal tt, loaded)
  /\ VehicleUnit.payload (VehicleUnit.self loaded) = 10
  /\ VehicleUnit.unit_transport_cost (VehicleUnit.self loaded) = 1
  /\ VehicleUnit.cost (VehicleUnit.self loaded) = 0
  /\ VehicleUnit.cost (VehicleUnit.self loaded)
     <> VehicleUnit.payload (VehicleUnit.self loaded)
        * VehicleUnit.unit_transport_cost (VehicleUnit.self loaded).
Proof. vm_compute. repeat split; discriminate. Qed.

Lemma step_records_cost_witness :
  VehicleUnit.cost (VehicleUnit.self underway) = 10 * 1
  /\ VehicleUnit.cost (VehicleUnit.self loaded) = 0.
Proof.
  pose proof (step_records_cost 2 loaded underway) as Hmoving.
  pose proof (step_records_cost 1 scheduled loaded) as Hloading.
  split.
  - change (VehicleUnit.cost (VehicleUnit.self underway)
            = VehicleUnit.payload (VehicleUnit.self underway)
              * VehicleUnit.unit_transport_cost (VehicleUnit.self underway)).
    apply Hmoving. vm_compute. reflexivity.
  - change (VehicleUnit.cost (VehicleUnit.self loaded)
            = VehicleUnit.cost (VehicleUnit.self scheduled)).
    apply Hloading. vm_compute. reflexivity.
Defined.

Lemma starved_vehicle_scheduled :
  VehicleUnit.schedule sample_find_path 2 1 10 2
    (VehicleUnit.mk_sim (sample_world 0) (VehicleUnit.self parked))
  = (Normal tt, VehicleUnit.mk_sim (sample_world 0) starved_vehicle).
Proof. vm_compute. reflexivity. Qed.

Lemma starved_loading_witness :
  exists v3 s4,
    VehicleUnit.patient v3 = 0
    /\ VehicleUnit.step 4 (VehicleUnit.mk_sim (sample_world 0) v3) = (Normal tt, s4)
    /\ ledger_of (VehicleUnit.world s4) 2 1 1 = 10 - 10
    /\ stock_of (VehicleUnit.world s4) 2 1 = 96
    /\ VehicleUnit.is_enroute (VehicleUnit.self s4) = false.
Proof.
  assert (Hsteps : 0 < VehicleUnit.steps starved_vehicle) by (simpl; lia).
  assert (Hsrc : sample_world 0 !! VehicleUnit.facility starved_vehicle
                 = Some (supplier 0)) by (vm_compute; reflexivity).
  assert (Hnone : StorageUnit.get_product_number (Facility.storage (supplier 0))
                    (VehicleUnit.product_id starved_vehicle) = 0)
    by (vm_compute; reflexivity).
  assert (Hdst : sample_world 0 !! 2 = Some retailer) by (vm_compute; reflexivity).
  assert (Hpu : Facility.products retailer !! VehicleUnit.product_id starved_vehicle
                = Some (ProductUnit.mk (Some sample_buyer)))
    by (vm_compute; reflexivity).
  destruct (starved_loading 1 (sample_world 0) starved_vehicle (supplier 0) retailer 2
              (ProductUnit.mk (Some sample_buyer)) sample_buyer
              Hsteps eq_refl eq_refl eq_refl eq_refl Hsrc Hnone eq_refl Hdst Hpu eq_refl)
    as (v1 & v2 & v3 & s4 & c4 & _ & _ & _ & _ & _ & _ & _ & _ & _ & Hp3 & _ & _
        & Hrun & Hcons & Hledger & _ & Hstock & _ & Hidle).
  change (VehicleUnit.product_id starved_vehicle) with 1 in Hcons, Hledger.
  change (VehicleUnit.facility starved_vehicle) with 1 in Hledger.
  change (ConsumerUnit.open_order (ConsumerUnit.open_orders sample_buyer) 1 1)
    with 10 in Hledger.
  exists v3, s4. split; [exact Hp3|]. split; [exact Hrun|].
  split; [unfold ledger_of; rewrite Hcons; exact Hledger|].
  split; [rewrite Hstock; vm_compute; reflexivity|exact Hidle].
Defined.

(** ** Reset *)

Section Preservation.

Context {S T : Type} (obs : S -> T).

Lemma preserves_ret {A} (a : A) : preserves obs (ret a).
Proof. intros s. reflexivity. Qed.

Lemma preserves_return {A} : preserves obs (@return_ S A).
Proof. intros s. reflexivity. Qed.

Lemma preserves_raise {A} (e : exn) : preserves obs (@raise S A e).
Proof. intros s. reflexivity. Qed.

Lemma preserves_get : preserves obs (@get S).
Proof. intros s. reflexivity. Qed.

Lemma preserves_call {A} (r : exn + A) : preserves obs (@call S A r).
Proof. intros s. destruct r; reflexivity. Qed.


Lemma preserves_bind {A B} (m : M S A) (k : A -> M S B) :
  preserves obs m -> (forall a, preserves obs (k a)) -> preserves obs (bind m k).
Proof.
  intros Hm Hk s. unfold bind. specialize (Hm s).
  destruct (m s) as [[a| |e] s1]; cbn [snd] in *; [|assumption|assumption].
  rewrite (Hk a s1). exact Hm.
Qed.

Lemma preserves_when (c : bool) (body : M S unit) :
  preserves obs body -> preserves obs (when c body).
Proof. intros Hb. destruct c; [exact Hb|apply preserves_ret]. Qed.

Lemma preserves_fn (body : M S unit) : preserves obs body -> preserves obs (fn body).
Proof.
  intros Hb s. unfold fn. specialize (Hb s).
  destruct (body s) as [[a| |e] s1]; exact Hb.
Qed.

End Preservation.

(** Taking a computation apart along its control operators. *)
Ltac preserve leaf :=
  repeat first
    [ leaf
    | apply preserves_bind; [|intros ?]
    | apply preserves_fn
    | apply preserves_when
    | apply preserves_ret
    | apply preserves_return
    | apply preserves_raise
    | apply preserves_get
    | apply preserves_call
    | match goal with
      | |- preserves _ (match ?x with _ => _ end) => destruct x
      end ].

Section ConsumerReset.

Variable shift : list Z -> Z -> Z -> list Z.
Variable place_order : Z -> Order.t -> exn + Z.











End ConsumerReset.

Section VehicleReset.

Import VehicleUnit.

Variable find_path : Z -> Z -> Z -> Z -> option (list (Z * Z)).

Lemma modify_self_keeps_setup (f : t -> t) :
  (forall v, vehicle_setup (mk_sim ∅ (f v)) = vehicle_setup (mk_sim ∅ v)) ->
  preserves vehicle_setup (modify_self f).
Proof. intros Hf s. destruct s as [w v]. exact (Hf v). Qed.

Lemma self_keeps_setup : preserves vehicle_setup self_.
Proof. intros s. reflexivity. Qed.

Lemma facility_of_keeps_setup (fid : Z) : preserves vehicle_setup (facility_of fid).
Proof. intros s. unfold facility_of. destruct (world s !! fid); reflexivity. Qed.

(** A call on an object of the store leaves the vehicle as it is. *)
Lemma storage_call_keeps_setup {A} (fid : Z) (m : M StorageUnit.t A) :
  preserves vehicle_setup (storage_call fid m).
Proof.
  intros s. unfold storage_call, bind, facility_of.
  destruct (world s !! fid) as [f|]; [|reflexivity].
  destruct (m (Facility.storage f)). reflexivity.
Qed.

Lemma consumer_call_keeps_setup {A} (d : option Z) (pid : Z) (m : M ConsumerUnit.t A) :
  preserves vehicle_setup (consumer_call d pid m).
Proof.
  intros s. unfold consumer_call, bind, facility_of, raise.
  destruct d as [d|]; [|reflexivity].
  destruct (world s !! d) as [f|]; [|reflexivity].
  destruct (Facility.products f !! pid) as [pu|]; [|reflexivity].
  destruct (ProductUnit.consumer pu) as [c|]; [|reflexivity].
  destruct (m c). reflexivity.
Qed.

Ltac vehicle_leaf :=
  first [ apply self_keeps_setup
        | apply facility_of_keeps_setup
        | apply storage_call_keeps_setup
        | apply consumer_call_keeps_setup
        | apply modify_self_keeps_setup; intros []; reflexivity ].

Lemma reset_states_keeps_setup :
  preserves vehicle_setup (_reset_internal_states ;;; _reset_data_model).
Proof. unfold _reset_internal_states, _reset_data_model. preserve vehicle_leaf. Qed.











End VehicleReset.






(** ** Further properties of a vehicle's tick *)

Section VehicleTick.

Import VehicleUnit.

(** X1: at the destination [step] drops the job after [try_unload] whatever
    is left on board: the guard [if self.payload == 0] is commented out, so
    the vehicle ends the tick job-less, with payload 0, no destination,
    patience at the maximum and a recorded cost of 0. *)
Theorem arrival_drops_job (tick : Z) (w : gmap Z Facility.t) (v : t)
    (d : Z) (dst : Facility.t) (pu : ProductUnit.t) (c : ConsumerUnit.t) :
  steps v <= 0 ->
  0 < payload v ->
  destination v = Some d ->
  w !! d = Some dst ->
  Facility.products dst !! product_id v = Some pu ->
  ProductUnit.consumer pu = Some c ->
  let v' := self (step tick (mk_sim w v)).2 in
  (step tick (mk_sim w v)).1 = Normal tt
  /\ payload v' = 0 /\ destination v' = None /\ path v' = None /\ steps v' = 0
  /\ location v' = 0 /\ requested_quantity v' = 0
  /\ patient v' = max_patient v /\ cost v' = 0
  /\ is_enroute v' = false.
Proof.
  intros Hsteps Hpay Hd Hdst Hpu Hcons.
  pose proof (step_unloads tick w v d dst pu c Hsteps Hpay Hd Hdst Hpu Hcons) as Hrun.
  cbv zeta in *. rewrite Hrun. destruct v. repeat split.
Qed.

(** X2: on a loading tick (steps to go, position 0, nothing on board, and the
    source storage holds the requested quantity) [step] takes the requested
    quantity out of the source storage, puts it on board, writes it to the
    payload attribute and returns: steps, position and patience stay. *)
Theorem loading_tick (tick : Z) (w : gmap Z Facility.t) (v : t) (src : Facility.t) :
  0 < steps v ->
  location v = 0 ->
  payload v = 0 ->
  w !! facility v = Some src ->
  requested_quantity v
    <= StorageUnit.get_product_number (Facility.storage src) (product_id v) ->
  let s' := (step tick (mk_sim w v)).2 in
  (step tick (mk_sim w v)).1 = Normal tt
  /\ payload (self s') = requested_quantity v
  /\ VehicleDataModel.payload (data_model (self s')) = requested_quantity v
  /\ stock_of (world s') (facility v) (product_id v)
     = stock_of w (facility v) (product_id v) - requested_quantity v
  /\ steps (self s') = steps v /\ location (self s') = 0
  /\ patient (self s') = patient v /\ destination (self s') = destination v.
Proof.
  intros Hsteps Hloc Hpay Hsrc Hstock.
  assert (Hc : (location v =? 0) && (payload v =? 0) = true)
    by (rewrite Hloc, Hpay; reflexivity).
  assert (Htake : StorageUnit.can_take [(product_id v, requested_quantity v)]
                    (Facility.storage src) = true).
  { unfold StorageUnit.can_take. cbn [forallb fst snd].
    apply andb_true_iff. split; [apply Z.leb_le, Hstock|reflexivity]. }
  cbv zeta. rewrite (step_loads tick w v src Hsteps Hc Hsrc Htake). cbn [fst snd world self].
  split; [reflexivity|]. split; [destruct v; reflexivity|].
  split; [destruct v; reflexivity|]. split.
  - unfold stock_of, with_storage. rewrite lookup_insert_eq, Hsrc.
    destruct src as [sx sy sst spr ssk]. cbn [Facility.storage Facility.set_storage].
    rewrite get_product_number_add_level. lia.
  - destruct v. cbn in *. subst. repeat split.
Qed.

Lemma step_moves (tick : Z) (w : gmap Z Facility.t) (v : t) (route : list (Z * Z)) :
  0 < steps v ->
  0 < payload v ->
  path v = Some route ->
  step tick (mk_sim w v)
  = (Normal tt,
     mk_sim w (set_cost (payload v * unit_transport_cost v)
                 (moved v (Z.of_nat (length route))))).
Proof.
  intros Hsteps Hpay Hroute. rewrite step_blocks. cbn [self].
  destruct (Z.ltb_spec 0 (steps v)) as [_|Hbad]; [|lia].
  assert (Hc : (location v =? 0) && (payload v =? 0) = false).
  { destruct (Z.eqb_spec (payload v) 0); [lia|]. apply andb_false_r. }
  assert (Hp : (0 <? payload v) = true) by (apply Z.ltb_lt, Hpay).
  unfold bind at 1. rewrite (loading_skips w v Hc).
  rewrite (moving_moves w v route Hp Hroute).
  unfold moved. destruct v. reflexivity.
Qed.

(** X3: on a tick with steps to go and goods on board the vehicle moves: the
    position advances by the velocity and is clamped to the last waypoint,
    the steps to go fall by one, the payload stays and the cost of the tick
    is the payload times the unit transport cost; the store is not touched. *)
Theorem moving_tick (tick : Z) (w : gmap Z Facility.t) (v : t) (route : list (Z * Z)) :
  0 < steps v ->
  0 < payload v ->
  path v = Some route ->
  let n := Z.of_nat (length route) in
  let s' := (step tick (mk_sim w v)).2 in
  (step tick (mk_sim w v)).1 = Normal tt
  /\ world s' = w
  /\ location (self s')
     = (if n <=? location v + velocity v then n - 1 else location v + velocity v)
  /\ steps (self s') = steps v - 1
  /\ payload (self s') = payload v
  /\ cost (self s') = payload v * unit_transport_cost v.
Proof.
  intros Hsteps Hpay Hroute. cbv zeta.
  rewrite (step_moves tick w v route Hsteps Hpay Hroute).
  unfold moved. destruct v. repeat split; reflexivity.
Qed.

End VehicleTick.

Lemma arrival_drops_job_witness :
  VehicleUnit.payload (VehicleUnit.self unloaded) = 0
  /\ VehicleUnit.is_enroute (VehicleUnit.self unloaded) = false.
Proof.
  assert (Hdst : sample_world 0 !! 2 = Some retailer) by (vm_compute; reflexivity).
  assert (Hpu : Facility.products retailer !! VehicleUnit.product_id arrival_vehicle
                = Some (ProductUnit.mk (Some sample_buyer)))
    by (vm_compute; reflexivity).
  assert (Hsteps : VehicleUnit.steps arrival_vehicle <= 0) by (simpl; lia).
  assert (Hpay : 0 < VehicleUnit.payload arrival_vehicle) by (simpl; lia).
  destruct (arrival_drops_job 4 (sample_world 0) arrival_vehicle 2 retailer
              (ProductUnit.mk (Some sample_buyer)) sample_buyer
              Hsteps Hpay eq_refl Hdst Hpu eq_refl)
    as (_ & Hpayload & _ & _ & _ & _ & _ & _ & _ & Hidle).
  unfold unloaded. rewrite arrived_state. split; [exact Hpayload|exact Hidle].
Defined.

Lemma scheduled_state :
  scheduled
  = VehicleUnit.mk_sim (sample_world 10)
      (VehicleUnit.mk 1 sample_config (VehicleDataModel.mk 0 1) 3 (Some 2)
         (Some sample_route) 1 2 0 0 2 10 3 0 1).
Proof. vm_compute. reflexivity. Qed.

Lemma loading_tick_witness :
  VehicleUnit.payload (VehicleUnit.self loaded) = 10
  /\ stock_of (VehicleUnit.world loaded) 1 1 = stock_of (sample_world 10) 1 1 - 10.
Proof.
  assert (Hsrc : sample_world 10 !! 1 = Some (supplier 10)) by (vm_compute; reflexivity).
  assert (Hsteps : (0 < 2)%Z) by lia.
  assert (Hstock : 10 <= StorageUnit.get_product_number (Facility.storage (supplier 10)) 1)
    by (vm_compute; discriminate).
  destruct (loading_tick 1 (sample_world 10)
              (VehicleUnit.mk 1 sample_config (VehicleDataModel.mk 0 1) 3 (Some 2)
                 (Some sample_route) 1 2 0 0 2 10 3 0 1)
              (supplier 10) Hsteps eq_refl eq_refl Hsrc Hstock)
    as (_ & Hpayload & _ & Hstore & _).
  unfold loaded. rewrite scheduled_state. split; [exact Hpayload|exact Hstore].
Defined.

Lemma loaded_state :
  loaded
  = VehicleUnit.mk_sim (sample_world 0)
      (VehicleUnit.mk 1 sample_config (VehicleDataModel.mk 10 1) 3 (Some 2)
         (Some sample_route) 1 2 10 0 2 10 3 0 1).
Proof. vm_compute. reflexivity. Qed.

Lemma moving_tick_witness :
  VehicleUnit.location (VehicleUnit.self underway) = 2
  /\ VehicleUnit.steps (VehicleUnit.self underway) = 2 - 1
  /\ VehicleUnit.cost (VehicleUnit.self underway) = 10 * 1.
Proof.
  assert (Hsteps : (0 < 2)%Z) by lia.
  assert (Hpay : (0 < 10)%Z) by lia.
  destruct (moving_tick 2 (sample_world 0)
              (VehicleUnit.mk 1 sample_config (VehicleDataModel.mk 10 1) 3 (Some 2)
                 (Some sample_route) 1 2 10 0 2 10 3 0 1)
              sample_route Hsteps Hpay eq_refl)
    as (_ & _ & Hloc & Hst & _ & Hcost).
  unfold underway. rewrite loaded_state.
  split; [exact Hloc|]. split; [exact Hst|exact Hcost].
Defined.

(** ** Local learner: construction *)

Section LearnerInit.

Import LocalLearner.

Lemma eval_schedule_of_raises (n : Z) (arg : schedule_arg) (e : exn) :
  eval_schedule_of n arg = inl e <-> e = ZeroDivisionError /\ arg = ScheduleEvery 0.
Proof.
  unfold eval_schedule_of, floordiv. destruct arg as [|k|l].
  - split; [|intros [_ H]; discriminate].
    match goal with |- context [if ?b then _ else _] => destruct b end; discriminate.
  - destruct (Z.eqb_spec k 0) as [->|Hk].
    + split; [intros H; injection H as <-; split; reflexivity|intros [-> _]; reflexivity].
    + split.
      * match goal with |- context [if ?b then _ else _] => destruct b end; discriminate.
      * intros [_ H]. injection H as ->. contradiction.
  - split; [|intros [_ H]; discriminate].
    match goal with |- context [if ?b then _ else _] => destruct b end; discriminate.
Qed.

Lemma init_rejects_steps (n steps : Z) (arg : schedule_arg) (stopper : option (Z -> bool)) :
  steps = 0 \/ steps < -1 -> __init__ n steps arg stopper = inl ValueError.
Proof.
  intros Hbad. unfold __init__.
  destruct (Z.eqb_spec steps 0); [reflexivity|].
  destruct (Z.ltb_spec steps (-1)); [reflexivity|]. lia.
Qed.

Lemma init_accepts_steps (n steps : Z) (arg : schedule_arg) (stopper : option (Z -> bool)) :
  ~ (steps = 0 \/ steps < -1) ->
  __init__ n steps arg stopper =
    match eval_schedule_of n arg with
    | inl e => inl (Raised e)
    | inr schedule =>
        inr (mk n (if steps =? -1 then None else Some steps) schedule 0 stopper)
    end.
Proof.
  intros Hok. unfold __init__.
  destruct (Z.eqb_spec steps 0); [lia|].
  destruct (Z.ltb_spec steps (-1)); [lia|]. cbn [orb].
  destruct (Z.ltb_spec 0 steps), (Z.eqb_spec steps (-1)); try reflexivity; lia.
Qed.

(** X4: [LocalLearner.__init__] raises ValueError exactly when [num_steps]
    is 0 or below -1, raises ZeroDivisionError exactly when [num_steps] is
    accepted and the schedule is the integer 0, and raises nothing else; a
    learner it builds keeps [num_episodes] and the early stopper, has no step
    limit exactly for [num_steps] -1, and starts at evaluation point 0. *)
Theorem learner_init_outcome (n steps : Z) (arg : schedule_arg)
    (stopper : option (Z -> bool)) :
  (__init__ n steps arg stopper = inl ValueError <-> steps = 0 \/ steps < -1)
  /\ (__init__ n steps arg stopper = inl (Raised ZeroDivisionError)
      <-> ~ (steps = 0 \/ steps < -1) /\ arg = ScheduleEvery 0)
  /\ (forall e, __init__ n steps arg stopper = inl e ->
        e = ValueError \/ e = Raised ZeroDivisionError)
  /\ (forall l, __init__ n steps arg stopper = inr l ->
        num_episodes l = n
        /\ _num_steps l = (if steps =? -1 then None else Some steps)
        /\ (steps = -1 \/ 0 < steps)
        /\ _eval_point_index l = 0
        /\ early_stopper l = stopper
        /\ eval_schedule_of n arg = inr (_eval_schedule l)).
Proof.
  destruct (decide (steps = 0 \/ steps < -1)) as [Hbad|Hok].
  - rewrite (init_rejects_steps n steps arg stopper Hbad).
    split; [tauto|]. split; [split; [discriminate|tauto]|].
    split; [intros e H; injection H as <-; left; reflexivity|discriminate].
  - rewrite (init_accepts_steps n steps arg stopper Hok).
    destruct (eval_schedule_of n arg) as [e|sched] eqn:Hsched.
    + apply eval_schedule_of_raises in Hsched as [-> ->].
      split; [split; [discriminate|tauto]|]. split; [tauto|].
      split; [intros e H; injection H as <-; right; reflexivity|discriminate].
    + split; [split; [discriminate|tauto]|].
      split.
      { split; [discriminate|]. intros [_ ->]. exfalso.
        assert (H : eval_schedule_of n (ScheduleEvery 0) = inl ZeroDivisionError)
          by (apply eval_schedule_of_raises; split; reflexivity).
        rewrite H in Hsched. discriminate. }
      split; [discriminate|].
      intros l H. injection H as <-. cbn.
      repeat split; lia.
Qed.

End LearnerInit.

(** ** Local learner: the evaluation schedule *)

Section LearnerSchedule.

Import LocalLearner.

Lemma eval_schedule_of_requested (n : Z) (arg : schedule_arg) (sched : list Z) :
  eval_schedule_of n arg = inr sched ->
  (last (requested n arg) = Some n /\ sched = requested n arg)
  \/ (last (requested n arg) <> Some n /\ sched = requested n arg ++ [n]).
Proof.
  assert (Hfinish : forall b,
            (if bool_decide (b = []) || negb (bool_decide (Some n = last b))
             then inr (b ++ [n]) else inr b) = (inr sched : exn + list Z) ->
            (last b = Some n /\ sched = b) \/ (last b <> Some n /\ sched = b ++ [n])).
  { intros b. destruct (decide (b = [])) as [->|Hne].
    - cbn. intros H. injection H as <-. right. split; [discriminate|reflexivity].
    - rewrite (bool_decide_eq_false_2 _ Hne). cbn [orb].
      destruct (decide (Some n = last b)) as [Heq|Hneq].
      + rewrite (bool_decide_eq_true_2 _ Heq). cbn. intros H. injection H as <-.
        left. split; [symmetry; exact Heq|reflexivity].
      + rewrite (bool_decide_eq_false_2 _ Hneq). cbn. intros H. injection H as <-.
        right. split; [congruence|reflexivity]. }
  unfold eval_schedule_of, requested, floordiv, PySeq.range.
  destruct arg as [|k|l]; [apply Hfinish| |apply Hfinish].
  destruct (k =? 0); [discriminate|].
  replace (n / k + 1 - 1) with (n / k) by lia. apply Hfinish.
Qed.

Lemma init_schedule_last (n : Z) (arg : schedule_arg) (sched : list Z) :
  eval_schedule_of n arg = inr sched ->
  exists front, sched = front ++ [n] /\ last sched = Some n.
Proof.
  intros Hsched.
  apply eval_schedule_of_requested in Hsched as [[Hlast ->]|[_ ->]].
  - apply last_Some in Hlast as [front Hfront]. exists front.
    rewrite Hfront. split; [reflexivity|apply last_snoc].
  - exists (requested n arg). split; [reflexivity|apply last_snoc].
Qed.

(** X5: whatever evaluation schedule is asked for, the schedule
    [LocalLearner.__init__] builds is never empty and ends with
    [num_episodes] ("always evaluate after the last episode"). *)
Theorem learner_schedule_ends_with_last_episode (n steps : Z) (arg : schedule_arg)
    (stopper : option (Z -> bool)) (l : t) :
  __init__ n steps arg stopper = inr l ->
  exists front, _eval_schedule l = front ++ [n] /\ last (_eval_schedule l) = Some n.
Proof.
  intros Hinit. unfold __init__ in Hinit.
  destruct ((steps =? 0) || (steps <? -1)); [discriminate|].
  destruct (eval_schedule_of n arg) as [e|sched] eqn:Hsched; [discriminate|].
  injection Hinit as <-. cbn [_eval_schedule].
  apply (init_schedule_last n arg), Hsched.
Qed.

Lemma elem_of_map {A B : Type} (f : A -> B) (l : list A) (y : B) :
  y ∈ map f l <-> exists x, y = f x /\ x ∈ l.
Proof.
  rewrite list_elem_of_In, in_map_iff. split.
  - intros (x & Hx & Hin). exists x. split; [congruence|apply list_elem_of_In, Hin].
  - intros (x & Hx & Hin). exists x. split; [congruence|apply list_elem_of_In, Hin].
Qed.

Lemma multiples_sorted (k : Z) (len : nat) (a : Z) :
  0 < k -> StronglySorted Z.lt (map (fun i => k * i) (seqZ a (Z.of_nat len))).
Proof.
  intros Hk. revert a. induction len as [|len IH]; intros a.
  - rewrite seqZ_nil by lia. constructor.
  - rewrite seqZ_cons by lia. cbn [map]. constructor.
    + replace (Z.pred (Z.of_nat (S len))) with (Z.of_nat len) by lia. apply IH.
    + apply Forall_forall. intros e He.
      apply elem_of_map in He as (i & -> & Hi).
      apply elem_of_seqZ in Hi. nia.
Qed.

Lemma elem_of_multiples (k n e : Z) :
  0 < k ->
  e ∈ map (fun i => k * i) (seqZ 1 (n / k)) <-> 0 < e <= n /\ (k | e).
Proof.
  intros Hk. rewrite elem_of_map. split.
  - intros (i & -> & Hi). apply elem_of_seqZ in Hi.
    assert (k * (n / k) <= n) by (apply Z.mul_div_le; lia).
    split; [nia|]. exists i. lia.
  - intros [Hrange [i ->]]. exists i. split; [lia|]. apply elem_of_seqZ.
    assert (i <= n / k) by (apply Z.div_le_lower_bound; lia). nia.
Qed.

Lemma schedule_every_spec (n k : Z) :
  0 < k ->
  exists sched,
    eval_schedule_of n (ScheduleEvery k) = inr sched
    /\ StronglySorted Z.lt sched
    /\ forall e, e ∈ sched <-> e = n \/ (0 < e <= n /\ (k | e)).
Proof.
  intros Hk.
  destruct (eval_schedule_of n (ScheduleEvery k)) as [e|sched] eqn:Hsched.
  { exfalso. unfold eval_schedule_of, floordiv in Hsched.
    destruct (Z.eqb_spec k 0); [lia|].
    revert Hsched.
    match goal with |- context [if ?b then _ else _] => destruct b end; discriminate. }
  exists sched. split; [reflexivity|].
  pose proof (eval_schedule_of_requested _ _ _ Hsched) as Hcases.
  cbn [requested] in Hcases.
  assert (Hsorted : StronglySorted Z.lt (map (fun i => k * i) (seqZ 1 (n / k)))).
  { destruct (Z.le_gt_cases (n / k) 0) as [Hle|Hgt].
    - rewrite seqZ_nil by lia. constructor.
    - rewrite <- (Z2Nat.id (n / k)) by lia. apply multiples_sorted, Hk. }
  destruct Hcases as [[Hlast ->]|[Hlast ->]].
  - split; [exact Hsorted|]. intros e. rewrite elem_of_multiples by exact Hk.
    split; [tauto|]. intros [->|H]; [|exact H].
    apply elem_of_multiples; [exact Hk|]. apply last_Some_elem_of, Hlast.
  - split.
    + apply StronglySorted_app_2; [|exact Hsorted|repeat constructor].
      intros x1 x2 Hx1 Hx2. apply list_elem_of_singleton in Hx2 as ->.
      pose proof Hx1 as Hin. apply elem_of_multiples in Hin as [Hrange Hdiv]; [|exact Hk].
      destruct (Z.eq_dec x1 n) as [Heq|Hne]; [|lia].
      (* n itself a multiple: then it is the last one, which was excluded *)
      exfalso. apply Hlast.
      destruct Hdiv as [i Hi]. assert (Hn : n = i * k) by lia.
      assert (Hq : n / k = i) by (rewrite Hn; apply Z.div_mul; lia).
      rewrite Hq. assert (Hpos : 0 < i) by nia.
      rewrite <- (Z2Nat.id i) at 1 by lia.
      destruct (Z.to_nat i) as [|j] eqn:Hj; [lia|].
      rewrite seqZ_S, map_app. cbn [map]. rewrite last_snoc. f_equal. lia.
    + intros e. rewrite elem_of_app, list_elem_of_singleton, elem_of_multiples by exact Hk.
      tauto.
Qed.

(** X6: for a positive integer schedule k, the schedule of
    [LocalLearner.__init__] is strictly ascending and holds exactly the
    positive multiples of k up to [num_episodes], and [num_episodes] itself. *)
Theorem learner_schedule_every (n k : Z) :
  0 < k ->
  exists sched,
    eval_schedule_of n (ScheduleEvery k) = inr sched
    /\ StronglySorted Z.lt sched
    /\ forall e, e ∈ sched <-> e = n \/ (0 < e <= n /\ (k | e)).
Proof. apply schedule_every_spec. Qed.

Lemma sorted_last_max (l : list Z) (m : Z) :
  StronglySorted Z.le l -> last l = Some m -> forall e, e ∈ l -> e <= m.
Proof.
  induction l as [|x l IH]; intros Hsorted Hlast e He; [inversion He|].
  apply StronglySorted_cons in Hsorted as [Hx Hsorted].
  destruct l as [|y l'].
  - cbn in Hlast. injection Hlast as <-. apply list_elem_of_singleton in He as ->. lia.
  - rewrite last_cons in Hlast.
    destruct (last (y :: l')) as [m'|] eqn:Hl; [|apply last_None in Hl; discriminate].
    injection Hlast as ->.
    apply elem_of_cons in He as [->|He].
    + rewrite Forall_forall in Hx. apply Hx. apply last_Some_elem_of, Hl.
    + apply IH; [exact Hsorted|reflexivity|exact He].
Qed.

Lemma sorted_last_is_max (l : list Z) (n : Z) :
  StronglySorted Z.le l ->
  (last l = Some n <-> n ∈ l /\ forall e, e ∈ l -> e <= n).
Proof.
  intros Hsorted. split.
  - intros Hlast. split; [apply last_Some_elem_of, Hlast|].
    apply sorted_last_max; assumption.
  - intros [Hin Hmax]. destruct (last l) as [m|] eqn:Hlast.
    + f_equal. pose proof (sorted_last_max l m Hsorted Hlast n Hin).
      pose proof (Hmax m (last_Some_elem_of _ _ Hlast)). lia.
    + apply last_None in Hlast. subst l. inversion Hin.
Qed.

(** X7: for a list schedule, [LocalLearner.__init__] sorts the episodes
    asked for (each kept as often as it was asked for, in ascending order)
    and appends [num_episodes] at the end exactly when the sorted list does
    not end with it already, that is, unless [num_episodes] was asked for
    and no episode asked for exceeds it.  The schedule is ascending as a
    whole when no episode asked for exceeds [num_episodes]. *)
Theorem learner_schedule_at (n : Z) (asked : list Z) :
  exists sorted sched,
    sorted ≡ₚ asked
    /\ StronglySorted Z.le sorted
    /\ eval_schedule_of n (ScheduleAt asked) = inr sched
    /\ sched = (if decide (last sorted = Some n) then sorted else sorted ++ [n])
    /\ (last sorted = Some n <-> n ∈ asked /\ forall e, e ∈ asked -> e <= n)
    /\ (sched ≡ₚ asked \/ sched ≡ₚ asked ++ [n])
    /\ (forall e, e ∈ sched <-> e ∈ asked \/ e = n)
    /\ ((forall e, e ∈ asked -> e <= n) -> StronglySorted Z.le sched).
Proof.
  destruct (eval_schedule_of n (ScheduleAt asked)) as [e|sched] eqn:Hsched.
  { exfalso. unfold eval_schedule_of in Hsched. revert Hsched.
    match goal with |- context [if ?b then _ else _] => destruct b end; discriminate. }
  exists (merge_sort Z.le asked), sched.
  pose proof (eval_schedule_of_requested _ _ _ Hsched) as Hcases.
  cbn [requested] in Hcases. unfold PySeq.sort in Hcases.
  assert (Hperm : merge_sort Z.le asked ≡ₚ asked) by apply merge_sort_Permutation.
  assert (Hsorted : StronglySorted Z.le (merge_sort Z.le asked))
    by (apply StronglySorted_merge_sort; apply _).
  split; [exact Hperm|]. split; [exact Hsorted|]. split; [reflexivity|].
  assert (Hmax : last (merge_sort Z.le asked) = Some n
                 <-> n ∈ asked /\ forall e, e ∈ asked -> e <= n).
  { rewrite (sorted_last_is_max _ n Hsorted). rewrite Hperm. split.
    - intros [Hin Hle]. split; [exact Hin|]. intros e He. apply Hle. rewrite Hperm.
      exact He.
    - intros [Hin Hle]. split; [exact Hin|]. intros e He. apply Hle. rewrite <- Hperm.
      exact He. }
  destruct Hcases as [[Hlast ->]|[Hlast ->]].
  - split; [rewrite decide_True by exact Hlast; reflexivity|]. split; [exact Hmax|].
    split; [left; exact Hperm|]. split; [|intros _; exact Hsorted].
    intros e. rewrite Hperm. split; [tauto|]. intros [H| ->]; [exact H|].
    rewrite <- Hperm. apply last_Some_elem_of, Hlast.
  - split; [rewrite decide_False by exact Hlast; reflexivity|]. split; [exact Hmax|].
    split; [right; rewrite Hperm; reflexivity|]. split.
    + intros e. rewrite elem_of_app, list_elem_of_singleton, Hperm. tauto.
    + intros Hle. apply StronglySorted_app_2; [|exact Hsorted|repeat constructor].
      intros x1 x2 Hx1 Hx2. apply list_elem_of_singleton in Hx2 as ->.
      apply Hle. rewrite <- Hperm. exact Hx1.
Qed.

End LearnerSchedule.

(** ** Local learner: running *)

Section LearnerRun.

Import LocalLearner.

Lemma run_unfold (s : run_state) :
  run s = fn (PySeq.for_each (PySeq.range 1 (num_episodes (learner s) + 1)) run_body) s.
Proof. reflexivity. Qed.

Lemma getitem_lookup (l : list Z) (i : nat) (x : Z) :
  l !! i = Some x -> PySeq.getitem l (Z.of_nat i) = inr x.
Proof.
  intros Hx. unfold PySeq.getitem.
  assert (Hlt : (i < length l)%nat) by (apply lookup_lt_is_Some; eauto).
  rewrite index_in_range by lia. rewrite Nat2Z.id, Hx. reflexivity.
Qed.

Lemma run_body_run (n : Z) (steps : option Z) (sched : list Z) (i : nat)
    (stopper : option (Z -> bool)) (tr : list event) (ep x : Z) :
  sched !! i = Some x ->
  run_body ep (mk_run (mk n steps sched (Z.of_nat i) stopper) tr) =
    if ep =? x
    then ((if stops stopper ep then Return else Normal tt),
          mk_run (mk n steps sched (Z.of_nat (S i)) stopper)
                 (tr ++ [Train ep; Evaluate ep]))
    else (Normal tt, mk_run (mk n steps sched (Z.of_nat i) stopper) (tr ++ [Train ep])).
Proof.
  intros Hx. unfold run_body, log, set_eval_point_index. py_run.
  rewrite (getitem_lookup sched i x Hx). py_run.
  destruct (ep =? x); py_run; [|reflexivity].
  replace (Z.of_nat i + 1) with (Z.of_nat (S i)) by lia.
  rewrite <- app_assoc. cbn [app].
  destruct stopper as [stop|]; cbn [stops]; [destruct (stop ep)|]; reflexivity.
Qed.

(** The loop, from episode index onward: the schedule from [i] on is strictly
    ascending, starts no earlier than the next episode and ends with the last
    episode. *)
Lemma run_loop (n : Z) (steps : option Z) (stopper : option (Z -> bool))
    (sched : list Z) (len : nat) :
  forall (a : Z) (i : nat) (tr : list event),
    StronglySorted Z.lt (drop i sched) ->
    Forall (fun e => a <= e) (drop i sched) ->
    last (drop i sched) = Some n ->
    a + Z.of_nat len <= n + 1 ->
    exists j,
      PySeq.for_each (seqZ a (Z.of_nat len)) run_body
        (mk_run (mk n steps sched (Z.of_nat i) stopper) tr)
      = ((if existsb (fun ep => bool_decide (ep ∈ drop i sched) && stops stopper ep)
                     (seqZ a (Z.of_nat len))
          then Return else Normal tt),
         mk_run (mk n steps sched (Z.of_nat j) stopper)
                (tr ++ expected_trace stopper (drop i sched) (seqZ a (Z.of_nat len)))).
Proof.
  induction len as [|len IH]; intros a i tr Hsorted Hge Hlast Hbound.
  - rewrite seqZ_nil by lia. exists i. cbn. rewrite app_nil_r. reflexivity.
  - rewrite seqZ_cons by lia.
    replace (Z.pred (Z.of_nat (S len))) with (Z.of_nat len) by lia.
    cbn [PySeq.for_each expected_trace existsb].
    destruct (drop i sched) as [|y rest] eqn:Hdrop; [discriminate|].
    assert (Hy : sched !! i = Some y).
    { rewrite <- (Nat.add_0_r i), <- lookup_drop, Hdrop. reflexivity. }
    assert (Hrest : drop (S i) sched = rest).
    { replace (S i) with (i + 1)%nat by lia. rewrite <- drop_drop, Hdrop. reflexivity. }
    apply StronglySorted_cons in Hsorted as [Hlt Hsorted_rest].
    apply Forall_cons in Hge as [Hay Hge_rest].
    unfold bind at 1. rewrite (run_body_run n steps sched i stopper tr a y Hy).
    destruct (Z.eqb_spec a y) as [<-|Hne].
    + (* the episode is scheduled *)
      rewrite bool_decide_eq_true_2 by (apply elem_of_cons; left; reflexivity).
      cbn [andb]. destruct (stops stopper a) eqn:Hstop.
      * exists (S i). reflexivity.
      * cbn [orb]. destruct len as [|len'].
        { exists (S i). rewrite seqZ_nil by lia. reflexivity. }
        assert (Hne : rest <> []).
        { intros ->. cbn in Hlast. injection Hlast as ->. lia. }
        destruct (IH (Z.succ a) (S i) (tr ++ [Train a; Evaluate a])) as (j & Hrun).
        { rewrite Hrest. exact Hsorted_rest. }
        { rewrite Hrest. eapply Forall_impl; [exact Hlt|]. intros e He. cbn in He. lia. }
        { rewrite Hrest. rewrite last_cons in Hlast.
          destruct (last rest) eqn:Hl; [exact Hlast|].
          apply last_None in Hl. contradiction. }
        { lia. }
        exists j. rewrite Hrun, Hrest. rewrite <- app_assoc. cbn [app].
        assert (Hsame : forall eps,
                  Forall (fun e => a < e) eps ->
                  existsb (fun ep => bool_decide (ep ∈ a :: rest) && stops stopper ep) eps
                  = existsb (fun ep => bool_decide (ep ∈ rest) && stops stopper ep) eps
                  /\ expected_trace stopper (a :: rest) eps
                     = expected_trace stopper rest eps).
        { induction eps as [|e eps IHe]; intros Hgt; [split; reflexivity|].
          apply Forall_cons in Hgt as [Hae Hgt]. destruct (IHe Hgt) as [He1 He2].
          cbn [existsb expected_trace]. rewrite He1, He2.
          assert (Hdec : bool_decide (e ∈ a :: rest) = bool_decide (e ∈ rest)).
          { apply bool_decide_ext. rewrite elem_of_cons. split; [|tauto].
            intros [->|H]; [lia|exact H]. }
          rewrite Hdec. split; reflexivity. }
        destruct (Hsame (seqZ (Z.succ a) (Z.of_nat (S len')))) as [Hs1 Hs2].
        { apply Forall_forall. intros e He. apply elem_of_seqZ in He. lia. }
        rewrite Hs1, Hs2. reflexivity.
    + (* the episode is not scheduled *)
      assert (Hnot : a ∉ y :: rest).
      { rewrite elem_of_cons. intros [->|Hin]; [congruence|].
        rewrite Forall_forall in Hlt. specialize (Hlt a Hin). cbn in Hlt. lia. }
      rewrite bool_decide_eq_false_2 by exact Hnot. cbn [andb orb].
      destruct (IH (Z.succ a) i (tr ++ [Train a])) as (j & Hrun).
      { rewrite Hdrop. constructor; assumption. }
      { rewrite Hdrop. constructor; [lia|].
        eapply Forall_impl; [exact Hlt|]. intros e He. cbn in He. lia. }
      { rewrite Hdrop. exact Hlast. }
      { lia. }
      exists j. rewrite Hrun, Hdrop. rewrite <- app_assoc. reflexivity.
Qed.

Lemma run_loop_safe (n : Z) (steps : option Z) (stopper : option (Z -> bool))
    (sched : list Z) (len : nat) :
  forall (a : Z) (i : nat) (tr : list event),
    (i < length sched)%nat ->
    last sched = Some n ->
    a + Z.of_nat len <= n + 1 ->
    exists r j tr',
      PySeq.for_each (seqZ a (Z.of_nat len)) run_body
        (mk_run (mk n steps sched (Z.of_nat i) stopper) tr)
      = (r, mk_run (mk n steps sched (Z.of_nat j) stopper) tr')
      /\ (r = Normal tt \/ r = Return)
      /\ (j <= length sched)%nat.
Proof.
  induction len as [|len IH]; intros a i tr Hi Hlast Hbound.
  - rewrite seqZ_nil by lia. exists (Normal tt), i, tr.
    split; [reflexivity|]. split; [left; reflexivity|lia].
  - rewrite seqZ_cons by lia.
    replace (Z.pred (Z.of_nat (S len))) with (Z.of_nat len) by lia.
    cbn [PySeq.for_each].
    destruct (lookup_lt_is_Some_2 sched i Hi) as [x Hx].
    unfold bind at 1. rewrite (run_body_run n steps sched i stopper tr a x Hx).
    destruct (Z.eqb_spec a x) as [<-|Hne].
    + destruct (stops stopper a).
      * exists Return, (S i), (tr ++ [Train a; Evaluate a]).
        split; [reflexivity|]. split; [right; reflexivity|lia].
      * destruct len as [|len'].
        { rewrite seqZ_nil by lia. exists (Normal tt), (S i), (tr ++ [Train a; Evaluate a]).
          split; [reflexivity|]. split; [left; reflexivity|lia]. }
        apply IH; [|exact Hlast|lia].
        rewrite last_lookup in Hlast.
        destruct (decide (i = pred (length sched))) as [->|Hnot]; [|lia].
        rewrite Hx in Hlast. injection Hlast as ->. lia.
    + apply IH; [exact Hi|exact Hlast|lia].
Qed.

(** X8: [LocalLearner.run] on a learner that [__init__] built never raises,
    whatever schedule was asked for and whatever the early stopper answers:
    every read of [_eval_schedule[_eval_point_index]] is in range, because the
    schedule ends with the last episode.  The index ends no further than the
    end of the schedule. *)
Theorem learner_run_never_raises (n steps : Z) (arg : schedule_arg)
    (stopper : option (Z -> bool)) (l : t) (tr : list event) :
  __init__ n steps arg stopper = inr l ->
  exists s',
    run (mk_run l tr) = (Normal tt, s')
    /\ 0 <= _eval_point_index (learner s')
       <= Z.of_nat (length (_eval_schedule (learner s')))
    /\ _eval_schedule (learner s') = _eval_schedule l.
Proof.
  intros Hinit. unfold __init__ in Hinit.
  destruct ((steps =? 0) || (steps <? -1)); [discriminate|].
  destruct (eval_schedule_of n arg) as [e|sched] eqn:Hsched; [discriminate|].
  destruct (init_schedule_last n arg sched Hsched) as (front & Hfront & Hlast).
  injection Hinit as <-. cbn [_eval_schedule] in *.
  rewrite run_unfold. cbn [learner num_episodes]. unfold PySeq.range, fn.
  destruct (Z.le_gt_cases n 0) as [Hle|Hgt].
  - rewrite seqZ_nil by lia. cbn. eexists. split; [reflexivity|]. cbn. split; [lia|reflexivity].
  - replace (n + 1 - 1) with (Z.of_nat (Z.to_nat n)) by lia.
    destruct (run_loop_safe n (if 0 <? steps then Some steps else None) stopper sched
                (Z.to_nat n) 1 0%nat tr) as (r & j & tr' & Hrun & Hr & Hj).
    { rewrite Hfront, length_app. cbn. lia. }
    { exact Hlast. }
    { lia. }
    change (Z.of_nat 0) with 0 in Hrun. rewrite Hrun.
    destruct Hr as [-> | ->]; eexists; (split; [reflexivity|]); cbn; split; try lia;
      reflexivity.
Qed.

Lemma run_trace_spec (l : t) (tr : list event) :
  _eval_point_index l = 0 ->
  StronglySorted Z.lt (_eval_schedule l) ->
  Forall (fun e => 1 <= e) (_eval_schedule l) ->
  last (_eval_schedule l) = Some (num_episodes l) ->
  exists s',
    run (mk_run l tr) = (Normal tt, s')
    /\ trace s' = tr ++ expected_trace (early_stopper l) (_eval_schedule l)
                          (PySeq.range 1 (num_episodes l + 1)).
Proof.
  intros Hidx Hsorted Hge Hlast. destruct l as [n steps sched idx stopper].
  cbn [_eval_point_index _eval_schedule num_episodes early_stopper] in *. subst idx.
  rewrite run_unfold. cbn [learner num_episodes]. unfold PySeq.range, fn.
  assert (Hn : 1 <= n).
  { apply last_Some_elem_of in Hlast. rewrite Forall_forall in Hge. apply Hge, Hlast. }
  replace (n + 1 - 1) with (Z.of_nat (Z.to_nat n)) by lia.
  destruct (run_loop n steps stopper sched (Z.to_nat n) 1 0%nat tr) as (j & Hrun);
    try (rewrite drop_0; assumption); [lia|].
  change (Z.of_nat 0) with 0 in Hrun. rewrite Hrun, drop_0.
  destruct (existsb _ _); eexists; split; reflexivity.
Qed.

(** X9: on a learner whose schedule is strictly ascending, starts at episode 1
    or later and ends with the last episode, [run] trains the episodes
    1, 2, ... in order, evaluates exactly after the scheduled ones, and
    returns right after the first evaluation at which the early stopper
    stops. *)
Theorem learner_run_trace (l : t) (tr : list event) :
  _eval_point_index l = 0 ->
  StronglySorted Z.lt (_eval_schedule l) ->
  Forall (fun e => 1 <= e) (_eval_schedule l) ->
  last (_eval_schedule l) = Some (num_episodes l) ->
  exists s',
    run (mk_run l tr) = (Normal tt, s')
    /\ trace s' = tr ++ expected_trace (early_stopper l) (_eval_schedule l)
                          (PySeq.range 1 (num_episodes l + 1)).
Proof. apply run_trace_spec. Qed.

Lemma expected_trace_no_stopper (sched eps : list Z) (ep : Z) :
  (Train ep ∈ expected_trace None sched eps <-> ep ∈ eps)
  /\ (Evaluate ep ∈ expected_trace None sched eps <-> ep ∈ eps /\ ep ∈ sched).
Proof.
  induction eps as [|e eps [IHt IHe]]; cbn [expected_trace stops].
  - rewrite !elem_of_nil. tauto.
  - destruct (decide (e ∈ sched)) as [Hin|Hout].
    + rewrite (bool_decide_eq_true_2 _ Hin). rewrite !elem_of_cons, IHt, IHe.
      split; [split|split].
      * intros [H|[H|H]]; [left; congruence|discriminate|right; exact H].
      * intros [->|H]; [left; reflexivity|right; right; exact H].
      * intros [H|[H|H]]; [discriminate|injection H as ->; tauto|tauto].
      * intros [[->|H] Hs]; [right; left; reflexivity|right; right; tauto].
    + rewrite (bool_decide_eq_false_2 _ Hout). rewrite !elem_of_cons, IHt, IHe.
      split; [split|split].
      * intros [H|H]; [left; congruence|right; exact H].
      * intros [->|H]; [left; reflexivity|right; exact H].
      * intros [H|H]; [discriminate|tauto].
      * intros [[->|H] Hs]; [contradiction|right; tauto].
Qed.

(** X10: a learner built with a positive integer schedule k for n >= 1
    episodes and no early stopper trains exactly the episodes 1 to n and
    evaluates exactly after the multiples of k and after episode n. *)
Theorem learner_every_k_evaluations (n steps k : Z) (l : t) :
  0 < k ->
  1 <= n ->
  __init__ n steps (ScheduleEvery k) None = inr l ->
  exists s',
    run (mk_run l []) = (Normal tt, s')
    /\ (forall ep, Train ep ∈ trace s' <-> 1 <= ep <= n)
    /\ (forall ep, Evaluate ep ∈ trace s' <-> 1 <= ep <= n /\ (ep = n \/ (k | ep))).
Proof.
  intros Hk Hn Hinit.
  destruct (schedule_every_spec n k Hk) as (sched & Hsched & Hsorted & Hmem).
  unfold __init__ in Hinit.
  destruct ((steps =? 0) || (steps <? -1)); [discriminate|].
  rewrite Hsched in Hinit. injection Hinit as <-.
  destruct (run_trace_spec
              (mk n (if 0 <? steps then Some steps else None) sched 0 None) [])
    as (s' & Hrun & Htrace).
  - reflexivity.
  - exact Hsorted.
  - apply Forall_forall. intros e He. apply Hmem in He. lia.
  - cbn. destruct (init_schedule_last n (ScheduleEvery k) sched Hsched)
      as (front & _ & Hlast). exact Hlast.
  - exists s'. split; [exact Hrun|]. rewrite Htrace. cbn [app early_stopper
      _eval_schedule num_episodes].
    split; intros ep.
    + rewrite (proj1 (expected_trace_no_stopper sched _ ep)).
      unfold PySeq.range. rewrite elem_of_seqZ. lia.
    + rewrite (proj2 (expected_trace_no_stopper sched _ ep)).
      unfold PySeq.range. rewrite elem_of_seqZ, Hmem. split.
      * intros [Hr [->|[Hr2 Hd]]]; (split; [lia|]); [left; reflexivity|right; exact Hd].
      * intros [Hr [->|Hd]]; (split; [lia|]); [left; reflexivity|right; split; [lia|exact Hd]].
Qed.

End LearnerRun.

(** ** Local learner: a roll-out *)

Section LearnerCollect.

Import LocalLearner.

Context {Env : Type} (env_state : Env -> bool) (env_step : Env -> Env).

Lemma iter_shift (k : nat) (env : Env) :
  Nat.iter k env_step (env_step env) = Nat.iter (S k) env_step env.
Proof.
  induction k as [|k IH]; [reflexivity|].
  change (env_step (Nat.iter k env_step (env_step env))
          = env_step (Nat.iter (S k) env_step env)).
  f_equal. exact IH.
Qed.

Lemma collect_loop_bounded (m : nat) :
  forall (fuel : nat) (env : Env),
    (m < fuel)%nat ->
    exists k,
      (k <= m)%nat
      /\ collect_loop env_state env_step fuel (Some (Z.of_nat m)) env
         = Some (Nat.iter k env_step env)
      /\ (forall j, (j < k)%nat -> env_state (Nat.iter j env_step env) = true)
      /\ (k = m \/ env_state (Nat.iter k env_step env) = false).
Proof.
  induction m as [|m IH]; intros fuel env Hfuel.
  - exists 0%nat. destruct fuel as [|fuel]; [lia|]. cbn [collect_loop truthy].
    rewrite andb_false_r. repeat split; [lia|intros j Hj; lia|left; reflexivity].
  - destruct fuel as [|fuel]; [lia|]. cbn [collect_loop truthy decrement].
    destruct (Z.eqb_spec (Z.of_nat (S m)) 0) as [|_]; [lia|].
    destruct (env_state env) eqn:Hstate; cbn [andb negb].
    + replace (Z.of_nat (S m) - 1) with (Z.of_nat m) by lia.
      destruct (IH fuel (env_step env)) as (k & Hk & Hrun & Hbefore & Hend); [lia|].
      exists (S k). rewrite Hrun, <- !iter_shift.
      repeat split; [lia| |].
      * intros [|j] Hj; [exact Hstate|]. rewrite <- iter_shift. apply Hbefore. lia.
      * destruct Hend as [->|Hend]; [left; reflexivity|right; exact Hend].
    + exists 0%nat. repeat split; [lia|intros j Hj; lia|right; exact Hstate].
Qed.

Lemma collect_loop_unbounded (k : nat) :
  forall (fuel : nat) (env : Env),
    (forall j, (j < k)%nat -> env_state (Nat.iter j env_step env) = true) ->
    (if (k <? fuel)%nat
     then env_state (Nat.iter k env_step env) = false ->
          collect_loop env_state env_step fuel None env = Some (Nat.iter k env_step env)
     else collect_loop env_state env_step fuel None env = None).
Proof.
  induction k as [|k IH]; intros fuel env Hbefore.
  - destruct fuel as [|fuel]; [reflexivity|]. cbn. intros ->. reflexivity.
  - destruct fuel as [|fuel]; [reflexivity|].
    change (S k <? S fuel)%nat with (k <? fuel)%nat. cbn [collect_loop truthy decrement].
    assert (Hstate : env_state env = true) by (apply (Hbefore 0%nat); lia).
    rewrite Hstate. cbn [andb].
    specialize (IH fuel (env_step env)). rewrite iter_shift in IH. apply IH.
    intros j Hj. rewrite iter_shift. apply Hbefore. lia.
Qed.

(** X11: with a step limit n >= 0, the roll-out loop of [_collect] ends
    after at most n steps of the environment: it steps while the
    environment's state is truthy and stops at the first falsy state or
    after the n-th step, whichever comes first. *)
Theorem collect_stops_within_num_steps (l : t) (n : Z) (fuel : nat) (env : Env) :
  _num_steps l = Some n ->
  0 <= n ->
  (Z.to_nat n < fuel)%nat ->
  exists k,
    (k <= Z.to_nat n)%nat
    /\ _collect env_state env_step fuel l env = Some (Nat.iter k env_step env)
    /\ (forall j, (j < k)%nat -> env_state (Nat.iter j env_step env) = true)
    /\ (k = Z.to_nat n \/ env_state (Nat.iter k env_step env) = false).
Proof.
  intros Hsteps Hn Hfuel. unfold _collect. rewrite Hsteps.
  replace (Some n) with (Some (Z.of_nat (Z.to_nat n))) by (f_equal; lia).
  apply collect_loop_bounded, Hfuel.
Qed.

(** X12: with no step limit ([num_steps] -1), the roll-out loop of
    [_collect] ends exactly at the first falsy state of the environment, and
    goes on as long as the state stays truthy. *)
Theorem collect_without_step_limit (l : t) (k fuel : nat) (env : Env) :
  _num_steps l = None ->
  (forall j, (j < k)%nat -> env_state (Nat.iter j env_step env) = true) ->
  ((fuel <= k)%nat -> _collect env_state env_step fuel l env = None)
  /\ ((k < fuel)%nat -> env_state (Nat.iter k env_step env) = false ->
      _collect env_state env_step fuel l env = Some (Nat.iter k env_step env)).
Proof.
  intros Hsteps Hbefore. unfold _collect. rewrite Hsteps.
  pose proof (collect_loop_unbounded k fuel env Hbefore) as H.
  destruct (Nat.ltb_spec k fuel); split; intros; try lia; auto.
Qed.

End LearnerCollect.

(** ** The sample learner *)

Lemma learner_schedule_ends_with_last_episode_witness :
  exists front,
    LocalLearner._eval_schedule sample_learner = front ++ [10]
    /\ last (LocalLearner._eval_schedule sample_learner) = Some 10.
Proof.
  apply (learner_schedule_ends_with_last_episode 10 4 (LocalLearner.ScheduleEvery 3) None).
  vm_compute. reflexivity.
Defined.

Lemma learner_schedule_every_witness :
  exists sched,
    LocalLearner.eval_schedule_of 10 (LocalLearner.ScheduleEvery 3) = inr sched
    /\ StronglySorted Z.lt sched
    /\ forall e, e ∈ sched <-> e = 10 \/ (0 < e <= 10 /\ (3 | e)).
Proof. apply (learner_schedule_every 10 3). lia. Defined.

Lemma sample_learner_sorted :
  StronglySorted Z.lt (LocalLearner._eval_schedule sample_learner).
Proof. cbn. repeat constructor. Qed.

Lemma sample_learner_positive :
  Forall (fun e => 1 <= e) (LocalLearner._eval_schedule sample_learner).
Proof. cbn. repeat constructor; lia. Qed.

Lemma learner_run_never_raises_witness :
  exists s',
    LocalLearner.run (LocalLearner.mk_run sample_learner []) = (Normal tt, s')
    /\ 0 <= LocalLearner._eval_point_index (LocalLearner.learner s')
       <= Z.of_nat (length (LocalLearner._eval_schedule (LocalLearner.learner s')))
    /\ LocalLearner._eval_schedule (LocalLearner.learner s')
       = LocalLearner._eval_schedule sample_learner.
Proof.
  apply (learner_run_never_raises 10 4 (LocalLearner.ScheduleEvery 3) None).
  vm_compute. reflexivity.
Defined.

Lemma learner_run_trace_witness :
  exists s',
    LocalLearner.run (LocalLearner.mk_run sample_learner []) = (Normal tt, s')
    /\ LocalLearner.trace s'
       = [] ++ expected_trace None [3; 6; 9; 10] (PySeq.range 1 (10 + 1)).
Proof.
  apply (learner_run_trace sample_learner []).
  - reflexivity.
  - exact sample_learner_sorted.
  - exact sample_learner_positive.
  - reflexivity.
Defined.

Lemma learner_every_k_evaluations_witness :
  exists s',
    LocalLearner.run (LocalLearner.mk_run sample_learner []) = (Normal tt, s')
    /\ (forall ep, LocalLearner.Train ep ∈ LocalLearner.trace s' <-> 1 <= ep <= 10)
    /\ (forall ep, LocalLearner.Evaluate ep ∈ LocalLearner.trace s'
                   <-> 1 <= ep <= 10 /\ (ep = 10 \/ (3 | ep))).
Proof.
  apply (learner_every_k_evaluations 10 4 3 sample_learner); [lia|lia|].
  vm_compute. reflexivity.
Defined.

Lemma collect_stops_within_num_steps_witness :
  exists k,
    (k <= Z.to_nat 4)%nat
    /\ LocalLearner._collect countdown_state countdown_step 5 sample_learner 7
       = Some (Nat.iter k countdown_step 7)
    /\ (forall j, (j < k)%nat -> countdown_state (Nat.iter j countdown_step 7) = true)
    /\ (k = Z.to_nat 4 \/ countdown_state (Nat.iter k countdown_step 7) = false).
Proof.
  apply (collect_stops_within_num_steps countdown_state countdown_step
           sample_learner 4 5 7); [reflexivity|lia|].
  change (Z.to_nat 4) with 4%nat. lia.
Defined.

Lemma collect_without_step_limit_witness :
  ((4 <= 3)%nat ->
   LocalLearner._collect countdown_state countdown_step 4 unlimited_learner 3 = None)
  /\ ((3 < 4)%nat ->
      countdown_state (Nat.iter 3 countdown_step 3) = false ->
      LocalLearner._collect countdown_state countdown_step 4 unlimited_learner 3
      = Some (Nat.iter 3 countdown_step 3)).
Proof.
  apply (collect_without_step_limit countdown_state countdown_step
           unlimited_learner 3 4 3); [reflexivity|].
  intros j Hj. destruct j as [|[|[|j]]]; [reflexivity|reflexivity|reflexivity|lia].
Defined.

(** ** Simple manufacture: edges and bounds *)

Section ManufactureEdge.

Import SimpleManufactureUnit.

(** X17: [step] raises ZeroDivisionError exactly at a facility without skus
    when the action has a positive production rate, and raises nothing
    else; the produced quantity has been reset to 0 by then. *)
Theorem manufacture_step_without_skus (f : Facility.t) (u : t) (tick : Z) :
  ((step f tick u).1 = Raise ZeroDivisionError
   <-> size (Facility.skus f) = 0%nat
       /\ exists a, action u = Some a /\ 0 < ManufactureAction.production_rate a)
  /\ ((step f tick u).1 = Normal tt \/ (step f tick u).1 = Raise ZeroDivisionError)
  /\ ((step f tick u).1 = Raise ZeroDivisionError ->
      (step f tick u).2 = set_manufacture_number 0 u).
Proof.
  destruct u as [pid act n].
  unfold step, bind, modify, get, when, call, floordiv.
  cbn [action set_manufacture_number product_id manufacture_number].
  destruct act as [a|].
  2:{ cbn. split; [split; [discriminate|intros [_ (a & H & _)]; discriminate]|].
      split; [left; reflexivity|discriminate]. }
  destruct (Z.ltb_spec 0 (ManufactureAction.production_rate a)) as [Hpos|Hneg].
  2:{ cbn. split; [split; [discriminate|intros [_ (a' & H & Hr)]; injection H as <-; lia]|].
      split; [left; reflexivity|discriminate]. }
  destruct (Z.eqb_spec (Z.of_nat (size (Facility.skus f))) 0) as [Hz|Hnz]; cbn.
  - split; [split; [intros _; split; [lia|eauto]|reflexivity]|].
    split; [right; reflexivity|reflexivity].
  - split; [split; [discriminate|intros [H _]; lia]|].
    split; [left; reflexivity|discriminate].
Qed.

(** X18: whatever the facility and the action, [step] leaves a produced
    quantity that is not negative and not above the production rate, and
    what it produces fits into the product's share of the storage
    capacity; it changes nothing else of the unit. *)
Theorem manufacture_step_bounds (f : Facility.t) (u : t) (tick : Z) :
  let u' := (step f tick u).2 in
  product_id u' = product_id u
  /\ action u' = action u
  /\ 0 <= manufacture_number u'
  /\ (forall a, action u = Some a ->
        manufacture_number u' <= Z.max 0 (ManufactureAction.production_rate a))
  /\ (0 < manufacture_number u' ->
      StorageUnit.get_product_number (Facility.storage f) (product_id u)
      + manufacture_number u' <= capacity_share f).
Proof.
  destruct u as [pid act n]. cbv zeta.
  unfold step, bind, modify, get, when, call, floordiv, capacity_share, raise, ret.
  cbn [action set_manufacture_number product_id manufacture_number].
  destruct act as [a|];
    [destruct (Z.ltb_spec 0 (ManufactureAction.production_rate a)) as [Hpos|Hneg];
     [destruct (Z.eqb_spec (Z.of_nat (size (Facility.skus f))) 0) as [Hz|Hnz]|]|];
    cbn [fst snd product_id action manufacture_number];
    (split; [reflexivity|]); (split; [reflexivity|]);
    unfold set_manufacture_number; cbn [manufacture_number]; (split; [lia|]);
    (split; [intros a' H; try discriminate; injection H as <-; lia|lia]).
Qed.

End ManufactureEdge.

(** ** Product unit: the largest lead time *)

Section ProductVlt.

Import ProductUnitOps.

Context (facility_skus : Z -> exn + gmap Z Z) (product_id : Z).

Lemma get_max_vlt_loop (pu : ProductUnit.t) :
  _get_max_vlt facility_skus product_id pu
  = vlt_loop facility_skus product_id (product_sources pu) (inr 1).
Proof.
  unfold _get_max_vlt, product_sources, vlt_loop.
  destruct (ProductUnit.consumer pu); reflexivity.
Qed.

Lemma vlt_loop_raised (l : list Z) (e : exn) :
  vlt_loop facility_skus product_id l (inl e) = inl e.
Proof. induction l as [|src l IH]; [reflexivity|exact IH]. Qed.

Lemma vlt_loop_value (l : list Z) :
  forall a v,
    vlt_loop facility_skus product_id l (inr a) = inr v ->
    (forall src, src ∈ l ->
       exists skus vlt, facility_skus src = inr skus /\ skus !! product_id = Some vlt)
    /\ a <= v
    /\ (forall src skus vlt,
          src ∈ l -> facility_skus src = inr skus -> skus !! product_id = Some vlt ->
          vlt <= v)
    /\ (v = a \/ exists src skus,
          src ∈ l /\ facility_skus src = inr skus /\ skus !! product_id = Some v).
Proof.
  induction l as [|src l IH]; intros a v Hrun.
  - injection Hrun as <-. split; [intros src H; inversion H|]. split; [lia|].
    split; [intros src skus vlt H; inversion H|left; reflexivity].
  - unfold vlt_loop in Hrun. cbn [fold_left] in Hrun.
    destruct (facility_skus src) as [e|skus] eqn:Hskus.
    { fold (vlt_loop facility_skus product_id l (inl e)) in Hrun.
      rewrite vlt_loop_raised in Hrun. discriminate. }
    destruct (skus !! product_id) as [source_vlt|] eqn:Hvlt.
    2:{ fold (vlt_loop facility_skus product_id l (inl KeyError)) in Hrun.
        rewrite vlt_loop_raised in Hrun. discriminate. }
    fold (vlt_loop facility_skus product_id l (inr (Z.max a source_vlt))) in Hrun.
    destruct (IH _ _ Hrun) as (Hall & Hge & Hupper & Hattained).
    split; [|split; [lia|split]].
    + intros src' Hin. apply elem_of_cons in Hin as [->|Hin]; [eauto|apply Hall, Hin].
    + intros src' skus' vlt' Hin Hs Hv. apply elem_of_cons in Hin as [->|Hin].
      * rewrite Hskus in Hs. injection Hs as <-. rewrite Hvlt in Hv. injection Hv as <-. lia.
      * eapply Hupper; eauto.
    + destruct Hattained as [->|(src' & skus' & Hin & Hs & Hv)].
      * destruct (Z.max_spec a source_vlt) as [[_ ->]|[_ ->]]; [right|left; reflexivity].
        exists src, skus. split; [apply elem_of_cons; left; reflexivity|]. split; assumption.
      * right. exists src', skus'. split; [apply elem_of_cons; right; exact Hin|].
        split; assumption.
Qed.

Lemma vlt_loop_returns (l : list Z) :
  forall a,
    (forall src, src ∈ l ->
       exists skus vlt, facility_skus src = inr skus /\ skus !! product_id = Some vlt) ->
    exists v, vlt_loop facility_skus product_id l (inr a) = inr v.
Proof.
  induction l as [|src l IH]; intros a Hall; [exists a; reflexivity|].
  destruct (Hall src) as (skus & vlt & Hskus & Hvlt); [apply elem_of_cons; left; reflexivity|].
  destruct (IH (Z.max a vlt)) as [v Hv].
  { intros src' Hin. apply Hall, elem_of_cons. right. exact Hin. }
  exists v. unfold vlt_loop. cbn [fold_left]. rewrite Hskus, Hvlt. exact Hv.
Qed.

Lemma vlt_loop_error (l : list Z) :
  forall a e,
    vlt_loop facility_skus product_id l (inr a) = inl e ->
    exists before src after,
      l = before ++ src :: after
      /\ (forall s, s ∈ before ->
            exists skus vlt, facility_skus s = inr skus /\ skus !! product_id = Some vlt)
      /\ (facility_skus src = inl e
          \/ exists skus, facility_skus src = inr skus /\ skus !! product_id = None
                          /\ e = KeyError).
Proof.
  induction l as [|src l IH]; intros a e Hrun; [discriminate|].
  unfold vlt_loop in Hrun. cbn [fold_left] in Hrun.
  destruct (facility_skus src) as [e'|skus] eqn:Hskus.
  { fold (vlt_loop facility_skus product_id l (inl e')) in Hrun.
    rewrite vlt_loop_raised in Hrun. injection Hrun as ->.
    exists [], src, l. split; [reflexivity|].
    split; [intros s H; inversion H|left; exact Hskus]. }
  destruct (skus !! product_id) as [source_vlt|] eqn:Hvlt.
  2:{ fold (vlt_loop facility_skus product_id l (inl KeyError)) in Hrun.
      rewrite vlt_loop_raised in Hrun. injection Hrun as <-.
      exists [], src, l. split; [reflexivity|].
      split; [intros s H; inversion H|right; exists skus; auto]. }
  fold (vlt_loop facility_skus product_id l (inr (Z.max a source_vlt))) in Hrun.
  destruct (IH _ _ Hrun) as (before & src' & after & -> & Hbefore & Hfail).
  exists (src :: before), src', after. split; [reflexivity|]. split; [|exact Hfail].
  intros s Hin. apply elem_of_cons in Hin as [->|Hin]; [eauto|apply Hbefore, Hin].
Qed.

(** X13: [_get_max_vlt] returns a value exactly when every source of the
    consumer is a facility that carries the product, and the value is then
    the largest lead time among the sources, and at least 1: it is 1 when
    there is no consumer, no source or no lead time above 1. *)
Theorem get_max_vlt_value (pu : ProductUnit.t) (v : Z) :
  _get_max_vlt facility_skus product_id pu = inr v <->
    (forall src, src ∈ product_sources pu ->
       exists skus vlt, facility_skus src = inr skus /\ skus !! product_id = Some vlt)
    /\ 1 <= v
    /\ (forall src skus vlt,
          src ∈ product_sources pu -> facility_skus src = inr skus ->
          skus !! product_id = Some vlt -> vlt <= v)
    /\ (v = 1 \/ exists src skus,
          src ∈ product_sources pu /\ facility_skus src = inr skus
          /\ skus !! product_id = Some v).
Proof.
  rewrite get_max_vlt_loop. split; [apply vlt_loop_value|].
  intros (Hall & Hge & Hupper & Hattained).
  destruct (vlt_loop_returns (product_sources pu) 1 Hall) as [v' Hv'].
  rewrite Hv'. f_equal.
  destruct (vlt_loop_value _ _ _ Hv') as (_ & Hge' & Hupper' & Hattained').
  assert (v' <= v).
  { destruct Hattained' as [->|(src & skus & Hin & Hs & Hv)]; [exact Hge|].
    eapply Hupper; eauto. }
  assert (v <= v').
  { destruct Hattained as [->|(src & skus & Hin & Hs & Hv)]; [exact Hge'|].
    eapply Hupper'; eauto. }
  lia.
Qed.

(** X14: when [_get_max_vlt] raises, it raises at the first source whose
    lookup fails: either what the lookup of that facility raises, or
    KeyError for a facility that does not carry the product. *)
Theorem get_max_vlt_error (pu : ProductUnit.t) (e : exn) :
  _get_max_vlt facility_skus product_id pu = inl e ->
  exists before src after,
    product_sources pu = before ++ src :: after
    /\ (forall s, s ∈ before ->
          exists skus vlt, facility_skus s = inr skus /\ skus !! product_id = Some vlt)
    /\ (facility_skus src = inl e
        \/ exists skus, facility_skus src = inr skus /\ skus !! product_id = None
                        /\ e = KeyError).
Proof. rewrite get_max_vlt_loop. apply vlt_loop_error. Qed.

End ProductVlt.

(** ** Product unit: construction *)

Section ProductGenerate.

Import ProductUnitOps.

Context {Conf : Type} (config : gmap string Conf).

Lemma children_of_spec (sku_id : Z) (sku_type : string) (c : child Conf) :
  c ∈ children_of config sku_id sku_type <->
  exists name conf,
    c = mk_child name conf sku_id
    /\ config !! name = Some conf
    /\ ((name = "manufacture"%string /\ sku_type = "production"%string)
        \/ (name = "consumer"%string /\ sku_type <> "production"%string)
        \/ name = "seller"%string).
Proof.
  unfold children_of. cbn [flat_map]. rewrite app_nil_r, !elem_of_app.
  assert (Hone : forall name,
            c ∈ match config !! name with
                | None => []
                | Some conf =>
                    if bool_decide (sku_type <> "production"%string)
                       && bool_decide (name = "manufacture"%string)
                    then []
                    else if bool_decide (sku_type = "production"%string)
                            && bool_decide (name = "consumer"%string)
                    then []
                    else [mk_child name conf sku_id]
                end
            <-> exists conf, c = mk_child name conf sku_id /\ config !! name = Some conf
                  /\ ~ (sku_type <> "production"%string /\ name = "manufacture"%string)
                  /\ ~ (sku_type = "production"%string /\ name = "consumer"%string)).
  { intros name. destruct (config !! name) as [conf|].
    2:{ split; [intros H; inversion H|intros (conf & _ & H & _); discriminate]. }
    destruct (decide (sku_type = "production"%string)) as [Hp|Hp],
             (decide (name = "manufacture"%string)) as [Hm|Hm],
             (decide (name = "consumer"%string)) as [Hc|Hc];
      rewrite ?(bool_decide_eq_true_2 _ Hp), ?(bool_decide_eq_false_2 _ Hp),
              ?(bool_decide_eq_true_2 _ Hm), ?(bool_decide_eq_false_2 _ Hm),
              ?(bool_decide_eq_true_2 _ Hc), ?(bool_decide_eq_false_2 _ Hc);
      try rewrite (bool_decide_eq_true_2 (sku_type <> "production"%string)) by exact Hp;
      try rewrite (bool_decide_eq_false_2 (sku_type <> "production"%string)) by tauto;
      cbn [andb negb];
      try (split; [intros H; inversion H|intros (conf' & _ & _ & H1 & H2); tauto]);
      (split; [intros H; apply list_elem_of_singleton in H; exists conf; tauto
              |intros (conf' & -> & H & _); injection H as ->;
               apply list_elem_of_singleton; reflexivity]). }
  rewrite !Hone. split.
  - intros [(conf & -> & Hconf & Hm & Hc)|[(conf & -> & Hconf & Hm & Hc)
                                          |(conf & -> & Hconf & Hm & Hc)]].
    + exists "manufacture"%string, conf. split; [reflexivity|]. split; [exact Hconf|].
      left. split; [reflexivity|]. destruct (decide (sku_type = "production"%string)); tauto.
    + exists "consumer"%string, conf. split; [reflexivity|]. split; [exact Hconf|].
      right. left. split; [reflexivity|]. tauto.
    + exists "seller"%string, conf. split; [reflexivity|]. split; [exact Hconf|].
      right. right. reflexivity.
  - intros (name & conf & -> & Hconf & [[-> Hp]|[[-> Hp]| ->]]).
    + left. exists conf. repeat split; [exact Hconf|tauto|intros [_ H]; discriminate].
    + right. left. exists conf. repeat split; [exact Hconf|intros [_ H]; discriminate|tauto].
    + right. right. exists conf.
      repeat split; [exact Hconf|intros [_ H]; discriminate|intros [_ H]; discriminate].
Qed.

Lemma generate_loop_lookup (items : list (Z * string)) :
  forall (m : gmap Z (list (child Conf))) (sku_id : Z) (children : list (child Conf)),
    fold_left (fun products_dict item =>
                 <[item.1 := children_of config item.1 item.2]> products_dict)
              items m !! sku_id = Some children ->
    m !! sku_id = Some children
    \/ exists sku_type,
         (sku_id, sku_type) ∈ items /\ children = children_of config sku_id sku_type.
Proof.
  induction items as [|[id ty] items IH]; intros m sku_id children Hl; [left; exact Hl|].
  cbn [fold_left fst snd] in Hl. apply IH in Hl as [Hl|(sku_type & Hin & ->)].
  - destruct (decide (id = sku_id)) as [->|Hne].
    + rewrite lookup_insert_eq in Hl. injection Hl as <-. right. exists ty.
      split; [apply elem_of_cons; left; reflexivity|reflexivity].
    + rewrite lookup_insert_ne in Hl by exact Hne. left. exact Hl.
  - right. exists sku_type. split; [apply elem_of_cons; right; exact Hin|reflexivity].
Qed.

Lemma generate_loop_keys (items : list (Z * string)) :
  forall (m : gmap Z (list (child Conf))) (sku_id : Z),
    is_Some (fold_left (fun products_dict item =>
                          <[item.1 := children_of config item.1 item.2]> products_dict)
                       items m !! sku_id)
    <-> is_Some (m !! sku_id) \/ exists sku_type, (sku_id, sku_type) ∈ items.
Proof.
  induction items as [|[id ty] items IH]; intros m sku_id.
  - cbn. split; [tauto|]. intros [H|[ty H]]; [exact H|inversion H].
  - cbn [fold_left fst snd]. rewrite IH. split.
    + intros [H|[sku_type H]].
      * destruct (decide (id = sku_id)) as [->|Hne].
        { right. exists ty. apply elem_of_cons. left. reflexivity. }
        rewrite lookup_insert_ne in H by exact Hne. left. exact H.
      * right. exists sku_type. apply elem_of_cons. right. exact H.
    + intros [H|[sku_type H]].
      * left. destruct (decide (id = sku_id)) as [->|Hne].
        { rewrite lookup_insert_eq. eauto. }
        rewrite lookup_insert_ne by exact Hne. exact H.
      * apply elem_of_cons in H as [H|H].
        { injection H as -> ->. left. rewrite lookup_insert_eq. eauto. }
        right. exists sku_type. exact H.
Qed.

Lemma generate_lookup (skus : option (list (Z * string))) (sku_id : Z)
    (children : list (child Conf)) :
  generate skus config !! sku_id = Some children ->
  exists items sku_type,
    skus = Some items /\ (sku_id, sku_type) ∈ items
    /\ children = children_of config sku_id sku_type.
Proof.
  unfold generate. destruct skus as [items|]; [|rewrite lookup_empty; discriminate].
  destruct (0 <? Z.of_nat (length items)); [|rewrite lookup_empty; discriminate].
  intros H. apply generate_loop_lookup in H as [H|(sku_type & Hin & ->)].
  - rewrite lookup_empty in H. discriminate.
  - exists items, sku_type. auto.
Qed.

(** X15: the product unit [generate] builds for a sku has exactly the
    children that are configured, among manufacture, consumer and seller,
    each with the sku's id as product id; a manufacture child only for a
    sku of type production and a consumer child only for a sku of another
    type, so never both. *)
Theorem generate_children (skus : option (list (Z * string))) (sku_id : Z)
    (children : list (child Conf)) :
  generate skus config !! sku_id = Some children ->
  exists items sku_type,
    skus = Some items /\ (sku_id, sku_type) ∈ items
    /\ (forall c, c ∈ children <->
          exists name conf,
            c = mk_child name conf sku_id
            /\ config !! name = Some conf
            /\ ((name = "manufacture"%string /\ sku_type = "production"%string)
                \/ (name = "consumer"%string /\ sku_type <> "production"%string)
                \/ name = "seller"%string))
    /\ ~ (exists c1 c2, c1 ∈ children /\ c2 ∈ children
                        /\ child_name c1 = "manufacture"%string
                        /\ child_name c2 = "consumer"%string).
Proof.
  intros H. apply generate_lookup in H as (items & sku_type & -> & Hin & ->).
  exists items, sku_type. split; [reflexivity|]. split; [exact Hin|].
  split; [intros c; apply children_of_spec|].
  intros (c1 & c2 & H1 & H2 & Hn1 & Hn2).
  apply children_of_spec in H1 as (n1 & conf1 & -> & _ & Hk1).
  apply children_of_spec in H2 as (n2 & conf2 & -> & _ & Hk2).
  cbn in Hn1, Hn2. subst n1 n2.
  destruct Hk1 as [[_ Hp]|[[H _]|H]]; [|discriminate|discriminate].
  destruct Hk2 as [[H _]|[[_ Hnp]|H]]; [discriminate|tauto|discriminate].
Qed.

(** X16: [generate] builds one product unit for each sku of the facility
    and nothing else; it returns the empty dictionary for a facility whose
    skus are None or empty. *)
Theorem generate_keys (skus : option (list (Z * string))) (sku_id : Z) :
  is_Some (generate skus config !! sku_id)
  <-> exists items sku_type, skus = Some items /\ (sku_id, sku_type) ∈ items.
Proof.
  unfold generate. destruct skus as [items|].
  2:{ rewrite lookup_empty. split; [intros [x H]; discriminate|].
      intros (items & ty & H & _). discriminate. }
  destruct items as [|item items].
  { change (0 <? Z.of_nat (length (@nil (Z * string)))) with false. cbn iota.
    rewrite lookup_empty. split; [intros [x H]; discriminate|].
    intros (items & ty & H & Hin). injection H as <-. inversion Hin. }
  assert (Hlen : (0 <? Z.of_nat (length (item :: items))) = true)
    by (apply Z.ltb_lt; cbn [length]; lia).
  rewrite Hlen, generate_loop_keys. rewrite lookup_empty. split.
  - intros [[x H]|[ty H]]; [discriminate|]. exists (item :: items), ty. auto.
  - intros (items' & ty & H & Hin). injection H as <-. right. exists ty. exact Hin.
Qed.

End ProductGenerate.

(** ** The sample product unit *)

Lemma get_max_vlt_error_witness :
  exists before src after,
    product_sources sample_product = before ++ src :: after
    /\ (forall s, s ∈ before ->
          exists skus vlt, sample_facility_skus s = inr skus /\ skus !! 1 = Some vlt)
    /\ (sample_facility_skus src = inl KeyError
        \/ exists skus, sample_facility_skus src = inr skus /\ skus !! 1 = None
                        /\ KeyError = KeyError).
Proof.
  apply (get_max_vlt_error sample_facility_skus 1 sample_product KeyError).
  vm_compute. reflexivity.
Defined.

Lemma generate_children_witness :
  exists items sku_type,
    Some sample_skus = Some items /\ (2, sku_type) ∈ items
    /\ (forall c, c ∈ [ProductUnitOps.mk_child "consumer" 2 2;
                       ProductUnitOps.mk_child "seller" 3 2] <->
          exists name conf,
            c = ProductUnitOps.mk_child name conf 2
            /\ sample_children_config !! name = Some conf
            /\ ((name = "manufacture"%string /\ sku_type = "production"%string)
                \/ (name = "consumer"%string /\ sku_type <> "production"%string)
                \/ name = "seller"%string))
    /\ ~ (exists c1 c2,
            c1 ∈ [ProductUnitOps.mk_child "consumer" 2 2;
                  ProductUnitOps.mk_child "seller" 3 2]
            /\ c2 ∈ [ProductUnitOps.mk_child "consumer" 2 2;
                     ProductUnitOps.mk_child "seller" 3 2]
            /\ ProductUnitOps.child_name c1 = "manufacture"%string
            /\ ProductUnitOps.child_name c2 = "consumer"%string).
Proof.
  apply (generate_children sample_children_config (Some sample_skus) 2).
  vm_compute. reflexivity.
Defined.

(** ** Consumer: orders in transit *)

Section ConsumerInTransit.

Import ConsumerUnit.

Lemma in_transit_insert (pid : Z) (orders : gmap Z (gmap Z Z)) (k : Z) (v : gmap Z Z) :
  map_fold (fun _ o quantity => quantity + default 0 (o !! pid)) 0 (<[k := v]> orders)
  = map_fold (fun (_ : Z) o quantity => quantity + default 0 (o !! pid)) 0 orders
    - default 0 (default ∅ (orders !! k) !! pid) + default 0 (v !! pid).
Proof.
  assert (Hcomm : forall (m : gmap Z (gmap Z Z)) (j1 j2 : Z) (z1 z2 : gmap Z Z) (y : Z),
            j1 <> j2 -> m !! j1 = Some z1 -> m !! j2 = Some z2 ->
            y + default 0 (z2 !! pid) + default 0 (z1 !! pid)
            = y + default 0 (z1 !! pid) + default 0 (z2 !! pid)).
  { intros. lia. }
  destruct (orders !! k) as [old|] eqn:Hk.
  - rewrite <- (insert_delete_eq orders k v).
    rewrite (map_fold_insert_L _ 0 k v (delete k orders));
      [|apply Hcomm|apply lookup_delete_eq].
    rewrite (map_fold_delete_L _ 0 k old orders); [|apply Hcomm|exact Hk].
    cbn [from_option id]. lia.
  - rewrite (map_fold_insert_L _ 0 k v orders); [|apply Hcomm|exact Hk].
    cbn [from_option id]. rewrite lookup_empty. cbn [from_option id]. lia.
Qed.

Lemma in_transit_iadd (pid s p d : Z) (orders : gmap Z (gmap Z Z)) :
  map_fold (fun (_ : Z) o quantity => quantity + default 0 (o !! pid)) 0
    (iadd_open_order s p d orders)
  = map_fold (fun (_ : Z) o quantity => quantity + default 0 (o !! pid)) 0 orders
    + (if p =? pid then d else 0).
Proof.
  unfold iadd_open_order. rewrite in_transit_insert.
  destruct (Z.eqb_spec p pid) as [->|Hne].
  - rewrite lookup_insert_eq. cbn [from_option id]. lia.
  - rewrite lookup_insert_ne by exact Hne. lia.
Qed.

(** X19: [get_in_transit_quantity] follows the ledger: [update_open_orders]
    for the unit's own product changes it by the given quantity, an
    [on_order_reception] for the unit's own product lowers it by the
    originally ordered quantity, and orders of other products leave it as it
    is. *)
Theorem in_transit_follows_orders (source_id product_id' qty quantity : Z) (c : t) :
  get_in_transit_quantity (update_open_orders source_id product_id' qty c).2
  = get_in_transit_quantity c + (if product_id' =? product_id c then qty else 0)
  /\ get_in_transit_quantity
       (on_order_reception source_id product_id' quantity qty c).2
     = get_in_transit_quantity c - (if product_id' =? product_id c then qty else 0).
Proof.
  rewrite update_open_orders_run, on_order_reception_run.
  destruct c as [fa pid act dm oo rc pu so pe oc].
  unfold get_in_transit_quantity.
  cbn [snd open_orders product_id set_open_orders set_received].
  rewrite !in_transit_iadd. destruct (product_id' =? pid); split; lia.
Qed.

End ConsumerInTransit.

(** ** Consumer: a tick that fails, and the end of a tick *)

Section ConsumerStepEdges.

Import ConsumerUnit.

Variable shift : list Z -> Z -> Z -> list Z.
Variable place_order : Z -> Order.t -> exn + Z.

(** X20: when the distribution refuses the order, [step] raises what
    [place_order] raised after the order has been entered in the ledger: the
    open-order entry has grown by the quantity, while the purchased counter,
    the order cost and the attributes are as before and the window is the
    one the shift returned. *)
Theorem consumer_step_order_failure (tick : Z) (c : t) (a : ConsumerAction.t) (e : exn) :
  action c = Some a ->
  ignored (Some a) = false ->
  place_order (ConsumerAction.source_id a) (order_of c a) = inl e ->
  let c' := (step shift place_order tick c).2 in
  (step shift place_order tick c).1 = Raise e
  /\ open_order (open_orders c') (ConsumerAction.source_id a) (ConsumerAction.product_id a)
     = open_order (open_orders c) (ConsumerAction.source_id a)
         (ConsumerAction.product_id a) + ConsumerAction.quantity a
  /\ purchased c' = purchased c
  /\ order_product_cost c' = order_product_cost c
  /\ data_model c' = data_model c
  /\ pending_order_daily c' = shift (pending_order_daily c) (-1) 0.
Proof.
  intros Hact Hok Hpo. destruct c as [fa pid act dm oo rc pu so pe oc].
  cbn [action] in Hact. subst act. unfold order_of in Hpo. cbn [facility] in Hpo.
  cbv zeta. unfold step, _update_pending_order, update_open_orders. py_run.
  rewrite Hok.
  destruct (0 <? ConsumerAction.quantity a); py_run; rewrite Hpo; py_run;
    (split; [reflexivity|]); (split; [apply open_order_iadd_same|]);
    repeat split; reflexivity.
Qed.

(** X21: with a placed order, [step] raises in two cases only, both at the
    bucket of the shifted window: IndexError exactly when the lead time is
    below the window length and at or below its negation, so that index
    [vlt - 1] lies before the window, and OverflowError exactly when the
    index is in the window and the quantity does not fit a 64-bit integer.
    The order is entered and counted as purchased by then, and the window is
    the shifted one. *)
Theorem consumer_step_index_error (tick : Z) (c : t) (a : ConsumerAction.t) (cost : Z) :
  action c = Some a ->
  ignored (Some a) = false ->
  place_order (ConsumerAction.source_id a) (order_of c a) = inr cost ->
  let shifted := shift (pending_order_daily c) (-1) 0 in
  let len := Z.of_nat (length shifted) in
  let result := (step shift place_order tick c).1 in
  let c' := (step shift place_order tick c).2 in
  (result = Raise IndexError
   <-> ConsumerAction.vlt a < len /\ ConsumerAction.vlt a <= - len)
  /\ (result = Raise OverflowError
      <-> - len < ConsumerAction.vlt a < len
          /\ Numpy.int64_max < ConsumerAction.quantity a)
  /\ (result = Normal tt \/ result = Raise IndexError \/ result = Raise OverflowError)
  /\ (result <> Normal tt ->
      open_order (open_orders c') (ConsumerAction.source_id a) (ConsumerAction.product_id a)
      = open_order (open_orders c) (ConsumerAction.source_id a)
          (ConsumerAction.product_id a) + ConsumerAction.quantity a
      /\ purchased c' = ConsumerAction.quantity a
      /\ order_product_cost c' = cost
      /\ pending_order_daily c' = shifted).
Proof.
  intros Hact Hok Hpo. cbv zeta.
  rewrite (step_valid shift place_order tick c a cost Hact Hok Hpo). cbv zeta.
  destruct (valid_quantity_fits a Hok) as [Hfits Hover].
  assert (Hstate : forall e,
            let c' := (Raise (A := unit) e,
                       set_data_model
                         (ConsumerDataModel.set_latest_consumptions 1 (data_model c))
                         (after_order c a cost (shift (pending_order_daily c) (-1) 0))).2 in
            open_order (open_orders c') (ConsumerAction.source_id a)
              (ConsumerAction.product_id a)
            = open_order (open_orders c) (ConsumerAction.source_id a)
                (ConsumerAction.product_id a) + ConsumerAction.quantity a
            /\ purchased c' = ConsumerAction.quantity a
            /\ order_product_cost c' = cost
            /\ pending_order_daily c' = shift (pending_order_daily c) (-1) 0).
  { intros e. cbv zeta. unfold after_order.
    cbn [snd open_orders set_data_model purchased order_product_cost pending_order_daily].
    split; [apply open_order_iadd_same|]. repeat split; reflexivity. }
  destruct (Z.ltb_spec (ConsumerAction.vlt a)
              (Z.of_nat (length (shift (pending_order_daily c) (-1) 0)))) as [Hlt|Hge].
  - unfold Numpy.iadd_item.
    destruct (Py.index (length (shift (pending_order_daily c) (-1) 0))
                (ConsumerAction.vlt a - 1)) as [k|] eqn:Hidx.
    + assert (Hin : - Z.of_nat (length (shift (pending_order_daily c) (-1) 0))
                    < ConsumerAction.vlt a).
      { destruct (Z.le_gt_cases (ConsumerAction.vlt a)
                    (- Z.of_nat (length (shift (pending_order_daily c) (-1) 0))))
          as [Hlow|Hhigh]; [|lia].
        assert (Hnone : Py.index (length (shift (pending_order_daily c) (-1) 0))
                          (ConsumerAction.vlt a - 1) = None)
          by (apply index_none; lia).
        rewrite Hnone in Hidx. discriminate. }
      destruct (Numpy.fits (ConsumerAction.quantity a)) eqn:Hq.
      * cbn [fst snd]. pose proof (proj1 Hfits eq_refl) as Hsmall.
        split; [split; [discriminate|lia]|]. split; [split; [discriminate|lia]|].
        split; [left; reflexivity|]. intros Hbad. contradiction.
      * cbn [fst]. pose proof (proj1 Hover eq_refl) as Hlarge.
        split; [split; [discriminate|lia]|].
        split; [split; [intros _; lia|reflexivity]|].
        split; [right; right; reflexivity|]. intros _. apply (Hstate OverflowError).
    + cbn [fst]. apply index_none in Hidx.
      split; [split; [intros _; lia|reflexivity]|].
      split; [split; [discriminate|lia]|].
      split; [right; left; reflexivity|]. intros _. apply (Hstate IndexError).
  - cbn [fst snd].
    split; [split; [discriminate|lia]|]. split; [split; [discriminate|lia]|].
    split; [left; reflexivity|]. intros Hbad. contradiction.
Qed.

End ConsumerStepEdges.

Section ConsumerTickEnd.

Import ConsumerUnit.

(** X22: [flush_states] followed by [post_step] ends the tick: the totals
    grow by the positive counters of the tick, the counters and their
    attributes are cleared, the action is dropped; the ledger, the window,
    the sources and the unit's own order cost are kept. *)
Theorem consumer_tick_end (tick : Z) (c : t) :
  let r := (flush_states ;;; post_step tick) c in
  let c' := r.2 in
  r.1 = Normal tt
  /\ action c' = None
  /\ received c' = Z.min (received c) 0
  /\ purchased c' = Z.min (purchased c) 0
  /\ ConsumerDataModel.total_received (data_model c')
     = ConsumerDataModel.total_received (data_model c) + Z.max (received c) 0
  /\ ConsumerDataModel.total_purchased (data_model c')
     = ConsumerDataModel.total_purchased (data_model c) + Z.max (purchased c) 0
  /\ ConsumerDataModel.received (data_model c')
     = (if 0 <? received c then 0 else ConsumerDataModel.received (data_model c))
  /\ ConsumerDataModel.purchased (data_model c')
     = (if 0 <? purchased c then 0 else ConsumerDataModel.purchased (data_model c))
  /\ ConsumerDataModel.latest_consumptions (data_model c')
     = (if bool_decide (action c <> None) then 0
        else ConsumerDataModel.latest_consumptions (data_model c))
  /\ ConsumerDataModel.order_product_cost (data_model c')
     = (if 0 <? order_product_cost c then 0
        else ConsumerDataModel.order_product_cost (data_model c))
  /\ order_product_cost c' = order_product_cost c
  /\ open_orders c' = open_orders c
  /\ pending_order_daily c' = pending_order_daily c
  /\ sources c' = sources c.
Proof.
  destruct c as [fa pid act dm oo rc pu so pe oc]. destruct dm. cbv zeta.
  unfold flush_states, post_step.
  cbn [received purchased order_product_cost action data_model open_orders
       pending_order_daily sources ConsumerDataModel.received
       ConsumerDataModel.purchased ConsumerDataModel.total_received
       ConsumerDataModel.total_purchased ConsumerDataModel.latest_consumptions
       ConsumerDataModel.order_product_cost].
  destruct (Z.ltb_spec 0 rc) as [Hr|Hr], (Z.ltb_spec 0 pu) as [Hp|Hp],
    (Z.ltb_spec 0 oc) as [Ho|Ho], (bool_decide (act <> None)) eqn:Ha;
    do 8 (py_step;
          rewrite ?Ha, ?(proj2 (Z.ltb_lt 0 rc)), ?(proj2 (Z.ltb_ge 0 rc)),
                  ?(proj2 (Z.ltb_lt 0 pu)), ?(proj2 (Z.ltb_ge 0 pu)),
                  ?(proj2 (Z.ltb_lt 0 oc)), ?(proj2 (Z.ltb_ge 0 oc)) by assumption);
    repeat split; try reflexivity; lia.
Qed.

End ConsumerTickEnd.

(** ** Consumer: initialization *)

Section ConsumerInitialize.

Import ConsumerUnit.

Lemma elem_of_flat_map {A B : Type} (f : A -> list B) (l : list A) (y : B) :
  y ∈ flat_map f l <-> exists x, x ∈ l /\ y ∈ f x.
Proof.
  rewrite list_elem_of_In, in_flat_map. split.
  - intros (x & Hx & Hy). exists x. split; apply list_elem_of_In; assumption.
  - intros (x & Hx & Hy). exists x. split; apply list_elem_of_In; assumption.
Qed.

Lemma sources_of_spec (env : environment) (f : source_facility) (id : Z) :
  id ∈ sources_of env f <->
  id = source_id f
  /\ (if is_supplier env
      then exists products sku,
             source_products f = Some products /\ sku ∈ sku_bom env /\ sku ∈ products
      else sku_id env ∈ source_skus f).
Proof.
  unfold sources_of. destruct (is_supplier env).
  - destruct (source_products f) as [products|].
    + rewrite elem_of_flat_map. split.
      * intros (sku & Hsku & Hin). destruct (decide (sku ∈ products)) as [Hp|Hp].
        { apply list_elem_of_singleton in Hin. split; [exact Hin|]. eauto. }
        inversion Hin.
      * intros [-> (products' & sku & Hsome & Hsku & Hp)]. injection Hsome as <-.
        exists sku. split; [exact Hsku|]. destruct (decide (sku ∈ products)) as [_|Hn].
        { apply list_elem_of_singleton. reflexivity. }
        contradiction.
    + split; [intros H; inversion H|]. intros [_ (products & sku & H & _)]. discriminate.
  - destruct (decide (sku_id env ∈ source_skus f)) as [Hin|Hout].
    + rewrite list_elem_of_singleton. tauto.
    + split; [intros H; inversion H|tauto].
Qed.

(** X23: [initialize] sets the window to zeros of the configured length and
    appends to the sources the ids of the upstream facilities of the unit's
    product: for a supplier those whose products hold a sku of the bill of
    materials, otherwise those that carry the sku. *)
Theorem consumer_initialize_sources (env : environment) (c : t) :
  let c' := (initialize env c).2 in
  (initialize env c).1 = Normal tt
  /\ pending_order_daily c' = zeros (pending_order_len env)
  /\ Z.of_nat (length (pending_order_daily c')) = Z.max 0 (pending_order_len env)
  /\ open_orders c' = open_orders c
  /\ exists added,
       sources c' = sources c ++ added
       /\ forall id,
            id ∈ added <->
            exists ups srcs f,
              upstreams env = Some ups
              /\ ups !! product_id c = Some srcs
              /\ f ∈ srcs
              /\ id = source_id f
              /\ (if is_supplier env
                  then exists products sku,
                         source_products f = Some products
                         /\ sku ∈ sku_bom env /\ sku ∈ products
                  else sku_id env ∈ source_skus f).
Proof.
  destruct c as [fa pid act dm oo rc pu so pe oc]. cbv zeta.
  assert (Hlen : Z.of_nat (length (zeros (pending_order_len env)))
                 = Z.max 0 (pending_order_len env)).
  { unfold zeros. rewrite repeat_length. lia. }
  unfold initialize. py_run.
  destruct (upstreams env) as [ups|] eqn:Hups; py_run.
  2:{ split; [reflexivity|]. split; [reflexivity|]. split; [exact Hlen|].
      split; [reflexivity|]. exists []. split; [symmetry; apply app_nil_r|].
      intros id. split; [intros H; inversion H|].
      intros (ups & srcs & f & H & _). discriminate. }
  destruct (ups !! pid) as [srcs|] eqn:Hsrcs; py_run.
  2:{ split; [reflexivity|]. split; [reflexivity|]. split; [exact Hlen|].
      split; [reflexivity|]. exists []. split; [symmetry; apply app_nil_r|].
      intros id. split; [intros H; inversion H|].
      intros (ups' & srcs & f & H & Hs & _). injection H as <-.
      rewrite Hsrcs in Hs. discriminate. }
  split; [reflexivity|]. split; [reflexivity|]. split; [exact Hlen|].
  split; [reflexivity|]. exists (flat_map (sources_of env) srcs). split; [reflexivity|].
  intros id. rewrite elem_of_flat_map. split.
  - intros (f & Hf & Hid). apply sources_of_spec in Hid as [-> Hcond].
    exists ups, srcs, f. auto.
  - intros (ups' & srcs' & f & H & Hs & Hf & -> & Hcond). injection H as <-.
    rewrite Hsrcs in Hs. injection Hs as <-. exists f. split; [exact Hf|].
    apply sources_of_spec. auto.
Qed.

End ConsumerInitialize.

(** ** Vehicle: a journey *)

Section VehicleJourney.

Import VehicleUnit.

Variable find_path : Z -> Z -> Z -> Z -> option (list (Z * Z)).

Lemma journey_steps (w : gmap Z Facility.t) (route : list (Z * Z)) (ticks : list Z) :
  forall v,
    0 < payload v ->
    path v = Some route ->
    0 <= velocity v ->
    Z.of_nat (length ticks) <= steps v ->
    exists v',
      vehicle_history find_path (map CallVehicleStep ticks) (mk_sim w v) = mk_sim w v'
      /\ steps v' = steps v - Z.of_nat (length ticks)
      /\ payload v' = payload v
      /\ path v' = path v
      /\ velocity v' = velocity v
      /\ unit_transport_cost v' = unit_transport_cost v
      /\ destination v' = destination v
      /\ product_id v' = product_id v
      /\ (ticks <> [] ->
          location v'
          = Z.min (location v + Z.of_nat (length ticks) * velocity v)
                  (Z.of_nat (length route) - 1)
          /\ cost v' = payload v * unit_transport_cost v).
Proof.
  induction ticks as [|tick ticks IH]; intros v Hpay Hroute Hvel Hsteps.
  - exists v. cbn. repeat split; try lia; intros; contradiction.
  - cbn [length] in Hsteps. cbn [map vehicle_history run_vehicle_call].
    rewrite (step_moves tick w v route) by (try assumption; lia). cbn [snd].
    set (v1 := set_cost (payload v * unit_transport_cost v)
                 (moved v (Z.of_nat (length route)))).
    assert (Hv1 : steps v1 = steps v - 1 /\ payload v1 = payload v /\ path v1 = path v
                  /\ velocity v1 = velocity v
                  /\ unit_transport_cost v1 = unit_transport_cost v
                  /\ destination v1 = destination v /\ product_id v1 = product_id v
                  /\ cost v1 = payload v * unit_transport_cost v
                  /\ location v1 = Z.min (location v + velocity v)
                                         (Z.of_nat (length route) - 1)).
    { subst v1. unfold moved. destruct v as [fa cf dm mp de pa pr st pl lo ve rq pt co ut].
      cbn. repeat split; try reflexivity.
      destruct (Z.leb_spec (Z.of_nat (length route)) (lo + ve)); lia. }
    destruct Hv1 as (H1 & H2 & H3 & H4 & H5 & H6 & H7 & H8 & H9).
    destruct (IH v1) as (v' & Hrun & Hs & Hp & Hpa & Hve & Hu & Hd & Hpr & Hloc).
    { lia. } { congruence. } { lia. } { lia. }
    exists v'. split; [exact Hrun|].
    split; [cbn [length]; lia|]. split; [lia|]. split; [congruence|]. split; [lia|].
    split; [lia|]. split; [congruence|]. split; [congruence|].
    intros _. destruct ticks as [|tick' ticks'].
    + cbn in Hrun. injection Hrun as <-. cbn [length]. split; [|exact H8].
      rewrite H9. f_equal. lia.
    + destruct Hloc as [Hl Hc]; [discriminate|]. split.
      * rewrite Hl, H9, H4.
        set (k := Z.of_nat (length (tick' :: ticks'))).
        replace (Z.of_nat (length (tick :: tick' :: ticks'))) with (k + 1)
          by (subst k; cbn [length]; lia).
        assert (0 <= k * velocity v) by (apply Z.mul_nonneg_nonneg; lia).
        rewrite Z.mul_add_distr_r. lia.
      * rewrite Hc, H2, H5. reflexivity.
Qed.

(** X24: a loaded vehicle arrives after exactly [steps] ticks: the ticks
    bring the steps to go to 0 and move the position by the velocity each,
    up to the last waypoint; the payload, the destination and the store are
    untouched, and each tick costs the payload times the unit transport
    cost. *)
Theorem loaded_vehicle_arrives (w : gmap Z Facility.t) (v : t) (route : list (Z * Z))
    (ticks : list Z) :
  0 < payload v ->
  path v = Some route ->
  0 <= velocity v ->
  steps v = Z.of_nat (length ticks) ->
  ticks <> [] ->
  let s' := vehicle_history find_path (map CallVehicleStep ticks) (mk_sim w v) in
  world s' = w
  /\ steps (self s') = 0
  /\ payload (self s') = payload v
  /\ destination (self s') = destination v
  /\ location (self s')
     = Z.min (location v + steps v * velocity v) (Z.of_nat (length route) - 1)
  /\ cost (self s') = payload v * unit_transport_cost v.
Proof.
  intros Hpay Hroute Hvel Hsteps Hne. cbv zeta.
  destruct (journey_steps w route ticks v Hpay Hroute Hvel)
    as (v' & Hrun & Hs & Hp & _ & _ & _ & Hd & _ & Hloc); [lia|].
  destruct (Hloc Hne) as [Hl Hc]. rewrite Hrun. cbn [world self].
  rewrite Hl, Hsteps. repeat split; try assumption; lia.
Qed.

(** X25: a job scheduled with a lead time of 0 or less never starts: the
    next tick finds no steps to go, unloads nothing and resets the vehicle,
    and the store is as it was. *)
Theorem job_without_lead_time_is_dropped (w : gmap Z Facility.t) (v : t)
    (d pid q vlt tick : Z) (src dst : Facility.t) (route : list (Z * Z)) :
  w !! facility v = Some src ->
  w !! d = Some dst ->
  route_between find_path src dst = Some route ->
  payload v <= 0 ->
  vlt <= 0 ->
  (schedule find_path d pid q vlt ;;; step tick) (mk_sim w v)
  = (Normal tt, mk_sim w (set_cost 0 (job_less v))).
Proof.
  intros Hsrc Hdst Hroute Hpay Hvlt. unfold bind at 1.
  rewrite (schedule_run find_path w v d pid q vlt src dst Hsrc Hdst). cbv zeta.
  rewrite Hroute. rewrite step_blocks. cbn [self].
  destruct v as [fa cf dm mp de pa pr st pl lo ve rq pt co ut]. cbn [payload] in Hpay.
  cbn [steps set_patient set_velocity set_location set_steps set_path
       set_requested_quantity set_destination set_product_id].
  destruct (Z.ltb_spec 0 vlt) as [Hbad|_]; [lia|].
  rewrite arriving_empty by (apply Z.ltb_ge; change (pl <= 0); exact Hpay).
  reflexivity.
Qed.

End VehicleJourney.

(** ** Vehicle: arriving where nobody ordered *)

Section VehicleUnloadError.

Import VehicleUnit.

Ltac vehicle_unfold :=
  unfold try_load, try_unload, len_path, _reset_internal_states, _reset_data_model,
         record_cost, storage_call, consumer_call, facility_of, modify_self, self_,
         StorageUnit.try_take_products, StorageUnit.try_add_products,
         ConsumerUnit.on_order_reception, ConsumerUnit.update_open_orders,
         with_open_order, with_consumer, with_storage.

(** X26: when an arriving vehicle finds no consumer of its product at the
    destination, [step] raises KeyError (no product unit) or AttributeError
    (a product unit without consumer) after the goods have been added to
    the destination's storage; the vehicle keeps its payload and its job. *)
Theorem delivery_without_consumer (tick : Z) (w : gmap Z Facility.t) (v : t) (d : Z)
    (dst : Facility.t) :
  steps v <= 0 ->
  0 < payload v ->
  destination v = Some d ->
  w !! d = Some dst ->
  consumer_at w d (product_id v) = None ->
  let r := step tick (mk_sim w v) in
  r.1 = Raise (match Facility.products dst !! product_id v with
               | Some _ => AttributeError
               | None => KeyError
               end)
  /\ self r.2 = v
  /\ world r.2
     = with_storage d dst
         (StorageUnit.add_level (product_id v)
            (delivered (Facility.storage dst) (payload v)) (Facility.storage dst)) w.
Proof.
  intros Hsteps Hpay Hd Hdst Hnone. cbv zeta. rewrite step_blocks. cbn [self].
  destruct (Z.ltb_spec 0 (steps v)) as [Hbad|_]; [lia|].
  unfold consumer_at in Hnone. rewrite Hdst in Hnone.
  destruct v as [fa cf dm mp de pa pr st pl lo ve rq pt co ut].
  cbn [payload destination product_id] in *. subst de.
  assert (Hp : (0 <? pl) = true) by (apply Z.ltb_lt, Hpay).
  unfold arriving, delivered. vehicle_unfold. py_run. rewrite Hp. py_run.
  rewrite Hdst. py_run. rewrite singleton_nonempty. py_run.
  rewrite lookup_insert_eq. py_run.
  destruct dst as [dx dy dst_storage dprod dskus].
  cbn [Facility.products Facility.set_storage Facility.storage] in *.
  destruct (dprod !! pr) as [pu|]; py_run.
  - rewrite Hnone. py_run. repeat split; reflexivity.
  - repeat split; reflexivity.
Qed.

End VehicleUnloadError.

(** ** Edge cases on the samples *)

Lemma consumer_step_order_failure_witness :
  (ConsumerUnit.step sample_shift failing_place_order 0
     (sample_consumer (Some (ConsumerAction.mk 1 1 5 2)))).1 = Raise CollaboratorError
  /\ ConsumerUnit.open_order
       (ConsumerUnit.open_orders
          (ConsumerUnit.step sample_shift failing_place_order 0
             (sample_consumer (Some (ConsumerAction.mk 1 1 5 2)))).2) 1 1
     = ConsumerUnit.open_order
         (ConsumerUnit.open_orders (sample_consumer (Some (ConsumerAction.mk 1 1 5 2))))
         1 1 + 5.
Proof.
  destruct (consumer_step_order_failure sample_shift failing_place_order 0
              (sample_consumer (Some (ConsumerAction.mk 1 1 5 2)))
              (ConsumerAction.mk 1 1 5 2) CollaboratorError eq_refl eq_refl eq_refl)
    as (Hraise & Hledger & _).
  split; [exact Hraise|exact Hledger].
Defined.

Lemma consumer_step_index_error_witness :
  (ConsumerUnit.step sample_shift sample_place_order 0
     (sample_consumer (Some (ConsumerAction.mk 1 1 5 (-3))))).1 = Raise IndexError
  /\ (ConsumerUnit.step sample_shift sample_place_order 0
        (sample_consumer (Some (ConsumerAction.mk 1 1 9223372036854775808 1)))).1
     = Raise OverflowError.
Proof.
  destruct (consumer_step_index_error sample_shift sample_place_order 0
              (sample_consumer (Some (ConsumerAction.mk 1 1 5 (-3))))
              (ConsumerAction.mk 1 1 5 (-3)) 10 eq_refl eq_refl eq_refl)
    as (Hindex & _).
  destruct (consumer_step_index_error sample_shift sample_place_order 0
              (sample_consumer (Some (ConsumerAction.mk 1 1 9223372036854775808 1)))
              (ConsumerAction.mk 1 1 9223372036854775808 1) 18446744073709551616
              eq_refl eq_refl eq_refl)
    as (_ & Hoverflow & _).
  split.
  - apply Hindex. cbn. lia.
  - apply Hoverflow. unfold Numpy.int64_max. cbn. lia.
Defined.

Lemma loaded_vehicle_arrives_witness :
  VehicleUnit.steps
    (VehicleUnit.self
       (vehicle_history sample_find_path [CallVehicleStep 2; CallVehicleStep 3]
          (VehicleUnit.mk_sim (sample_world 0) loaded_vehicle))) = 0
  /\ VehicleUnit.location
       (VehicleUnit.self
          (vehicle_history sample_find_path [CallVehicleStep 2; CallVehicleStep 3]
             (VehicleUnit.mk_sim (sample_world 0) loaded_vehicle)))
     = Z.min (0 + 2 * 2) (Z.of_nat (length sample_route) - 1).
Proof.
  assert (Hpay : 0 < VehicleUnit.payload loaded_vehicle) by (cbn; lia).
  assert (Hvel : 0 <= VehicleUnit.velocity loaded_vehicle) by (cbn; lia).
  assert (Hne : [2; 3] <> @nil Z) by discriminate.
  destruct (loaded_vehicle_arrives sample_find_path (sample_world 0) loaded_vehicle
              sample_route [2; 3] Hpay eq_refl Hvel eq_refl Hne)
    as (_ & Hsteps & _ & _ & Hloc & _).
  split; [exact Hsteps|exact Hloc].
Defined.

Lemma sample_world_supplier : sample_world 10 !! 1 = Some (supplier 10).
Proof. vm_compute. reflexivity. Qed.

Lemma sample_world_retailer : sample_world 10 !! 2 = Some retailer.
Proof. vm_compute. reflexivity. Qed.

Lemma job_without_lead_time_is_dropped_witness :
  (VehicleUnit.schedule sample_find_path 2 1 10 0 ;;; VehicleUnit.step 1)
    (VehicleUnit.mk_sim (sample_world 10) idle_vehicle)
  = (Normal tt,
     VehicleUnit.mk_sim (sample_world 10) (VehicleUnit.set_cost 0 (job_less idle_vehicle))).
Proof.
  assert (Hpay : VehicleUnit.payload idle_vehicle <= 0) by (cbn; lia).
  assert (Hvlt : 0 <= 0) by lia.
  exact (job_without_lead_time_is_dropped sample_find_path (sample_world 10) idle_vehicle
           2 1 10 0 1 (supplier 10) retailer sample_route
           sample_world_supplier sample_world_retailer eq_refl Hpay Hvlt).
Defined.

Lemma delivery_without_consumer_witness :
  (VehicleUnit.step 4 (VehicleUnit.mk_sim (sample_world 10) returning_vehicle)).1
  = Raise KeyError
  /\ VehicleUnit.self
       (VehicleUnit.step 4 (VehicleUnit.mk_sim (sample_world 10) returning_vehicle)).2
     = returning_vehicle.
Proof.
  assert (Hsteps : VehicleUnit.steps returning_vehicle <= 0) by (cbn; lia).
  assert (Hpay : 0 < VehicleUnit.payload returning_vehicle) by (cbn; lia).
  assert (Hnone : consumer_at (sample_world 10) 1
                    (VehicleUnit.product_id returning_vehicle) = None)
    by (vm_compute; reflexivity).
  destruct (delivery_without_consumer 4 (sample_world 10) returning_vehicle 1
              (supplier 10) Hsteps Hpay eq_refl sample_world_supplier Hnone)
    as (Hraise & Hself & _).
  split; [exact Hraise|exact Hself].
Defined.

(** ** Actor proxy: the end of a roll-out *)

Section ActorProxyProperties.

Import ActorProxy.

Context {Agent : Type} `{Countable Agent} {Exp Metrics Traj : Type}.
Context (experience_getter : Traj -> exn + list (Agent * Exp)).

Lemma metrics_of_missing (messages : list (@message Agent Exp Metrics Traj)) :
  forall acc,
    Exists (fun msg => metrics msg = None) messages ->
    metrics_of messages acc = inl KeyError.
Proof.
  induction messages as [|msg rest IH]; intros acc Hex; [inversion Hex|].
  cbn [metrics_of]. destruct (metrics msg) as [m|] eqn:Hm; [|reflexivity].
  apply IH. inversion Hex as [? ? Hhead|? ? Htail]; [congruence|exact Htail].
Qed.

Lemma metrics_of_present (messages : list (@message Agent Exp Metrics Traj)) :
  forall acc,
    Forall (fun msg => metrics msg <> None) messages ->
    exists result,
      metrics_of messages acc = inr result
      /\ forall src,
           result !! src
           = match last_metrics src messages with
             | Some m => Some m
             | None => acc !! src
             end.
Proof.
  induction messages as [|msg rest IH]; intros acc Hall.
  - exists acc. split; reflexivity.
  - apply Forall_cons in Hall as [Hm Hall]. cbn [metrics_of last_metrics].
    destruct (metrics msg) as [m|] eqn:Hmsg; [|contradiction].
    destruct (IH (<[source msg := m]> acc) Hall) as (result & Hrun & Hlook).
    exists result. split; [exact Hrun|]. intros src. rewrite Hlook.
    destruct (last_metrics src rest); [reflexivity|].
    destruct (decide (source msg = src)) as [<-|Hne].
    + apply lookup_insert_eq.
    + rewrite lookup_insert_ne by exact Hne. reflexivity.
Qed.

Lemma put_all (exp : list (Agent * Exp)) :
  forall (p : gmap Agent (list Exp)),
    exists p',
      PySeq.for_each exp (fun item => modify (put item.1 item.2)) p = (Normal tt, p')
      /\ forall agent_id,
           default [] (p' !! agent_id) = default [] (p !! agent_id) ++ puts_for agent_id exp.
Proof.
  induction exp as [|[a ex] exp IH]; intros p.
  - exists p. split; [reflexivity|]. intros agent_id. cbn. rewrite app_nil_r. reflexivity.
  - destruct (IH (put a ex p)) as (p' & Hrun & Hlook). exists p'. split.
    + cbn [PySeq.for_each]. unfold bind at 1, modify at 1. cbn [fst snd]. exact Hrun.
    + intros agent_id. rewrite Hlook. unfold put, puts_for.
      rewrite filter_cons. cbn [fst].
      destruct (decide (a = agent_id)) as [->|Hne].
      * rewrite lookup_insert_eq. cbn [from_option id map snd].
        rewrite <- app_assoc. reflexivity.
      * rewrite lookup_insert_ne by exact Hne. reflexivity.
Qed.

Lemma collect_all (messages : list (@message Agent Exp Metrics Traj)) :
  forall (exps : list (list (Agent * Exp))) (p : gmap Agent (list Exp)),
    Forall2 (fun msg exp => experiences_of experience_getter msg = inr exp) messages exps ->
    exists p',
      PySeq.for_each messages
        (fun msg =>
           exp <- call (experiences_of experience_getter msg) ;;
           PySeq.for_each exp (fun item => modify (put item.1 item.2))) p
      = (Normal tt, p')
      /\ forall agent_id,
           default [] (p' !! agent_id)
           = default [] (p !! agent_id) ++ experiences_for agent_id exps.
Proof.
  induction messages as [|msg rest IH]; intros exps p Hall.
  - inversion Hall; subst. exists p. split; [reflexivity|]. intros agent_id. cbn.
    rewrite app_nil_r. reflexivity.
  - inversion Hall as [|? exp ? exps' Hmsg Hrest]; subst.
    destruct (put_all exp p) as (p1 & Hput & Hlook1).
    destruct (IH exps' p1 Hrest) as (p' & Hrun & Hlook).
    exists p'. split.
    + cbn [PySeq.for_each]. unfold bind at 1. unfold bind at 1. rewrite Hmsg.
      cbn [call]. unfold ret at 1. rewrite Hput. exact Hrun.
    + intros agent_id. rewrite Hlook, Hlook1. unfold experiences_for. cbn [flat_map].
      rewrite app_assoc. reflexivity.
Qed.

Lemma collect_until (before : list (@message Agent Exp Metrics Traj)) :
  forall (bad : message) (after : list message) (exps : list (list (Agent * Exp)))
         (e : exn) (p : gmap Agent (list Exp)),
    Forall2 (fun msg exp => experiences_of experience_getter msg = inr exp) before exps ->
    experiences_of experience_getter bad = inl e ->
    exists p',
      PySeq.for_each (before ++ bad :: after)
        (fun msg =>
           exp <- call (experiences_of experience_getter msg) ;;
           PySeq.for_each exp (fun item => modify (put item.1 item.2))) p
      = (Raise e, p')
      /\ forall agent_id,
           default [] (p' !! agent_id)
           = default [] (p !! agent_id) ++ experiences_for agent_id exps.
Proof.
  induction before as [|msg rest IH]; intros bad after exps e p Hall Hbad.
  - inversion Hall; subst. exists p. split.
    + cbn [app PySeq.for_each]. unfold bind at 1. unfold bind at 1. rewrite Hbad.
      reflexivity.
    + intros agent_id. cbn. rewrite app_nil_r. reflexivity.
  - inversion Hall as [|? exp ? exps' Hmsg Hrest]; subst.
    destruct (put_all exp p) as (p1 & Hput & Hlook1).
    destruct (IH bad after exps' e p1 Hrest Hbad) as (p' & Hrun & Hlook).
    exists p'. split.
    + cbn [app PySeq.for_each]. unfold bind at 1. unfold bind at 1. rewrite Hmsg.
      cbn [call]. unfold ret at 1. rewrite Hput. exact Hrun.
    + intros agent_id. rewrite Hlook, Hlook1. unfold experiences_for. cbn [flat_map].
      rewrite app_assoc. reflexivity.
Qed.

(** X27: when a message lacks its metrics, [_on_rollout_finish] raises
    KeyError before it touches the experience pool. *)
Theorem rollout_finish_missing_metrics (messages : list (@message Agent Exp Metrics Traj))
    (p : gmap Agent (list Exp)) :
  Exists (fun msg => metrics msg = None) messages ->
  _on_rollout_finish experience_getter messages p = (Raise KeyError, p).
Proof.
  intros Hex. unfold _on_rollout_finish, bind.
  rewrite (metrics_of_missing messages ∅ Hex). reflexivity.
Qed.

(** X28: when every message carries metrics and experiences (its own, or
    the ones the getter extracts from its trajectory), [_on_rollout_finish]
    returns for each source the metrics of its last message, and appends to
    each agent's store that agent's experiences in the order of the
    messages. *)
Theorem rollout_finish_collects (messages : list (@message Agent Exp Metrics Traj))
    (exps : list (list (Agent * Exp))) (p : gmap Agent (list Exp)) :
  Forall (fun msg => metrics msg <> None) messages ->
  Forall2 (fun msg exp => experiences_of experience_getter msg = inr exp) messages exps ->
  exists result p',
    _on_rollout_finish experience_getter messages p = (Normal result, p')
    /\ (forall src, result !! src = last_metrics src messages)
    /\ (forall agent_id,
          default [] (p' !! agent_id)
          = default [] (p !! agent_id) ++ experiences_for agent_id exps).
Proof.
  intros Hmetrics Hexps.
  destruct (metrics_of_present messages ∅ Hmetrics) as (result & Hm & Hlook).
  destruct (collect_all messages exps p Hexps) as (p' & Hrun & Hpool).
  exists result, p'. split.
  - unfold _on_rollout_finish. unfold bind at 1. rewrite Hm. cbn [call]. unfold ret at 1.
    unfold bind at 1. rewrite Hrun. reflexivity.
  - split; [|exact Hpool]. intros src. rewrite Hlook.
    destruct (last_metrics src messages); [reflexivity|apply lookup_empty].
Qed.

(** X29: when the experiences of a message cannot be had (neither
    experiences nor a trajectory, or the getter raises), [_on_rollout_finish]
    raises at that message, and the experiences of the messages before it
    stay in the pool. *)
Theorem rollout_finish_partial (before after : list (@message Agent Exp Metrics Traj))
    (bad : message) (exps : list (list (Agent * Exp))) (e : exn) (p : gmap Agent (list Exp)) :
  Forall (fun msg => metrics msg <> None) (before ++ bad :: after) ->
  Forall2 (fun msg exp => experiences_of experience_getter msg = inr exp) before exps ->
  experiences_of experience_getter bad = inl e ->
  exists p',
    _on_rollout_finish experience_getter (before ++ bad :: after) p = (Raise e, p')
    /\ (forall agent_id,
          default [] (p' !! agent_id)
          = default [] (p !! agent_id) ++ experiences_for agent_id exps).
Proof.
  intros Hmetrics Hexps Hbad.
  destruct (metrics_of_present _ ∅ Hmetrics) as (result & Hm & _).
  destruct (collect_until before bad after exps e p Hexps Hbad) as (p' & Hrun & Hpool).
  exists p'. split; [|exact Hpool].
  unfold _on_rollout_finish. unfold bind at 1. rewrite Hm. cbn [call]. unfold ret at 1.
  unfold bind at 1. rewrite Hrun. reflexivity.
Qed.

End ActorProxyProperties.

(** ** The sample messages *)

Lemma rollout_finish_missing_metrics_witness :
  ActorProxy._on_rollout_finish sample_getter [first_report; broken_report] ∅
  = (Raise KeyError, ∅).
Proof.
  apply (rollout_finish_missing_metrics sample_getter [first_report; broken_report] ∅).
  apply Exists_cons_tl, Exists_cons_hd. reflexivity.
Defined.

Lemma sample_reports_have_metrics :
  Forall (fun msg => ActorProxy.metrics msg <> None)
    [first_report; second_report; empty_report].
Proof. repeat constructor; discriminate. Qed.

Lemma sample_reports_experiences :
  Forall2 (fun msg exp => ActorProxy.experiences_of sample_getter msg = inr exp)
    [first_report; second_report] [[(1, 10); (2, 20)]; [(1, 30)]].
Proof. repeat constructor. Qed.

Lemma rollout_finish_collects_witness :
  exists result p',
    ActorProxy._on_rollout_finish sample_getter [first_report; second_report] ∅
    = (Normal result, p')
    /\ (forall src, result !! src = last_metrics src [first_report; second_report])
    /\ (forall agent_id,
          default [] (p' !! agent_id)
          = default [] ((∅ : gmap Z (list Z)) !! agent_id)
            ++ experiences_for agent_id [[(1, 10); (2, 20)]; [(1, 30)]]).
Proof.
  apply (rollout_finish_collects sample_getter [first_report; second_report]
           [[(1, 10); (2, 20)]; [(1, 30)]] ∅).
  - repeat constructor; discriminate.
  - exact sample_reports_experiences.
Defined.

Lemma rollout_finish_partial_witness :
  exists p',
    ActorProxy._on_rollout_finish sample_getter
      ([first_report; second_report] ++ empty_report :: []) ∅
    = (Raise KeyError, p')
    /\ (forall agent_id,
          default [] (p' !! agent_id)
          = default [] ((∅ : gmap Z (list Z)) !! agent_id)
            ++ experiences_for agent_id [[(1, 10); (2, 20)]; [(1, 30)]]).
Proof.
  apply (rollout_finish_partial sample_getter [first_report; second_report] []
           empty_report [[(1, 10); (2, 20)]; [(1, 30)]] KeyError ∅).
  - exact sample_reports_have_metrics.
  - exact sample_reports_experiences.
  - reflexivity.
Defined.
